(** * Zigbee servo switch: node coordination engine

    A shallow embedding of the four firmware variants of the repository
    and the properties of their coordination logic:

    - [Arduino]  : zigbee_switch/zigbee_switch.ino (end device, deep sleep)
    - [Legacy]   : legacy_esp_idf/main/main.c      (router, auto-return timer)
    - [IdfMain]  : main/main.c                     (router, no timer)
    - [H2]       : H2_Zigbee_Switch/H2_Zigbee_Switch.ino (router, serial console)

    The peripherals the firmware drives (LEDC PWM, esp_timer, the Zigbee
    stack, the RGB LED, deep sleep) are modelled by the calls the firmware
    makes to them: every call is appended to a log, and the little state the
    firmware can observe back (the duty register, the armed alarms) is kept
    next to it.  Serial logging is left out. *)

From Stdlib Require Import ZArith List Bool Lia.
Import ListNotations.
Open Scope Z_scope.

(** ** Machine integers *)

(** [int] on the ESP32-H2 (RV32) is 32 bits wide, two's complement. *)
Definition wrap_int (z : Z) : Z := (z + 2 ^ 31) mod 2 ^ 32 - 2 ^ 31.

(** [unsigned long] / [uint32_t]: 32 bits, wraps modulo 2^32. *)
Definition wrap_u32 (z : Z) : Z := z mod 2 ^ 32.

(** ** Calls into the peripherals and the Zigbee stack *)

Inductive cluster : Type :=
| ClusterOnOff          (* ESP_ZB_ZCL_CLUSTER_ID_ON_OFF, attribute ON_OFF *)
| ClusterLevelControl.  (* ESP_ZB_ZCL_CLUSTER_ID_LEVEL_CONTROL, CURRENT_LEVEL *)

Inductive effect : Type :=
| LedcSetDuty (duty : Z)            (* ledc_set_duty; ledc_update_duty *)
| TimerStop                         (* esp_timer_stop(servo timer) *)
| TimerStartOnce (timeout_us : Z)   (* esp_timer_start_once(servo timer, us) *)
| ZbLockAcquire                     (* esp_zb_lock_acquire(portMAX_DELAY) *)
| ZbLockRelease                     (* esp_zb_lock_release() *)
| ZbReportAttrCmdReq (c : cluster)  (* esp_zb_zcl_report_attr_cmd_req *)
| ZbUpdateReportingInfo (c : cluster) (* esp_zb_zcl_update_reporting_info *)
| ZbSetLight (on : bool)            (* zbLight.setLight / setLightState *)
| ZbRestoreLight                    (* zbLight.restoreLight() *)
| ZbFactoryReset                    (* esp_zb_factory_reset / Zigbee.factoryReset *)
| ZbBegin                           (* Zigbee.begin() *)
| ZbStartInitialization             (* ..._commissioning(MODE_INITIALIZATION) *)
| ZbStartSteering                   (* ..._commissioning(MODE_NETWORK_STEERING) *)
| ZbSchedulerAlarm (delay_ms : Z)   (* esp_zb_scheduler_alarm(retry, _, ms) *)
| LedWrite (r g b : Z)              (* rgbLedWrite / led_strip_set_pixel *)
| Delay (ms : Z)                    (* delay / vTaskDelay *)
| DeepSleepStart.                   (* esp_deep_sleep_start(), does not return *)

(** The servo hardware as the firmware sees it: the duty last written to the
    LEDC channel, the alarms armed for the servo timer in the esp_timer
    service (absolute times, microseconds), and the log of calls made. *)
Record hw : Type := mkHw {
  duty : Z;
  alarms : list Z;
  log : list effect
}.

Definition emit (e : effect) (h : hw) : hw :=
  mkHw (duty h) (alarms h) (log h ++ [e]).

(** [ledc_set_duty(mode, channel, duty); ledc_update_duty(mode, channel)];
    the duty parameter is a [uint32_t]. *)
Definition ledc_write (d : Z) (h : hw) : hw :=
  emit (LedcSetDuty (wrap_u32 d)) (mkHw (wrap_u32 d) (alarms h) (log h)).

(** [esp_timer_stop]: disarms the timer (ESP_ERR_INVALID_STATE when it is not
    armed; the firmware ignores the result). *)
Definition esp_timer_stop (h : hw) : hw :=
  emit TimerStop (mkHw (duty h) [] (log h)).

(** [esp_timer_start_once]: arms the timer [timeout_us] from [now_us]; on a
    timer that is already armed it returns ESP_ERR_INVALID_STATE and leaves
    the armed alarm alone (the firmware ignores the result). *)
Definition esp_timer_start_once (now_us timeout_us : Z) (h : hw) : hw :=
  emit (TimerStartOnce timeout_us)
       (mkHw (duty h)
             (match alarms h with
              | [] => [now_us + timeout_us]
              | _ :: _ => alarms h
              end)
             (log h)).

(** The esp_timer task, for the one-shot servo timer: the armed alarm is due
    at [now_us] when its time has come; the task disarms a due alarm and then
    runs its callback. *)
Definition esp_timer_due (now_us : Z) (h : hw) : bool :=
  match alarms h with
  | d :: _ => d <=? now_us
  | [] => false
  end.

Definition esp_timer_disarm (h : hw) : hw := mkHw (duty h) [] (log h).

(** What a piece of code appended to the log. *)
Definition new_effects (before after : hw) : list effect :=
  skipn (length (log before)) (log after).

(** Position commands in a log. *)
Definition is_servo_cmd (e : effect) : bool :=
  match e with LedcSetDuty _ => true | _ => false end.

Definition servo_cmds (l : list effect) : list effect := filter is_servo_cmd l.

(** ** Servo angle to PWM duty (all variants share the formula)

    [int duty = DUTY_AT_0_DEG + (angle * (DUTY_AT_180_DEG - DUTY_AT_0_DEG) / 180);]
    C division truncates towards zero. *)
Definition DUTY_AT_0_DEG : Z := 205.
Definition DUTY_AT_180_DEG : Z := 1024.
Definition SERVO_REST_ANGLE : Z := 20.
Definition SERVO_AUTO_RETURN_MS : Z := 2000.

Definition servo_duty (angle : Z) : Z :=
  wrap_int (DUTY_AT_0_DEG +
            Z.quot (wrap_int (angle * wrap_int (DUTY_AT_180_DEG - DUTY_AT_0_DEG))) 180).

(** [servo_set_angle] / [servoSetAngle]. *)
Definition servo_set_angle (angle : Z) (h : hw) : hw :=
  ledc_write (servo_duty angle) h.


(** ** The scoped exclusive-access discipline on a log

    Walking the log with the lock state and the number of requests made in
    the current region: a request into the stack (a report or a reporting
    configuration) needs the lock held and is the only one of its region; a
    release closes a region that made its request; at the end the lock is
    free. *)
Definition is_stack_request (e : effect) : bool :=
  match e with
  | ZbReportAttrCmdReq _ | ZbUpdateReportingInfo _ => true
  | _ => false
  end.

Fixpoint lock_scoped_from (held : bool) (reqs : nat) (l : list effect) : bool :=
  match l with
  | [] => negb held
  | ZbLockAcquire :: l' => negb held && lock_scoped_from true 0 l'
  | ZbLockRelease :: l' => held && Nat.eqb reqs 1 && lock_scoped_from false 0 l'
  | e :: l' =>
      if is_stack_request e
      then held && Nat.eqb reqs 0 && lock_scoped_from held (S reqs) l'
      else lock_scoped_from held reqs l'
  end.

Definition lock_scoped (l : list effect) : bool := lock_scoped_from false 0 l.

Definition is_report (e : effect) : bool :=
  match e with ZbReportAttrCmdReq _ => true | _ => false end.

Definition reports (l : list effect) : list effect := filter is_report l.

Inductive gpio_level : Type := Low | High.   (* gpio_get_level: 0 | 1 *)

(** ** Attribute writes from the network

    The fields of [esp_zb_zcl_set_attr_value_message_t] that the handlers
    read; [attr_value] is the byte at [attribute.data.value] read as a
    [bool].  The identifiers are those of the Zigbee SDK headers. *)
Record attr_message : Type := mkAttrMessage {
  dst_endpoint : Z;
  msg_cluster : Z;
  attr_id : Z;
  attr_type : Z;
  attr_value : bool
}.

Definition ESP_ZB_ZCL_CLUSTER_ID_ON_OFF : Z := 6.
Definition ESP_ZB_ZCL_ATTR_ON_OFF_ON_OFF_ID : Z := 0.
Definition ESP_ZB_ZCL_ATTR_TYPE_BOOL : Z := 16.

Inductive esp_err_t : Type := ESP_OK | ESP_FAIL.

Inductive callback_id : Type :=
| ESP_ZB_CORE_SET_ATTR_VALUE_CB_ID
| OTHER_CB_ID.

(** C remainder: [%] truncates towards zero. *)
Definition c_rem (a b : Z) : Z := Z.rem a b.

(** * legacy_esp_idf/main/main.c *)
Module Legacy.

Definition SERVO_TARGET_ANGLE : Z := 160.
Definition BUTTON_LONG_PRESS_MS : Z := 3000.
Definition BUTTON_DEBOUNCE_MS : Z := 50.

Inductive led_state_t : Type :=
| LED_OFF | LED_PAIRING | LED_CONNECTED | LED_ERROR | LED_RESET_WARN.

(** The globals; [g_servo_timer] is whether the handle is not NULL. *)
Record state : Type := mkState {
  board : hw;
  g_zigbee_connected : bool;
  g_servo_at_target : bool;
  g_servo_timer : bool;
  g_led_state : led_state_t
}.

Definition with_board (f : hw -> hw) (s : state) : state :=
  mkState (f (board s)) (g_zigbee_connected s) (g_servo_at_target s)
          (g_servo_timer s) (g_led_state s).

Definition set_servo_at_target (b : bool) (s : state) : state :=
  mkState (board s) (g_zigbee_connected s) b (g_servo_timer s) (g_led_state s).

Definition set_led_state (l : led_state_t) (s : state) : state :=
  mkState (board s) (g_zigbee_connected s) (g_servo_at_target s)
          (g_servo_timer s) l.

(** [servo_return_callback]: the esp_timer callback. *)
Definition servo_return_callback (s : state) : state :=
  set_servo_at_target false (with_board (servo_set_angle SERVO_REST_ANGLE) s).

Definition servo_cancel_timer (s : state) : state :=
  if g_servo_timer s then with_board esp_timer_stop s else s.

Definition servo_start_timer (now_us : Z) (s : state) : state :=
  if g_servo_timer s
  then with_board
         (fun h => esp_timer_start_once now_us (SERVO_AUTO_RETURN_MS * 1000)
                                        (esp_timer_stop h)) s
  else s.

Definition servo_play (now_us : Z) (s : state) : state :=
  servo_start_timer now_us
    (set_servo_at_target true
       (with_board (servo_set_angle SERVO_TARGET_ANGLE) s)).

Definition servo_rest (s : state) : state :=
  set_servo_at_target false
    (with_board (servo_set_angle SERVO_REST_ANGLE) (servo_cancel_timer s)).

Definition servo_toggle (now_us : Z) (s : state) : state :=
  if g_servo_at_target s then servo_rest s else servo_play now_us s.

Definition report_attribute (s : state) : state :=
  with_board (emit (ZbReportAttrCmdReq ClusterOnOff)) s.

(** The locals of [button_task]. *)
Record button : Type := mkButton {
  btn_pressed : bool;
  press_start_ms : Z;
  long_press_handled : bool
}.

Definition button_init : button := mkButton false 0 false.

(** What one iteration of the loop of [button_task] reads: the level at the
    top, the level read again after the debounce delay (when the iteration
    debounces), and [esp_timer_get_time()] (int64 microseconds). *)
Record sample : Type := mkSample {
  level : gpio_level;
  level_debounced : gpio_level;
  now_us : Z
}.

Definition button_iteration (i : sample) (b : button) (s : state)
  : button * state :=
  let '(b', s') :=
    match level i, btn_pressed b with
    | Low, false =>
        let s1 := with_board (emit (Delay BUTTON_DEBOUNCE_MS)) s in
        match level_debounced i with
        | Low => (mkButton true (Z.quot (now_us i) 1000) false, s1)
        | High => (b, s1)
        end
    | Low, true =>
        if negb (long_press_handled b) then
          let hold_time := Z.quot (now_us i) 1000 - press_start_ms b in
          if hold_time >? BUTTON_LONG_PRESS_MS
          then (mkButton (btn_pressed b) (press_start_ms b) true,
                set_led_state LED_RESET_WARN s)
          else (b, s)
        else (b, s)
    | High, true =>
        let s1 := with_board (emit (Delay BUTTON_DEBOUNCE_MS)) s in
        match level_debounced i with
        | High =>
            let s2 :=
              if long_press_handled b
              then with_board (emit ZbFactoryReset) s1
              else
                let s3 := servo_toggle (now_us i) s1 in
                if g_zigbee_connected s3 then report_attribute s3 else s3 in
            (mkButton false 0 false, s2)
        | Low => (b, s1)
        end
    | High, false => (b, s)
    end in
  (b', with_board (emit (Delay 20)) s').

(** The loop of [button_task], for the iterations whose readings are given. *)
Fixpoint button_task (samples : list sample) (b : button) (s : state)
  : button * state :=
  match samples with
  | [] => (b, s)
  | i :: rest =>
      let '(b', s') := button_iteration i b s in button_task rest b' s'
  end.

(** [set_led], with [strip] whether [g_led_strip] is not NULL. *)
Definition set_led (strip : bool) (r g b : Z) (s : state) : state :=
  if strip then with_board (emit (LedWrite r g b)) s else s.

(** One iteration of the loop of [led_task]; [tick] is its local counter. *)
Definition led_iteration (strip : bool) (tick : Z) (s : state) : Z * state :=
  let '(tick', s') :=
    match g_led_state s with
    | LED_OFF => (tick, set_led strip 0 0 0 s)
    | LED_PAIRING =>
        (wrap_int (tick + 1),
         if c_rem tick 2 =? 0 then set_led strip 0 0 50 s
         else set_led strip 0 0 0 s)
    | LED_CONNECTED => (tick, set_led strip 0 20 0 s)
    | LED_ERROR =>
        (wrap_int (tick + 1),
         if c_rem tick 5 =? 0 then set_led strip 20 0 0 s
         else set_led strip 0 0 0 s)
    | LED_RESET_WARN => (tick, set_led strip 0 0 50 s)
    end in
  (tick', with_board (emit (Delay 100)) s').

(** The loop of [led_task], for [n] iterations. *)
Fixpoint led_task (n : nat) (strip : bool) (tick : Z) (s : state) : Z * state :=
  match n with
  | O => (tick, s)
  | S n' =>
      let '(tick', s') := led_iteration strip tick s in
      led_task n' strip tick' s'
  end.

(** The esp_timer task dispatching the servo timer at [now_us]. *)
Definition timer_task (now_us : Z) (s : state) : state :=
  if g_servo_timer s && esp_timer_due now_us (board s)
  then servo_return_callback (with_board esp_timer_disarm s)
  else s.

(** [servo_play] with the esp_timer task let in between its statements:
    [after_angle] and [after_flag] are whether the task dispatches the servo
    timer after [servo_set_angle] and after the write of
    [g_servo_at_target].  The callback is dispatched from the esp_timer task
    (ESP_TIMER_TASK) and nothing in the file keeps it out of [servo_play]. *)
Definition servo_play_preempted (now_us : Z) (after_angle after_flag : bool)
    (s : state) : state :=
  let s1 := with_board (servo_set_angle SERVO_TARGET_ANGLE) s in
  let s2 := if after_angle then timer_task now_us s1 else s1 in
  let s3 := set_servo_at_target true s2 in
  let s4 := if after_flag then timer_task now_us s3 else s3 in
  servo_start_timer now_us s4.

Definition HA_HUE_ENDPOINT : Z := 10.

Definition zb_attribute_handler (now_us : Z) (m : attr_message) (s : state)
  : esp_err_t * state :=
  (ESP_OK,
   if dst_endpoint m =? HA_HUE_ENDPOINT then
     if msg_cluster m =? ESP_ZB_ZCL_CLUSTER_ID_ON_OFF then
       if attr_id m =? ESP_ZB_ZCL_ATTR_ON_OFF_ON_OFF_ID then
         if attr_value m then servo_play now_us s else servo_rest s
       else s
     else s
   else s).

Definition zb_action_handler (id : callback_id) (now_us : Z) (m : attr_message)
    (s : state) : esp_err_t * state :=
  match id with
  | ESP_ZB_CORE_SET_ATTR_VALUE_CB_ID => zb_attribute_handler now_us m s
  | OTHER_CB_ID => (ESP_OK, s)
  end.

Definition set_zigbee_connected (b : bool) (s : state) : state :=
  mkState (board s) b (g_servo_at_target s) (g_servo_timer s) (g_led_state s).

Inductive signal : Type :=
| SIGNAL_SKIP_STARTUP
| SIGNAL_DEVICE_FIRST_START
| SIGNAL_DEVICE_REBOOT
| SIGNAL_STEERING
| SIGNAL_CAN_SLEEP
| SIGNAL_OTHER.

(** [esp_zb_app_signal_handler]; [err_ok] is [err_status == ESP_OK]. *)
Definition esp_zb_app_signal_handler (sig : signal) (err_ok : bool) (s : state)
  : state :=
  match sig with
  | SIGNAL_SKIP_STARTUP => with_board (emit ZbStartInitialization) s
  | SIGNAL_DEVICE_FIRST_START | SIGNAL_DEVICE_REBOOT =>
      if err_ok
      then set_led_state LED_PAIRING (with_board (emit ZbStartSteering) s)
      else set_led_state LED_ERROR s
  | SIGNAL_STEERING =>
      if err_ok
      then set_zigbee_connected true (set_led_state LED_CONNECTED s)
      else with_board (emit (ZbSchedulerAlarm 1000)) s
  | SIGNAL_CAN_SLEEP => s
  | SIGNAL_OTHER => s
  end.

(** The signals the stack delivers, in order, each with its status. *)
Definition signals (l : list (signal * bool)) (s : state) : state :=
  fold_left (fun s x => esp_zb_app_signal_handler (fst x) (snd x) s) l s.

End Legacy.

(** * H2_Zigbee_Switch/H2_Zigbee_Switch.ino *)
Module H2.

Definition SERVO_TARGET_ANGLE : Z := 160.

Record state : Type := mkState {
  board : hw;
  g_zigbeeConnected : bool;
  g_servoAtTarget : bool;
  g_servoTimer : bool
}.

Definition with_board (f : hw -> hw) (s : state) : state :=
  mkState (f (board s)) (g_zigbeeConnected s) (g_servoAtTarget s)
          (g_servoTimer s).

Definition set_servoAtTarget (b : bool) (s : state) : state :=
  mkState (board s) (g_zigbeeConnected s) b (g_servoTimer s).

Definition servoReturnCallback (s : state) : state :=
  set_servoAtTarget false (with_board (servo_set_angle SERVO_REST_ANGLE) s).

Definition servoPlay (now_us : Z) (s : state) : state :=
  let s1 := set_servoAtTarget true
              (with_board (servo_set_angle SERVO_TARGET_ANGLE) s) in
  if g_servoTimer s1
  then with_board
         (fun h => esp_timer_start_once now_us (SERVO_AUTO_RETURN_MS * 1000)
                                        (esp_timer_stop h)) s1
  else s1.

Definition servoRest (s : state) : state :=
  let s1 := if g_servoTimer s then with_board esp_timer_stop s else s in
  set_servoAtTarget false (with_board (servo_set_angle SERVO_REST_ANGLE) s1).

Inductive LedState_t : Type :=
| LED_OFF | LED_PAIRING | LED_CONNECTED | LED_ERROR.

Definition setLED (r g b : Z) (s : state) : state :=
  with_board (emit (LedWrite r g b)) s.

(** One iteration of the loop of [ledTask]; [led] is [g_ledState] and [tick]
    the local counter. *)
Definition ledTask_iteration (led : LedState_t) (tick : Z) (s : state)
  : Z * state :=
  let s' :=
    match led with
    | LED_OFF => setLED 0 0 0 s
    | LED_PAIRING => setLED 0 0 (if c_rem tick 2 =? 0 then 0 else 50) s
    | LED_CONNECTED => setLED 0 20 0 s
    | LED_ERROR => setLED (if c_rem tick 2 =? 0 then 0 else 50) 0 0 s
    end in
  (wrap_int (tick + 1), with_board (emit (Delay 200)) s').

(** The loop of [ledTask], for [n] iterations that find [g_ledState] at
    [led]. *)
Fixpoint ledTask (n : nat) (led : LedState_t) (tick : Z) (s : state)
  : Z * state :=
  match n with
  | O => (tick, s)
  | S n' =>
      let '(tick', s') := ledTask_iteration led tick s in
      ledTask n' led tick' s'
  end.

Definition ENDPOINT_ID : Z := 1.

Definition zb_attribute_handler (now_us : Z) (m : attr_message) (s : state)
  : esp_err_t * state :=
  if negb (dst_endpoint m =? ENDPOINT_ID) then (ESP_OK, s)
  else
    (ESP_OK,
     if (msg_cluster m =? ESP_ZB_ZCL_CLUSTER_ID_ON_OFF)
        && (attr_id m =? ESP_ZB_ZCL_ATTR_ON_OFF_ON_OFF_ID)
     then if attr_value m then servoPlay now_us s else servoRest s
     else s).

Definition zb_action_handler (id : callback_id) (now_us : Z) (m : attr_message)
    (s : state) : esp_err_t * state :=
  match id with
  | ESP_ZB_CORE_SET_ATTR_VALUE_CB_ID => zb_attribute_handler now_us m s
  | OTHER_CB_ID => (ESP_OK, s)
  end.

(** The esp_timer task dispatching the servo timer at [now_us]. *)
Definition timer_task (now_us : Z) (s : state) : state :=
  if g_servoTimer s && esp_timer_due now_us (board s)
  then servoReturnCallback (with_board esp_timer_disarm s)
  else s.

End H2.

(** * main/main.c *)
Module IdfMain.

Definition SERVO_TARGET_ANGLE : Z := 180.
Definition BUTTON_LONG_PRESS_MS : Z := 3000.
Definition BUTTON_DEBOUNCE_MS : Z := 50.

Inductive led_state_t : Type :=
| LED_OFF | LED_PAIRING | LED_CONNECTED | LED_ERROR | LED_RESET_WARN.

Record state : Type := mkState {
  board : hw;
  g_zigbee_connected : bool;
  g_servo_state : bool;
  g_led_state : led_state_t
}.

Definition with_board (f : hw -> hw) (s : state) : state :=
  mkState (f (board s)) (g_zigbee_connected s) (g_servo_state s)
          (g_led_state s).

Definition set_servo_state (b : bool) (s : state) : state :=
  mkState (board s) (g_zigbee_connected s) b (g_led_state s).

Definition set_led_state (l : led_state_t) (s : state) : state :=
  mkState (board s) (g_zigbee_connected s) (g_servo_state s) l.

Definition set_zigbee_connected (b : bool) (s : state) : state :=
  mkState (board s) b (g_servo_state s) (g_led_state s).

Definition set_servo (on : bool) (s : state) : state :=
  let angle := if on then SERVO_TARGET_ANGLE else SERVO_REST_ANGLE in
  set_servo_state on (with_board (ledc_write (servo_duty angle)) s).

Definition report_attribute (s : state) : state :=
  with_board (emit (ZbReportAttrCmdReq ClusterOnOff)) s.

Inductive signal : Type :=
| SIGNAL_SKIP_STARTUP
| SIGNAL_DEVICE_FIRST_START
| SIGNAL_DEVICE_REBOOT
| SIGNAL_STEERING
| SIGNAL_LEAVE
| SIGNAL_OTHER.

(** [esp_zb_app_signal_handler]; [err_ok] is [err_status == ESP_OK] and
    [factory_new] what [esp_zb_bdb_is_factory_new()] answers. *)
Definition esp_zb_app_signal_handler
    (sig : signal) (err_ok factory_new : bool) (s : state) : state :=
  match sig with
  | SIGNAL_SKIP_STARTUP => with_board (emit ZbStartInitialization) s
  | SIGNAL_DEVICE_FIRST_START | SIGNAL_DEVICE_REBOOT =>
      if err_ok then
        if factory_new
        then with_board (emit ZbStartSteering) (set_led_state LED_PAIRING s)
        else set_zigbee_connected true (set_led_state LED_CONNECTED s)
      else set_led_state LED_ERROR s
  | SIGNAL_STEERING =>
      if err_ok
      then set_zigbee_connected true (set_led_state LED_CONNECTED s)
      else with_board (emit (ZbSchedulerAlarm 1000)) s
  | SIGNAL_LEAVE => set_led_state LED_OFF (set_zigbee_connected false s)
  | SIGNAL_OTHER => s
  end.

(** The locals of [button_task]. *)
Record button : Type := mkButton {
  last_level : gpio_level;
  press_start : Z;
  handled : bool
}.

Definition button_init : button := mkButton High 0 false.

(** What one iteration of the loop reads: the level at the top, the level
    read again after the debounce delay (on a falling edge), and
    [esp_timer_get_time()] (int64 microseconds) as read in this iteration. *)
Record sample : Type := mkSample {
  level : gpio_level;
  level_debounced : gpio_level;
  now_us : Z
}.

Definition is_low (l : gpio_level) : bool :=
  match l with Low => true | High => false end.

Definition is_high (l : gpio_level) : bool := negb (is_low l).

Definition button_iteration (i : sample) (b : button) (s : state)
  : button * state :=
  (* Press *)
  let '(b1, s1) :=
    if is_high (last_level b) && is_low (level i) then
      let s' := with_board (emit (Delay BUTTON_DEBOUNCE_MS)) s in
      if is_low (level_debounced i)
      then (mkButton (last_level b) (Z.quot (now_us i) 1000) false, s')
      else (b, s')
    else (b, s) in
  (* Holding *)
  let '(b2, s2) :=
    if is_low (level i) && negb (handled b1) then
      if Z.quot (now_us i) 1000 - press_start b1 >? BUTTON_LONG_PRESS_MS
      then (mkButton (last_level b1) (press_start b1) true,
            set_led_state LED_RESET_WARN s1)
      else (b1, s1)
    else (b1, s1) in
  (* Release *)
  let '(b3, s3) :=
    if is_low (last_level b2) && is_high (level i) then
      let s' :=
        if handled b2 then with_board (emit ZbFactoryReset) s2
        else if press_start b2 >? 0
             then report_attribute (set_servo (negb (g_servo_state s2)) s2)
             else s2 in
      (mkButton (last_level b2) 0 (handled b2), s')
    else (b2, s2) in
  (mkButton (level i) (press_start b3) (handled b3),
   with_board (emit (Delay 50)) s3).

(** The loop of [button_task], for the iterations whose readings are given. *)
Fixpoint button_task (samples : list sample) (b : button) (s : state)
  : button * state :=
  match samples with
  | [] => (b, s)
  | i :: rest =>
      let '(b', s') := button_iteration i b s in button_task rest b' s'
  end.

Definition HA_HUE_ENDPOINT : Z := 11.

Definition zb_attribute_handler (m : attr_message) (s : state)
  : esp_err_t * state :=
  (ESP_OK,
   if dst_endpoint m =? HA_HUE_ENDPOINT then
     if msg_cluster m =? ESP_ZB_ZCL_CLUSTER_ID_ON_OFF then
       if (attr_id m =? ESP_ZB_ZCL_ATTR_ON_OFF_ON_OFF_ID)
          && (attr_type m =? ESP_ZB_ZCL_ATTR_TYPE_BOOL)
       then set_servo (attr_value m) s
       else s
     else s
   else s).

Definition zb_action_handler (id : callback_id) (m : attr_message) (s : state)
  : esp_err_t * state :=
  match id with
  | ESP_ZB_CORE_SET_ATTR_VALUE_CB_ID => zb_attribute_handler m s
  | OTHER_CB_ID => (ESP_OK, s)
  end.

(** The signals the stack delivers, in order, each with its status and with
    what [esp_zb_bdb_is_factory_new()] answers at that moment. *)
Definition signals (l : list (signal * bool * bool)) (s : state) : state :=
  fold_left
    (fun s x => esp_zb_app_signal_handler (fst (fst x)) (snd (fst x)) (snd x) s)
    l s.

End IdfMain.

(** * zigbee_switch/zigbee_switch.ino *)
Module Arduino.

Definition PAIRING_TIMEOUT_MS : Z := 40000.
Definition LED_FAST_BLINK_MS : Z := 100.
Definition LED_SLOW_BLINK_MS : Z := 500.
Definition LONG_PRESS_MS : Z := 3000.
Definition DEBOUNCE_MS : Z := 100.
Definition SERVO_DUTY_MIN : Z := DUTY_AT_0_DEG.
Definition SERVO_TARGET_ANGLE : Z := 160.
Definition DEFAULT_BRIGHTNESS : Z := 255.
Definition DEFAULT_RED : Z := 255.
Definition DEFAULT_GREEN : Z := 255.
Definition DEFAULT_BLUE : Z := 255.

Inductive PairingState : Type :=
| PAIRING_IDLE | PAIRING_IN_PROGRESS | PAIRING_FAILED.

Inductive ButtonAction : Type :=
| BUTTON_NONE | BUTTON_SHORT_PRESS | BUTTON_LONG_PRESS.

Record DeviceState : Type := mkDeviceState {
  pairing : PairingState;
  pairingStartTime : Z;
  lastLedToggle : Z;
  ledBlinkOn : bool
}.

(** The attributes [zbLight] answers for (getLightState, getLightLevel, ...). *)
Record Light : Type := mkLight {
  lightState : bool;
  lightLevel : Z;
  lightRed : Z;
  lightGreen : Z;
  lightBlue : Z
}.

(** The statics of [checkButton]. *)
Record ButtonStatics : Type := mkButtonStatics {
  wasPressed : bool;
  pressStartTime : Z;
  longPressHandled : bool
}.

(** The globals and function statics.  [servoTimer] is whether the handle is
    not NULL; [running] turns false when the chip enters deep sleep or
    restarts, which ends the execution of the sketch. *)
Record world : Type := mkWorld {
  board : hw;
  servoTimer : bool;
  servoAutoReturnPending : bool;
  state : DeviceState;
  zbLight : Light;
  buttonStatics : ButtonStatics;
  lastPrint : Z;
  running : bool
}.

(** What the Zigbee library calls back.  [setup] registers [onRgbChange] and
    [onTempChange] with [zbLight] (onLightChangeRgb, onLightChangeTemp); the
    library, which is not part of the sketch, can run one of them before a
    call that sets or restores the light returns.  Which one a call runs, if
    any, and with which arguments, is read from outside.  Both callbacks
    scale the colour by the level in floating point before they write it to
    the LED, [onTempChange] after it has turned the mireds into a warm and a
    cold share ([miredsToKelvin], then [map] and [constrain] of the Arduino
    core); the bytes they write ([r * brightness], [g * brightness],
    [b * brightness]; [warm * brightness], [cold * brightness]) stand here
    for the arguments they are computed from.  What the callbacks do with the
    servo depends on [on] alone. *)
Inductive LightChange : Type :=
| NoCallback
| RgbChange (on : bool) (led_r led_g led_b : Z)
| TempChange (on : bool) (led_warm led_cold : Z).

(** What the sketch reads from outside during one call: the button
    ([digitalRead(BUTTON_PIN) == LOW]), [millis()] (an unsigned long), the
    esp_timer clock, [Zigbee.connected()], whether a request into the
    stack answers ESP_OK, and what the library calls back when the call sets
    or restores the light. *)
Record env : Type := mkEnv {
  pressed : bool;
  now_ms : Z;
  now_us : Z;
  connected : bool;
  zb_ok : bool;
  light_change : LightChange
}.

Definition with_board (f : hw -> hw) (w : world) : world :=
  mkWorld (f (board w)) (servoTimer w) (servoAutoReturnPending w) (state w)
          (zbLight w) (buttonStatics w) (lastPrint w) (running w).

Definition set_servoTimer (b : bool) (w : world) : world :=
  mkWorld (board w) b (servoAutoReturnPending w) (state w)
          (zbLight w) (buttonStatics w) (lastPrint w) (running w).

Definition set_servoAutoReturnPending (b : bool) (w : world) : world :=
  mkWorld (board w) (servoTimer w) b (state w)
          (zbLight w) (buttonStatics w) (lastPrint w) (running w).

Definition set_state (d : DeviceState) (w : world) : world :=
  mkWorld (board w) (servoTimer w) (servoAutoReturnPending w) d
          (zbLight w) (buttonStatics w) (lastPrint w) (running w).

Definition set_zbLight (l : Light) (w : world) : world :=
  mkWorld (board w) (servoTimer w) (servoAutoReturnPending w) (state w)
          l (buttonStatics w) (lastPrint w) (running w).

Definition set_buttonStatics (b : ButtonStatics) (w : world) : world :=
  mkWorld (board w) (servoTimer w) (servoAutoReturnPending w) (state w)
          (zbLight w) b (lastPrint w) (running w).

Definition set_lastPrint (t : Z) (w : world) : world :=
  mkWorld (board w) (servoTimer w) (servoAutoReturnPending w) (state w)
          (zbLight w) (buttonStatics w) t (running w).

Definition set_running (b : bool) (w : world) : world :=
  mkWorld (board w) (servoTimer w) (servoAutoReturnPending w) (state w)
          (zbLight w) (buttonStatics w) (lastPrint w) b.

Definition set_pairing (p : PairingState) (d : DeviceState) : DeviceState :=
  mkDeviceState p (pairingStartTime d) (lastLedToggle d) (ledBlinkOn d).

Definition set_pairingStartTime (t : Z) (d : DeviceState) : DeviceState :=
  mkDeviceState (pairing d) t (lastLedToggle d) (ledBlinkOn d).

Definition delay (ms : Z) (w : world) : world := with_board (emit (Delay ms)) w.

(** *** Servo *)

Definition servoSetAngle (angle : Z) (w : world) : world :=
  with_board (servo_set_angle angle) w.

(** [servoReturnCallback]: the esp_timer callback. *)
Definition servoReturnCallback (w : world) : world :=
  set_servoAutoReturnPending true w.

Definition servoPlay (e : env) (w : world) : world :=
  let w1 := servoSetAngle SERVO_TARGET_ANGLE w in
  if servoTimer w1
  then with_board
         (fun h => esp_timer_start_once (now_us e)
                     (wrap_u32 (SERVO_AUTO_RETURN_MS * 1000))
                     (esp_timer_stop h)) w1
  else w1.

Definition servoRest (w : world) : world :=
  let w1 := if servoTimer w then with_board esp_timer_stop w else w in
  servoSetAngle SERVO_REST_ANGLE w1.

(** [servoInit]; [timer_ok] is whether [esp_timer_create] gave a handle. *)
Definition servoInit (timer_ok : bool) (w : world) : world :=
  let w1 := with_board
              (fun h => mkHw SERVO_DUTY_MIN (alarms h) (log h)) w in
  set_servoTimer timer_ok (servoSetAngle SERVO_REST_ANGLE w1).

(** *** LED *)

Definition ledSetColor (r g b : Z) (w : world) : world :=
  with_board (emit (LedWrite r g b)) w.

Definition ledOff : world -> world := ledSetColor 0 0 0.
Definition ledBlue : world -> world := ledSetColor 0 0 255.
Definition ledRed : world -> world := ledSetColor 255 0 0.
Definition ledWhite : world -> world := ledSetColor 255 255 255.

Definition ledBlink (interval : Z) (colorFunc : world -> world)
    (e : env) (w : world) : world :=
  let now := now_ms e in
  if wrap_u32 (now - lastLedToggle (state w)) >=? interval then
    let on := negb (ledBlinkOn (state w)) in
    let w1 := set_state (mkDeviceState (pairing (state w))
                           (pairingStartTime (state w))
                           (lastLedToggle (state w)) on) w in
    let w2 := if on then colorFunc w1 else ledOff w1 in
    set_state (mkDeviceState (pairing (state w2)) (pairingStartTime (state w2))
                 now (ledBlinkOn (state w2))) w2
  else w.

(** *** Reports *)

Definition locked_request (req : effect) (w : world) : world :=
  with_board (fun h => emit ZbLockRelease (emit req (emit ZbLockAcquire h))) w.

Definition setupOnOffReporting (e : env) (w : world) : bool * world :=
  (zb_ok e, locked_request (ZbUpdateReportingInfo ClusterOnOff) w).

Definition setupLevelReporting (e : env) (w : world) : bool * world :=
  (zb_ok e, locked_request (ZbUpdateReportingInfo ClusterLevelControl) w).

Definition setupReporting (e : env) (w : world) : world :=
  snd (setupLevelReporting e (snd (setupOnOffReporting e w))).

Definition reportOnOff (e : env) (w : world) : bool * world :=
  (zb_ok e, locked_request (ZbReportAttrCmdReq ClusterOnOff) w).

Definition reportLevel (e : env) (w : world) : bool * world :=
  (zb_ok e, locked_request (ZbReportAttrCmdReq ClusterLevelControl) w).

Definition reportLightState (e : env) (w : world) : world :=
  if negb (connected e) then w
  else snd (reportLevel e (snd (reportOnOff e w))).

(** *** Callbacks of the light *)

Definition onRgbChange (on : bool) (led_r led_g led_b : Z) (e : env)
    (w : world) : world :=
  if negb on then servoRest (ledOff w)
  else servoPlay e (ledSetColor led_r led_g led_b w).

Definition onTempChange (on : bool) (led_warm led_cold : Z) (e : env)
    (w : world) : world :=
  if negb on then servoRest (ledOff w)
  else servoPlay e (ledSetColor led_warm led_warm led_cold w).

(** The library running the registered callback, inside [setLight],
    [setLightState] or [restoreLight]. *)
Definition lightChanged (e : env) (w : world) : world :=
  match light_change e with
  | NoCallback => w
  | RgbChange on r g b => onRgbChange on r g b e w
  | TempChange on lw lc => onTempChange on lw lc e w
  end.

(** *** Light *)

(** [zbLight.setLight] and [zbLight.setLightState] belong to the Zigbee
    library: they store the attributes, are logged, and run the callback. *)
Definition turnLightOn (e : env) (w : world) : world :=
  let l := zbLight w in
  let level := if lightLevel l =? 0 then DEFAULT_BRIGHTNESS else lightLevel l in
  let dark := (lightRed l =? 0) && (lightGreen l =? 0) && (lightBlue l =? 0) in
  let r := if dark then DEFAULT_RED else lightRed l in
  let g := if dark then DEFAULT_GREEN else lightGreen l in
  let b := if dark then DEFAULT_BLUE else lightBlue l in
  let w1 := lightChanged e
              (with_board (emit (ZbSetLight true))
                 (set_zbLight (mkLight true level r g b) w)) in
  let w2 := servoPlay e w1 in
  reportLightState e (delay 50 w2).

Definition turnLightOff (e : env) (w : world) : world :=
  let l := zbLight w in
  let w1 := lightChanged e
              (with_board (emit (ZbSetLight false))
                 (set_zbLight (mkLight false (lightLevel l) (lightRed l)
                                 (lightGreen l) (lightBlue l)) w)) in
  let w2 := servoRest (ledOff w1) in
  reportLightState e (delay 50 w2).

Definition toggleLight (e : env) (w : world) : world :=
  if lightState (zbLight w) then turnLightOff e w else turnLightOn e w.

(** *** Button *)

Definition checkButton (e : env) (b : ButtonStatics)
  : ButtonAction * ButtonStatics :=
  let isPressed := pressed e in
  if isPressed && negb (wasPressed b) then
    (BUTTON_NONE, mkButtonStatics true (now_ms e) false)
  else if isPressed && wasPressed b then
    if negb (longPressHandled b)
       && (wrap_u32 (now_ms e - pressStartTime b) >? LONG_PRESS_MS)
    then (BUTTON_LONG_PRESS, mkButtonStatics (wasPressed b) (pressStartTime b) true)
    else (BUTTON_NONE, b)
  else if negb isPressed && wasPressed b then
    let b' := mkButtonStatics false (pressStartTime b) (longPressHandled b) in
    if negb (longPressHandled b)
       && (wrap_u32 (now_ms e - pressStartTime b) >? DEBOUNCE_MS)
    then (BUTTON_SHORT_PRESS, b')
    else (BUTTON_NONE, b')
  else (BUTTON_NONE, b).

(** [checkButton] over consecutive polls: the actions it answers. *)
Fixpoint checkButton_polls (es : list env) (b : ButtonStatics)
  : list ButtonAction * ButtonStatics :=
  match es with
  | [] => ([], b)
  | e :: es' =>
      let '(a, b1) := checkButton e b in
      let '(acts, b2) := checkButton_polls es' b1 in
      (a :: acts, b2)
  end.

(** [Zigbee.factoryReset()] erases the network identity and restarts the
    chip. *)
Definition handleButton (action : ButtonAction) (e : env) (w : world) : world :=
  match action with
  | BUTTON_SHORT_PRESS => toggleLight e w
  | BUTTON_LONG_PRESS =>
      set_running false
        (with_board (emit ZbFactoryReset) (delay 500 (ledRed w)))
  | BUTTON_NONE => w
  end.

(** *** Deep sleep *)

Definition enterDeepSleep (w : world) : world :=
  set_running false
    (with_board (emit DeepSleepStart) (delay 100 (servoRest (ledOff w)))).

(** *** Pairing state machine *)

Definition updatePairingState (e : env) (w : world) : world :=
  let elapsed := wrap_u32 (now_ms e - pairingStartTime (state w)) in
  match pairing (state w) with
  | PAIRING_IDLE =>
      if negb (connected e)
      then set_state (set_pairingStartTime (now_ms e)
                        (set_pairing PAIRING_IN_PROGRESS (state w))) w
      else w
  | PAIRING_IN_PROGRESS =>
      if connected e then
        let w1 := set_state (set_pairing PAIRING_IDLE (state w)) w in
        let w2 := setupReporting e w1 in
        let w3 := lightChanged e (with_board (emit ZbRestoreLight) w2) in
        reportLightState e (delay 500 w3)
      else if elapsed >? PAIRING_TIMEOUT_MS then
        set_state (set_pairing PAIRING_FAILED (state w)) w
      else
        let w1 := ledBlink LED_SLOW_BLINK_MS ledBlue e w in
        if wrap_u32 (now_ms e - lastPrint w1) >? 1000
        then set_lastPrint (now_ms e) w1
        else w1
  | PAIRING_FAILED => enterDeepSleep (delay 2000 (ledRed w))
  end.

(** *** Wake-up and setup *)

Inductive wakeup_cause : Type :=
| WAKEUP_GPIO          (* ESP_SLEEP_WAKEUP_GPIO *)
| WAKEUP_UNDEFINED.    (* power-on or reset: not a wake from deep sleep *)

(** What [handleWakeup] reads: the wake-up cause, the button at its k-th
    read in the loop, and [millis()] at its k-th read ([millis_at 0] is the
    read of [pressStart]). *)
Record boot_env : Type := mkBootEnv {
  cause : wakeup_cause;
  button_low : nat -> bool;
  millis_at : nat -> Z
}.

(** The [while (digitalRead(BUTTON_PIN) == LOW)] loop, from its k-th turn:
    [Some true] when it returns on the long press, [Some false] when the
    button is found released, [None] when [fuel] turns do not finish it. *)
Fixpoint holdLoop (fuel : nat) (be : boot_env) (pressStart : Z) (k : nat)
    (w : world) : option (bool * world) :=
  match fuel with
  | O => None
  | S fuel' =>
      if button_low be k then
        let w1 := delay 50 w in
        if wrap_u32 (millis_at be (S k) - pressStart) >? LONG_PRESS_MS
        then Some (true, w1)
        else holdLoop fuel' be pressStart (S k) w1
      else Some (false, w)
  end.

Definition handleWakeup (fuel : nat) (be : boot_env) (w : world)
  : option (bool * world) :=
  match cause be with
  | WAKEUP_GPIO =>
      match holdLoop fuel be (millis_at be 0) 0%nat w with
      | None => None
      | Some (true, w1) => Some (true, w1)
      | Some (false, w1) => Some (true, enterDeepSleep w1)
      end
  | WAKEUP_UNDEFINED => Some (true, w)
  end.

(** The world at reset. *)
Definition boot_world (l : Light) : world :=
  mkWorld (mkHw 0 [] []) false false (mkDeviceState PAIRING_IDLE 0 0 false)
          l (mkButtonStatics false 0 false) 0 true.

(** [setup]; [begin_ok] is what [Zigbee.begin()] answers, [e] what is read
    after it. *)
Definition setup (fuel : nat) (be : boot_env) (timer_ok begin_ok : bool)
    (e : env) (w : world) : option world :=
  let w1 := servoInit timer_ok (ledOff w) in
  match handleWakeup fuel be w1 with
  | None => None
  | Some (ok, w2) =>
      if negb (running w2) then Some w2
      else if negb ok then Some w2
      else
        let w3 := with_board (emit ZbBegin) w2 in
        if negb begin_ok then Some (set_running false w3)
        else
          let w4 := set_state (set_pairingStartTime (now_ms e) (state w3)) w3 in
          if connected e then
            let w5 := set_state (set_pairing PAIRING_IDLE (state w4)) w4 in
            Some (reportLightState e (delay 500 (setupReporting e w5)))
          else
            Some (set_state (set_pairing PAIRING_IN_PROGRESS (state w4)) w4)
  end.

(** *** Main loop *)

(** One turn of [loop]; [e1], [e2], [e3] are what its three steps read. *)
Definition loop (e1 e2 e3 : env) (w : world) : world :=
  if negb (running w) then w else
  let w1 :=
    if servoAutoReturnPending w
    then turnLightOff e1 (set_servoAutoReturnPending false w)
    else w in
  let '(action, b) := checkButton e2 (buttonStatics w1) in
  let w2 := handleButton action e2 (set_buttonStatics b w1) in
  if negb (running w2) then w2 else
  let w3 := updatePairingState e3 w2 in
  if negb (running w3) then w3 else
  delay 10 w3.

(** *** Colour temperature

    [uint16_t kelvinToMireds(uint16_t kelvin) { return 1000000 / kelvin; }]
    and its twin: an [int] division, the quotient then cut to 16 bits; no
    result for a zero argument (division by zero). *)
Definition wrap_u16 (z : Z) : Z := z mod 2 ^ 16.

Definition kelvinToMireds (kelvin : Z) : option Z :=
  if kelvin =? 0 then None else Some (wrap_u16 (Z.quot 1000000 kelvin)).

Definition miredsToKelvin (mireds : Z) : option Z :=
  if mireds =? 0 then None else Some (wrap_u16 (Z.quot 1000000 mireds)).

(** *** Identify

    [onIdentify]; [blinkState] is its static (true at boot), [e] what is
    read during the call. *)
Definition onIdentify (time : Z) (blinkState : bool) (e : env) (w : world)
  : bool * world :=
  if time =? 0
  then (blinkState, lightChanged e (with_board (emit ZbRestoreLight) w))
  else
    let blinkState' := negb blinkState in
    (blinkState', if blinkState' then ledWhite w else ledOff w).

(** Consecutive calls of [onIdentify], each with its time and what it
    reads. *)
Fixpoint onIdentify_calls (calls : list (Z * env)) (blinkState : bool)
    (w : world) : bool * world :=
  match calls with
  | [] => (blinkState, w)
  | (t, e) :: rest =>
      let '(b, w') := onIdentify t blinkState e w in
      onIdentify_calls rest b w'
  end.

(** *** The esp_timer task dispatching the servo timer at [now_us] *)
Definition timer_task (now_us : Z) (w : world) : world :=
  if servoTimer w && esp_timer_due now_us (board w)
  then servoReturnCallback (with_board esp_timer_disarm w)
  else w.

End Arduino.

(** * The operations of the actuator timing controller

    [press], [release] and [toggle] as each variant implements them; a
    command carries what the operation reads from outside. *)
Inductive command (R : Type) : Type :=
| Press (r : R)
| Release
| Toggle (r : R).
Arguments Press {R} r.
Arguments Release {R}.
Arguments Toggle {R} r.

Definition legacy_exec (c : command Z) (s : Legacy.state) : Legacy.state :=
  match c with
  | Press now => Legacy.servo_play now s
  | Release => Legacy.servo_rest s
  | Toggle now => Legacy.servo_toggle now s
  end.

Definition legacy_run (cs : list (command Z)) (s : Legacy.state)
  : Legacy.state :=
  fold_left (fun s c => legacy_exec c s) cs s.

Definition arduino_exec (c : command Arduino.env) (w : Arduino.world)
  : Arduino.world :=
  match c with
  | Press e => Arduino.servoPlay e w
  | Release => Arduino.servoRest w
  | Toggle e => Arduino.toggleLight e w
  end.

Definition arduino_run (cs : list (command Arduino.env)) (w : Arduino.world)
  : Arduino.world :=
  fold_left (fun w c => arduino_exec c w) cs w.

(** Number of deadlines armed for the servo timer. *)
Definition armed (h : hw) : nat := length (alarms h).

(** A piece of code cancels first when the first call it makes is the stop
    of the servo timer. *)
Definition cancels_first (l : list effect) : Prop :=
  hd_error l = Some TimerStop.

(** The log of [w'] extends the log of [w]. *)
Definition grows (w w' : Arduino.world) : Prop :=
  exists d, log (Arduino.board w') = log (Arduino.board w) ++ d.

(** The held duration as [checkButton] measures it at a poll: [millis()]
    minus [pressStartTime], an unsigned long. *)
Definition measured (t0 : Z) (e : Arduino.env) : Z :=
  wrap_u32 (Arduino.now_ms e - t0).

(** ** The pairing state machine over the turns of [loop]

    [updatePairingState] as [loop] runs it, turn after turn: once the chip
    sleeps nothing runs. *)
Definition pairing_tick (e : Arduino.env) (w : Arduino.world) : Arduino.world :=
  if Arduino.running w then Arduino.updatePairingState e w else w.

Fixpoint pairing_states (es : list Arduino.env) (w : Arduino.world)
  : list Arduino.PairingState :=
  match es with
  | [] => []
  | e :: es' =>
      Arduino.pairing (Arduino.state (pairing_tick e w))
        :: pairing_states es' (pairing_tick e w)
  end.

Definition is_failed (p : Arduino.PairingState) : bool :=
  match p with Arduino.PAIRING_FAILED => true | _ => false end.

(** How many times a run of states enters [PAIRING_FAILED], coming from
    [prev]. *)
Fixpoint entries_into_failed (prev : Arduino.PairingState)
    (l : list Arduino.PairingState) : nat :=
  match l with
  | [] => 0
  | p :: l' =>
      ((if is_failed p && negb (is_failed prev) then 1 else 0)
       + entries_into_failed p l')%nat
  end.

(** The timeout test of [updatePairingState] at a turn that reads [e]. *)
Definition timed_out (w : Arduino.world) (e : Arduino.env) : bool :=
  wrap_u32 (Arduino.now_ms e - Arduino.pairingStartTime (Arduino.state w))
  >? Arduino.PAIRING_TIMEOUT_MS.

(** ** Kinds of boot

    What [handleWakeup] measures after the delay of its turn [j]. *)
Definition hold_measured (be : Arduino.boot_env) (j : nat) : Z :=
  wrap_u32 (Arduino.millis_at be (S j) - Arduino.millis_at be 0).

(** The button is low at the first [k] reads and no measure of these turns
    passes the long-press time. *)
Definition held_below (be : Arduino.boot_env) (k : nat) : Prop :=
  forall j : nat,
    (j < k)%nat ->
    Arduino.button_low be j = true /\
    hold_measured be j <= Arduino.LONG_PRESS_MS.

Inductive boot_kind : Type :=
| WakeShortPress (k : nat)   (* GPIO wake, button released at read k *)
| WakeLongPress (k : nat)    (* GPIO wake, long press measured at turn k *)
| ColdBoot.                  (* not a wake from deep sleep *)

Definition boot_is (be : Arduino.boot_env) (bk : boot_kind) : Prop :=
  match bk with
  | WakeShortPress k =>
      Arduino.cause be = Arduino.WAKEUP_GPIO /\
      held_below be k /\
      Arduino.button_low be k = false
  | WakeLongPress k =>
      Arduino.cause be = Arduino.WAKEUP_GPIO /\
      held_below be k /\
      Arduino.button_low be k = true /\
      hold_measured be k > Arduino.LONG_PRESS_MS
  | ColdBoot => Arduino.cause be = Arduino.WAKEUP_UNDEFINED
  end.

(** The wake was a qualifying long hold. *)
Definition qualifying_hold (be : Arduino.boot_env) : Prop :=
  exists k, boot_is be (WakeLongPress k).

(** Turns of the wake-up loop that [fuel] must cover. *)
Definition enough_fuel (bk : boot_kind) (fuel : nat) : Prop :=
  match bk with
  | WakeShortPress k | WakeLongPress k => (k < fuel)%nat
  | ColdBoot => True
  end.

(** ** Stretches of log

    A stretch is closed for the lock when it leaves the walk of
    [lock_scoped_from] where it found it, outside any region: every region
    it opens it closes, and it makes no request outside of them. *)
Definition lock_closed (d : list effect) : Prop :=
  forall rest,
    lock_scoped_from false 0 (d ++ rest) = lock_scoped_from false 0 rest.

Definition is_led_write (e : effect) : bool :=
  match e with LedWrite _ _ _ => true | _ => false end.

Definition led_writes (l : list effect) : list effect := filter is_led_write l.

(** [n] writes of the pairing indicator, blue and off in turn, the first one
    blue when [on]. *)
Fixpoint blink_seq (on : bool) (n : nat) : list effect :=
  match n with
  | O => []
  | S n' =>
      (if on then LedWrite 0 0 255 else LedWrite 0 0 0)
        :: blink_seq (negb on) n'
  end.

(** The reports of the light state, when joined. *)
Definition light_reports (joined : bool) : list effect :=
  if joined
  then [ZbLockAcquire; ZbReportAttrCmdReq ClusterOnOff; ZbLockRelease;
        ZbLockAcquire; ZbReportAttrCmdReq ClusterLevelControl; ZbLockRelease]
  else [].

(** What a function of the sketch appends: a stretch closed for the lock,
    with no deep sleep in it unless [sleeps]. *)
Definition appends (sleeps : Prop) (w w' : Arduino.world) : Prop :=
  exists d,
    log (Arduino.board w') = log (Arduino.board w) ++ d /\
    lock_closed d /\
    (In DeepSleepStart d -> sleeps).

(** Whether an attribute write addresses the On/Off attribute of the On/Off
    cluster on [endpoint]. *)
Definition on_off_write (endpoint : Z) (m : attr_message) : bool :=
  (dst_endpoint m =? endpoint)
  && (msg_cluster m =? ESP_ZB_ZCL_CLUSTER_ID_ON_OFF)
  && (attr_id m =? ESP_ZB_ZCL_ATTR_ON_OFF_ON_OFF_ID).

Definition is_retry (e : effect) : bool :=
  match e with ZbSchedulerAlarm _ => true | _ => false end.

Definition is_delay (e : effect) : bool :=
  match e with Delay _ => true | _ => false end.

(** Everything in a log but the waits. *)
Definition actions (l : list effect) : list effect :=
  filter (fun e => negb (is_delay e)) l.

(** ** Attribute writes delivered in sequence

    [zb_action_handler] called with ESP_ZB_CORE_SET_ATTR_VALUE_CB_ID for each
    message in turn; the legacy and H2 handlers read the clock when they arm
    the timer, so each of their messages comes with its time. *)
Definition legacy_writes (msgs : list (Z * attr_message)) (s : Legacy.state)
  : Legacy.state :=
  fold_left
    (fun s x =>
       snd (Legacy.zb_action_handler ESP_ZB_CORE_SET_ATTR_VALUE_CB_ID
              (fst x) (snd x) s))
    msgs s.

Definition h2_writes (msgs : list (Z * attr_message)) (s : H2.state)
  : H2.state :=
  fold_left
    (fun s x =>
       snd (H2.zb_action_handler ESP_ZB_CORE_SET_ATTR_VALUE_CB_ID
              (fst x) (snd x) s))
    msgs s.

Definition idfmain_writes (msgs : list attr_message) (s : IdfMain.state)
  : IdfMain.state :=
  fold_left
    (fun s m =>
       snd (IdfMain.zb_action_handler ESP_ZB_CORE_SET_ATTR_VALUE_CB_ID m s))
    msgs s.

(** [updatePairingState] as [loop] runs it, over the turns that read [es]. *)
Definition pairing_run (es : list Arduino.env) (w : Arduino.world)
  : Arduino.world :=
  fold_left (fun w e => pairing_tick e w) es w.

(** ** The calls of the light-change callback

    What a run of [onRgbChange] or [onTempChange] logs, with [led] its write
    of the scaled colour and [timer] whether the servo timer exists. *)
Definition change_calls (on : bool) (led : effect) (timer : bool)
  : list effect :=
  if on
  then [led; LedcSetDuty 933]
         ++ (if timer then [TimerStop; TimerStartOnce 2000000] else [])
  else [LedWrite 0 0 0]
         ++ (if timer then [TimerStop] else [])
         ++ [LedcSetDuty 296].

Definition callback_calls (e : Arduino.env) (timer : bool) : list effect :=
  match Arduino.light_change e with
  | Arduino.NoCallback => []
  | Arduino.RgbChange on r g b => change_calls on (LedWrite r g b) timer
  | Arduino.TempChange on lw lc => change_calls on (LedWrite lw lw lc) timer
  end.

(** Whether the callback runs, and with which [on]. *)
Definition callback_on (e : Arduino.env) : option bool :=
  match Arduino.light_change e with
  | Arduino.NoCallback => None
  | Arduino.RgbChange on _ _ _ => Some on
  | Arduino.TempChange on _ _ => Some on
  end.

(** The duty and the alarms a run of the callback leaves. *)
Definition callback_duty (e : Arduino.env) (d : Z) : Z :=
  match callback_on e with
  | None => d
  | Some true => 933
  | Some false => 296
  end.

Definition callback_alarms (e : Arduino.env) (timer : bool) (a : list Z)
  : list Z :=
  match callback_on e with
  | None => a
  | Some on =>
      if timer then (if on then [Arduino.now_us e + 2000000] else []) else a
  end.

(** * Concrete states and readings *)

(** Legacy: pressed at 100 us, the deadline armed; and at rest. *)
Definition legacy_pressed : Legacy.state :=
  Legacy.mkState (mkHw 933 [2000100] []) true true true Legacy.LED_CONNECTED.

Definition legacy_at_rest : Legacy.state :=
  Legacy.mkState (mkHw 296 [] []) true false true Legacy.LED_CONNECTED.

Definition h2_at_rest : H2.state :=
  H2.mkState (mkHw 296 [] []) true false true.

(** Arduino: joined, button up, 5 s after boot, the library calling
    [onRgbChange] back with the light off, and with the light on; the light
    on with its deadline armed; and the light off. *)
Definition arduino_env : Arduino.env :=
  Arduino.mkEnv false 5000 5000000 true true
    (Arduino.RgbChange false 255 255 255).

Definition arduino_env_on : Arduino.env :=
  Arduino.mkEnv false 5000 5000000 true true
    (Arduino.RgbChange true 255 255 255).

Definition arduino_on : Arduino.world :=
  Arduino.mkWorld (mkHw 933 [2000100] []) true false
    (Arduino.mkDeviceState Arduino.PAIRING_IDLE 0 0 false)
    (Arduino.mkLight true 255 255 255 255)
    (Arduino.mkButtonStatics false 0 false) 0 true.

Definition arduino_off : Arduino.world :=
  Arduino.mkWorld (mkHw 296 [] []) true false
    (Arduino.mkDeviceState Arduino.PAIRING_IDLE 0 0 false)
    (Arduino.mkLight false 255 255 255 255)
    (Arduino.mkButtonStatics false 0 false) 0 true.

Definition legacy_commands : list (command Z) :=
  [Press 300; Toggle 400; Press 500; Press 600].

(** main/main.c: joined and not joined, servo at rest. *)
Definition idfmain_joined : IdfMain.state :=
  IdfMain.mkState (mkHw 296 [] []) true false IdfMain.LED_CONNECTED.

Definition idfmain_unjoined : IdfMain.state :=
  IdfMain.mkState (mkHw 296 [] []) false false IdfMain.LED_PAIRING.

(** A glitch 5 s after boot: low at the poll, high again after the 50 ms
    debounce delay and at the next poll. *)
Definition idfmain_glitch : list IdfMain.sample :=
  [IdfMain.mkSample Low High 5000000; IdfMain.mkSample High High 5100000].

(** A tap 5 s after boot: low at the poll and after the debounce delay, high
    at the next poll. *)
Definition idfmain_tap : list IdfMain.sample :=
  [IdfMain.mkSample Low Low 5000000; IdfMain.mkSample High High 5100000].

(** Legacy: not joined, at rest; and a tap 5 s after boot. *)
Definition legacy_unjoined : Legacy.state :=
  Legacy.mkState (mkHw 296 [] []) false false true Legacy.LED_PAIRING.

Definition legacy_tap : list Legacy.sample :=
  [Legacy.mkSample Low Low 5000000; Legacy.mkSample High High 5200000].

(** Arduino: polls of the button, for a tap of 200 ms and for a hold that
    passes 3000 ms before the release. *)
Definition poll (p : bool) (ms : Z) : Arduino.env :=
  Arduino.mkEnv p ms (ms * 1000) true true Arduino.NoCallback.

Definition tap_polls : list Arduino.env :=
  [poll true 1000; poll true 1010; poll true 1190; poll false 1200].

Definition hold_polls : list Arduino.env :=
  [poll true 1000; poll true 3990; poll true 4000; poll true 4010;
   poll true 4020; poll false 4030].

(** Arduino: pairing since 1000 ms, not joined; and three turns of [loop]
    that find it not joined, the second one past the timeout. *)
Definition arduino_seeking : Arduino.world :=
  Arduino.mkWorld (mkHw 296 [] []) true false
    (Arduino.mkDeviceState Arduino.PAIRING_IN_PROGRESS 1000 0 false)
    (Arduino.mkLight false 255 255 255 255)
    (Arduino.mkButtonStatics false 0 false) 0 true.

Definition arduino_unjoined_turns : list Arduino.env :=
  [Arduino.mkEnv false 20000 20000000 false true Arduino.NoCallback;
   Arduino.mkEnv false 41001 41001000 false true Arduino.NoCallback;
   Arduino.mkEnv false 41011 41011000 false true Arduino.NoCallback].

Definition arduino_unjoined_env : Arduino.env :=
  Arduino.mkEnv false 3500 3500000 false true Arduino.NoCallback.

Definition default_light : Arduino.Light := Arduino.mkLight false 255 255 255 255.

(** Boots: a power-on with the button up; a wake from deep sleep with the
    button released at the third read; a wake with the button held. *)
Definition power_on_boot : Arduino.boot_env :=
  Arduino.mkBootEnv Arduino.WAKEUP_UNDEFINED (fun _ => false)
    (fun k => 100 + 50 * Z.of_nat k).

Definition short_wake_boot : Arduino.boot_env :=
  Arduino.mkBootEnv Arduino.WAKEUP_GPIO (fun k => Nat.ltb k 2)
    (fun k => 100 + 50 * Z.of_nat k).

Definition long_wake_boot : Arduino.boot_env :=
  Arduino.mkBootEnv Arduino.WAKEUP_GPIO (fun _ => true)
    (fun k => 100 + 1001 * Z.of_nat k).

(** Arduino: pairing failed, the servo still pressed with its deadline armed. *)
Definition arduino_failed : Arduino.world :=
  Arduino.mkWorld (mkHw 933 [2000100] []) true false
    (Arduino.mkDeviceState Arduino.PAIRING_FAILED 1000 0 false)
    (Arduino.mkLight true 255 255 255 255)
    (Arduino.mkButtonStatics false 0 false) 0 true.

(** Legacy: as [app_main] leaves it (channel configured with DUTY_AT_0_DEG,
    timer created, nothing armed, not joined). *)
Definition legacy_boot : Legacy.state :=
  Legacy.mkState (mkHw 205 [] []) false false true Legacy.LED_OFF.

(** Arduino: four turns of [loop] that find the node not joined, well before
    the timeout. *)
Definition arduino_waiting_turns : list Arduino.env :=
  [Arduino.mkEnv false 1200 1200000 false true Arduino.NoCallback;
   Arduino.mkEnv false 1600 1600000 false true Arduino.NoCallback;
   Arduino.mkEnv false 1900 1900000 false true Arduino.NoCallback;
   Arduino.mkEnv false 2200 2200000 false true Arduino.NoCallback].

(** A wake from deep sleep with the button held throughout, [millis()]
    advancing by the 50 ms of each delay. *)
Definition held_wake_boot : Arduino.boot_env :=
  Arduino.mkBootEnv Arduino.WAKEUP_GPIO (fun _ => true)
    (fun k => 100 + 50 * Z.of_nat k).

(** A press 1000 ms before [millis()] rolls over, polled 3500 ms later. *)
Definition pressed_before_rollover : Arduino.ButtonStatics :=
  Arduino.mkButtonStatics true (2 ^ 32 - 1000) false.

Definition poll_after_rollover : Arduino.env := poll true 2500.

(** main/main.c: sixty steering attempts that fail, each answered a second
    after the one before. *)
Definition idfmain_failed_attempts : list (IdfMain.signal * bool * bool) :=
  repeat (IdfMain.SIGNAL_STEERING, false, true) 60.

(** Legacy: pressed at 100 us, the deadline armed, and [servo_play] called
    again when that deadline has come. *)
Definition legacy_overdue_now : Z := 2000100.

(** * Properties *)

Lemma wrap_int_small z : - 2 ^ 31 <= z < 2 ^ 31 -> wrap_int z = z.
Proof.
  intros H. unfold wrap_int.
  rewrite Z.mod_small by lia. lia.
Qed.

Lemma wrap_u32_small z : 0 <= z < 2 ^ 32 -> wrap_u32 z = z.
Proof. intros H. unfold wrap_u32. now rewrite Z.mod_small. Qed.

Lemma servo_duty_in_range a :
  0 <= a <= 180 -> servo_duty a = 205 + a * (1024 - 205) / 180.
Proof.
  intros Ha. unfold servo_duty, DUTY_AT_0_DEG, DUTY_AT_180_DEG.
  rewrite (wrap_int_small (1024 - 205)) by lia.
  rewrite (wrap_int_small (a * (1024 - 205))) by lia.
  rewrite Z.quot_div_nonneg by lia.
  assert (0 <= a * (1024 - 205) / 180 <= 819).
  { split.
    - apply Z.div_pos; lia.
    - apply Z.div_le_upper_bound; lia. }
  apply wrap_int_small. lia.
Qed.

(** C10: for an angle between 0 and 180 the duty is
    205 + a * (1024 - 205) / 180 in integer arithmetic (nothing wraps),
    it lies between 205 and 1024, and it does not decrease with the angle. *)
Theorem servo_duty_exact_bounded_monotone (a : Z) :
  0 <= a <= 180 ->
  servo_duty a = 205 + a * (1024 - 205) / 180 /\
  205 <= servo_duty a <= 1024 /\
  duty (servo_set_angle a (mkHw 0 [] [])) = servo_duty a /\
  (forall b, a <= b <= 180 -> servo_duty a <= servo_duty b).
Proof.
  intros Ha.
  pose proof (servo_duty_in_range a Ha) as Ea.
  assert (Hq : 0 <= a * (1024 - 205) / 180 <= 819).
  { split.
    - apply Z.div_pos; lia.
    - apply Z.div_le_upper_bound; lia. }
  repeat split; try lia.
  - unfold servo_set_angle, ledc_write, emit. cbn [duty].
    apply wrap_u32_small. lia.
  - intros b Hb.
    rewrite Ea, (servo_duty_in_range b) by lia.
    apply Z.add_le_mono_l, Z.div_le_mono; lia.
Qed.

Lemma servo_duty_exact_bounded_monotone_witness :
  servo_duty 160 = 205 + 160 * (1024 - 205) / 180 /\
  205 <= servo_duty 160 <= 1024 /\
  duty (servo_set_angle 160 (mkHw 0 [] [])) = servo_duty 160 /\
  (forall b, 160 <= b <= 180 -> servo_duty 160 <= servo_duty b).
Proof. apply (servo_duty_exact_bounded_monotone 160). lia. Defined.

(** ** The log only grows *)

Lemma new_effects_app h h' d :
  log h' = log h ++ d -> new_effects h h' = d.
Proof.
  intros E. unfold new_effects. rewrite E.
  rewrite skipn_app, skipn_all, Nat.sub_diag. reflexivity.
Qed.

Ltac log_delta :=
  apply new_effects_app; cbn; rewrite <- ?app_assoc; reflexivity.

Ltac delta_rw :=
  erewrite new_effects_app
    by (cbn; rewrite <- ?app_assoc;
        first [reflexivity | symmetry; apply app_nil_r]).

Example servo_duty_rest : servo_duty SERVO_REST_ANGLE = 296.
Proof. reflexivity. Qed.

Example servo_duty_target_160 : servo_duty 160 = 933.
Proof. reflexivity. Qed.

Example servo_duty_target_180 : servo_duty 180 = 1024.
Proof. reflexivity. Qed.


(** ** The light functions, in full *)

Ltac hw_calls :=
  unfold Arduino.servoPlay, Arduino.servoRest, Arduino.servoSetAngle,
    Arduino.ledSetColor, Arduino.ledOff, Arduino.delay, Arduino.with_board;
  cbn;
  unfold esp_timer_start_once, esp_timer_stop, servo_set_angle, ledc_write,
    emit;
  cbn; rewrite <- ?app_assoc; reflexivity.

Lemma reportLightState_spec e w :
  Arduino.reportLightState e w
  = Arduino.with_board
      (fun h => mkHw (duty h) (alarms h)
                     (log h ++ light_reports (Arduino.connected e))) w.
Proof.
  unfold Arduino.reportLightState, light_reports.
  destruct w as [[d a l] ? ? ? ? ? ? ?].
  destruct (Arduino.connected e); cbn;
    unfold Arduino.locked_request, Arduino.with_board, emit; cbn.
  - now rewrite <- ?app_assoc.
  - now rewrite app_nil_r.
Qed.

Lemma lightChanged_spec e w :
  Arduino.lightChanged e w
  = Arduino.with_board
      (fun h => mkHw (callback_duty e (duty h))
                     (callback_alarms e (Arduino.servoTimer w) (alarms h))
                     (log h ++ callback_calls e (Arduino.servoTimer w))) w.
Proof.
  destruct w as [[d a l] t ? ? ? ? ? ?].
  unfold Arduino.lightChanged, callback_calls, callback_duty, callback_alarms,
    callback_on, change_calls, Arduino.onRgbChange, Arduino.onTempChange.
  destruct (Arduino.light_change e) as [|on r g b|on lw lc].
  - unfold Arduino.with_board. cbn. now rewrite app_nil_r.
  - destruct on, t; cbn; hw_calls.
  - destruct on, t; cbn; hw_calls.
Qed.

Lemma callback_alarms_no_timer e a : callback_alarms e false a = a.
Proof. unfold callback_alarms. destruct (callback_on e); reflexivity. Qed.

Lemma turnLightOff_spec e w :
  Arduino.turnLightOff e w
  = Arduino.mkWorld
      (mkHw 296
         (if Arduino.servoTimer w then [] else alarms (Arduino.board w))
         (log (Arduino.board w)
            ++ [ZbSetLight false]
            ++ callback_calls e (Arduino.servoTimer w)
            ++ [LedWrite 0 0 0]
            ++ (if Arduino.servoTimer w then [TimerStop] else [])
            ++ [LedcSetDuty 296; Delay 50]
            ++ light_reports (Arduino.connected e)))
      (Arduino.servoTimer w) (Arduino.servoAutoReturnPending w)
      (Arduino.state w)
      (Arduino.mkLight false (Arduino.lightLevel (Arduino.zbLight w))
         (Arduino.lightRed (Arduino.zbLight w))
         (Arduino.lightGreen (Arduino.zbLight w))
         (Arduino.lightBlue (Arduino.zbLight w)))
      (Arduino.buttonStatics w) (Arduino.lastPrint w) (Arduino.running w).
Proof.
  unfold Arduino.turnLightOff. cbv zeta.
  rewrite reportLightState_spec, lightChanged_spec.
  unfold Arduino.servoRest.
  destruct w as [[d a l] t ? ? ? ? ? ?].
  destruct t; cbn; unfold Arduino.with_board; cbn;
    rewrite ?callback_alarms_no_timer, <- ?app_assoc; reflexivity.
Qed.

Lemma turnLightOn_zbLight e w :
  Arduino.zbLight (Arduino.turnLightOn e w)
  = Arduino.mkLight true
      (if Arduino.lightLevel (Arduino.zbLight w) =? 0
       then 255 else Arduino.lightLevel (Arduino.zbLight w))
      (if (Arduino.lightRed (Arduino.zbLight w) =? 0)
          && (Arduino.lightGreen (Arduino.zbLight w) =? 0)
          && (Arduino.lightBlue (Arduino.zbLight w) =? 0)
       then 255 else Arduino.lightRed (Arduino.zbLight w))
      (if (Arduino.lightRed (Arduino.zbLight w) =? 0)
          && (Arduino.lightGreen (Arduino.zbLight w) =? 0)
          && (Arduino.lightBlue (Arduino.zbLight w) =? 0)
       then 255 else Arduino.lightGreen (Arduino.zbLight w))
      (if (Arduino.lightRed (Arduino.zbLight w) =? 0)
          && (Arduino.lightGreen (Arduino.zbLight w) =? 0)
          && (Arduino.lightBlue (Arduino.zbLight w) =? 0)
       then 255 else Arduino.lightBlue (Arduino.zbLight w)).
Proof.
  unfold Arduino.turnLightOn. cbv zeta.
  rewrite reportLightState_spec, lightChanged_spec.
  unfold Arduino.servoPlay.
  destruct w as [[d a l] t ? ? ? ? ? ?].
  destruct t; reflexivity.
Qed.

Lemma turnLightOn_spec e w :
  Arduino.turnLightOn e w
  = Arduino.mkWorld
      (mkHw 933
         (if Arduino.servoTimer w
          then [Arduino.now_us e + 2000000] else alarms (Arduino.board w))
         (log (Arduino.board w)
            ++ [ZbSetLight true]
            ++ callback_calls e (Arduino.servoTimer w)
            ++ [LedcSetDuty 933]
            ++ (if Arduino.servoTimer w
                then [TimerStop; TimerStartOnce 2000000] else [])
            ++ [Delay 50]
            ++ light_reports (Arduino.connected e)))
      (Arduino.servoTimer w) (Arduino.servoAutoReturnPending w)
      (Arduino.state w)
      (Arduino.zbLight (Arduino.turnLightOn e w))
      (Arduino.buttonStatics w) (Arduino.lastPrint w) (Arduino.running w).
Proof.
  rewrite turnLightOn_zbLight.
  unfold Arduino.turnLightOn. cbv zeta.
  rewrite reportLightState_spec, lightChanged_spec.
  unfold Arduino.servoPlay.
  destruct w as [[d a l] t ? ? [lv lr lg lb] ? ? ?].
  destruct t; cbn; unfold Arduino.with_board; cbn;
    rewrite ?callback_alarms_no_timer, <- ?app_assoc; reflexivity.
Qed.
(** ** What the functions of the sketch leave alone *)

Lemma grows_refl w : grows w w.
Proof. exists []. now rewrite app_nil_r. Qed.

Ltac close_grows :=
  first [ exists []; rewrite app_nil_r; reflexivity
        | eexists; simpl; rewrite <- ?app_assoc; reflexivity ].

Ltac split_cases :=
  repeat match goal with
         | |- context [if ?c then _ else _] => destruct c
         | |- context [match ?c with _ => _ end] => destruct c
         end.

Ltac keeps_by_cases :=
  split_cases; (split; [reflexivity | close_grows]).

Lemma reportLightState_keeps e w :
  Arduino.servoAutoReturnPending (Arduino.reportLightState e w)
  = Arduino.servoAutoReturnPending w /\
  grows w (Arduino.reportLightState e w).
Proof. unfold grows, Arduino.reportLightState. keeps_by_cases. Qed.

Lemma turnLightOff_keeps e w :
  Arduino.servoAutoReturnPending (Arduino.turnLightOff e w)
  = Arduino.servoAutoReturnPending w /\
  grows w (Arduino.turnLightOff e w).
Proof.
  rewrite turnLightOff_spec. split; [reflexivity|].
  eexists. cbn [Arduino.board log]. reflexivity.
Qed.

Lemma turnLightOn_keeps e w :
  Arduino.servoAutoReturnPending (Arduino.turnLightOn e w)
  = Arduino.servoAutoReturnPending w /\
  grows w (Arduino.turnLightOn e w).
Proof.
  rewrite turnLightOn_spec. split; [reflexivity|].
  eexists. cbn [Arduino.board log]. reflexivity.
Qed.

Lemma handleButton_keeps a e w :
  Arduino.servoAutoReturnPending (Arduino.handleButton a e w)
  = Arduino.servoAutoReturnPending w /\
  grows w (Arduino.handleButton a e w).
Proof.
  destruct a; cbn [Arduino.handleButton].
  - split; [reflexivity | apply grows_refl].
  - unfold Arduino.toggleLight.
    destruct (Arduino.lightState (Arduino.zbLight w)).
    + apply turnLightOff_keeps.
    + apply turnLightOn_keeps.
  - split; [reflexivity | unfold grows; close_grows].
Qed.

Lemma updatePairingState_keeps e w :
  Arduino.servoAutoReturnPending (Arduino.updatePairingState e w)
  = Arduino.servoAutoReturnPending w /\
  grows w (Arduino.updatePairingState e w).
Proof.
  unfold grows, Arduino.updatePairingState. cbv zeta.
  rewrite ?reportLightState_spec, ?lightChanged_spec.
  unfold Arduino.enterDeepSleep, Arduino.servoRest, Arduino.ledBlink.
  cbv zeta.
  destruct (Arduino.pairing (Arduino.state w));
    destruct (Arduino.connected e); cbn [negb];
    try (split; [reflexivity | close_grows]).
  - destruct (_ >? Arduino.PAIRING_TIMEOUT_MS);
      [split; [reflexivity | close_grows]|].
    destruct (_ >=? Arduino.LED_SLOW_BLINK_MS).
    + destruct (negb (Arduino.ledBlinkOn (Arduino.state w)));
        cbn; destruct (_ >? 1000); (split; [reflexivity | close_grows]).
    + destruct (_ >? 1000); (split; [reflexivity | close_grows]).
  - destruct (Arduino.servoTimer w) eqn:T; cbn; rewrite ?T;
      (split; [reflexivity | close_grows]).
  - destruct (Arduino.servoTimer w) eqn:T; cbn; rewrite ?T;
      (split; [reflexivity | close_grows]).
Qed.

Lemma turnLightOff_commands_rest e w :
  exists d1 d2,
    log (Arduino.board (Arduino.turnLightOff e w))
    = log (Arduino.board w) ++ d1 ++ [LedcSetDuty 296] ++ d2.
Proof.
  rewrite turnLightOff_spec. cbn [Arduino.board log].
  exists ([ZbSetLight false]
            ++ callback_calls e (Arduino.servoTimer w)
            ++ [LedWrite 0 0 0]
            ++ (if Arduino.servoTimer w then [TimerStop] else [])).
  exists (Delay 50 :: light_reports (Arduino.connected e)).
  rewrite <- ?app_assoc. reflexivity.
Qed.

Lemma loop_consumes_pending e1 e2 e3 w :
  Arduino.running w = true ->
  Arduino.servoAutoReturnPending w = true ->
  Arduino.servoAutoReturnPending (Arduino.loop e1 e2 e3 w) = false /\
  In (LedcSetDuty 296)
     (new_effects (Arduino.board w) (Arduino.board (Arduino.loop e1 e2 e3 w))).
Proof.
  intros R P. unfold Arduino.loop. rewrite R, P. cbn [negb].
  set (w0 := Arduino.set_servoAutoReturnPending false w).
  set (w1 := Arduino.turnLightOff e1 w0).
  assert (P1 : Arduino.servoAutoReturnPending w1 = false)
    by (unfold w1; now rewrite (proj1 (turnLightOff_keeps e1 w0))).
  destruct (turnLightOff_commands_rest e1 w0) as (d1 & d2 & L1).
  change (log (Arduino.board w0)) with (log (Arduino.board w)) in L1.
  fold w1 in L1.
  destruct (Arduino.checkButton e2 (Arduino.buttonStatics w1)) as [a b].
  set (w1' := Arduino.set_buttonStatics b w1).
  destruct (handleButton_keeps a e2 w1') as [P2 [d3 L2]].
  set (w2 := Arduino.handleButton a e2 w1') in *.
  change (log (Arduino.board w1')) with (log (Arduino.board w1)) in L2.
  change (Arduino.servoAutoReturnPending w1')
    with (Arduino.servoAutoReturnPending w1) in P2.
  destruct (updatePairingState_keeps e3 w2) as [P3 [d4 L3]].
  set (w3 := Arduino.updatePairingState e3 w2) in *.
  assert (In_delta : forall w' d,
             log (Arduino.board w') = log (Arduino.board w1) ++ d ->
             In (LedcSetDuty 296)
                (new_effects (Arduino.board w) (Arduino.board w'))).
  { intros w' d E.
    rewrite (new_effects_app (Arduino.board w) (Arduino.board w')
               ((d1 ++ [LedcSetDuty 296] ++ d2) ++ d)).
    - rewrite !in_app_iff. left. right. left. now left.
    - rewrite E, L1. now rewrite <- !app_assoc. }
  destruct (negb (Arduino.running w2)).
  { split; [congruence | now apply (In_delta w2 d3)]. }
  destruct (negb (Arduino.running w3)).
  { split; [congruence |].
    apply (In_delta w3 (d3 ++ d4)). rewrite L3, L2. now rewrite app_assoc. }
  split; [cbn; congruence |].
  apply (In_delta _ (d3 ++ d4 ++ [Delay 10])).
  cbn. rewrite L3, L2. now rewrite <- !app_assoc.
Qed.

(** ** Timer expiry *)

(** C1, as the code has it: in zigbee_switch.ino the expiry callback only
    raises [servoAutoReturnPending] (no call is made, nothing else changes),
    and the next turn of [loop] clears the flag and commands the rest
    position; in the legacy and H2 variants the callback itself commands the
    rest position and clears the at-target flag, with no call into the
    Zigbee stack. *)
Theorem timer_expiry_by_variant
    (e1 e2 e3 : Arduino.env) (w : Arduino.world)
    (s : Legacy.state) (h : H2.state) :
  Arduino.running w = true ->
  let w1 := Arduino.servoReturnCallback w in
  (Arduino.board w1 = Arduino.board w /\
   Arduino.servoAutoReturnPending w1 = true /\
   Arduino.servoTimer w1 = Arduino.servoTimer w /\
   Arduino.state w1 = Arduino.state w /\
   Arduino.zbLight w1 = Arduino.zbLight w /\
   Arduino.buttonStatics w1 = Arduino.buttonStatics w /\
   Arduino.running w1 = Arduino.running w) /\
  (Arduino.servoAutoReturnPending (Arduino.loop e1 e2 e3 w1) = false /\
   In (LedcSetDuty (servo_duty SERVO_REST_ANGLE))
      (new_effects (Arduino.board w1)
                   (Arduino.board (Arduino.loop e1 e2 e3 w1)))) /\
  (new_effects (Legacy.board s)
               (Legacy.board (Legacy.servo_return_callback s))
   = [LedcSetDuty (servo_duty SERVO_REST_ANGLE)] /\
   Legacy.g_servo_at_target (Legacy.servo_return_callback s) = false) /\
  (new_effects (H2.board h) (H2.board (H2.servoReturnCallback h))
   = [LedcSetDuty (servo_duty SERVO_REST_ANGLE)] /\
   H2.g_servoAtTarget (H2.servoReturnCallback h) = false).
Proof.
  intros R w1. split; [|split; [|split]].
  - repeat split.
  - apply loop_consumes_pending; [exact R | reflexivity].
  - split; [log_delta | reflexivity].
  - split; [log_delta | reflexivity].
Qed.

Lemma timer_expiry_by_variant_witness :
  Arduino.running arduino_on = true /\
  Arduino.servoAutoReturnPending
    (Arduino.loop arduino_env arduino_env arduino_env
       (Arduino.servoReturnCallback arduino_on)) = false.
Proof.
  split; [reflexivity |].
  exact (proj1 (proj1 (proj2
    (timer_expiry_by_variant arduino_env arduino_env arduino_env arduino_on
       legacy_pressed h2_at_rest eq_refl)))).
Defined.

(** The claim of C1 fails on the legacy variant: its callback commands the
    servo itself, and the position changes. *)
Lemma legacy_callback_commands_servo :
  servo_cmds (new_effects (Legacy.board legacy_pressed)
                (Legacy.board (Legacy.servo_return_callback legacy_pressed)))
  = [LedcSetDuty 296] /\
  duty (Legacy.board (Legacy.servo_return_callback legacy_pressed))
  <> duty (Legacy.board legacy_pressed).
Proof. cbn. split; [reflexivity | discriminate]. Qed.

(** ** Deadlines of the auto-release timer *)

Lemma legacy_play_alarms now s :
  alarms (Legacy.board (Legacy.servo_play now s))
  = if Legacy.g_servo_timer s
    then [now + 2000000] else alarms (Legacy.board s).
Proof.
  unfold Legacy.servo_play, Legacy.servo_start_timer. cbn.
  destruct (Legacy.g_servo_timer s); reflexivity.
Qed.

Lemma legacy_rest_alarms s :
  alarms (Legacy.board (Legacy.servo_rest s))
  = if Legacy.g_servo_timer s then [] else alarms (Legacy.board s).
Proof.
  unfold Legacy.servo_rest, Legacy.servo_cancel_timer.
  destruct (Legacy.g_servo_timer s); reflexivity.
Qed.

Lemma legacy_play_effects now s :
  new_effects (Legacy.board s) (Legacy.board (Legacy.servo_play now s))
  = LedcSetDuty 933
      :: (if Legacy.g_servo_timer s
          then [TimerStop; TimerStartOnce 2000000] else []).
Proof.
  unfold Legacy.servo_play, Legacy.servo_start_timer. cbn.
  destruct (Legacy.g_servo_timer s); log_delta.
Qed.

Lemma legacy_rest_effects s :
  new_effects (Legacy.board s) (Legacy.board (Legacy.servo_rest s))
  = if Legacy.g_servo_timer s
    then [TimerStop; LedcSetDuty 296] else [LedcSetDuty 296].
Proof.
  unfold Legacy.servo_rest, Legacy.servo_cancel_timer.
  destruct (Legacy.g_servo_timer s); log_delta.
Qed.

Lemma legacy_exec_armed c s :
  (armed (Legacy.board s) <= 1)%nat ->
  (armed (Legacy.board (legacy_exec c s)) <= 1)%nat.
Proof.
  intros H. unfold armed in *.
  destruct c as [now| |now]; cbn [legacy_exec]; unfold Legacy.servo_toggle;
    try destruct (Legacy.g_servo_at_target s);
    rewrite ?legacy_play_alarms, ?legacy_rest_alarms;
    destruct (Legacy.g_servo_timer s); cbn; lia.
Qed.

Lemma legacy_run_armed cs : forall s,
  (armed (Legacy.board s) <= 1)%nat ->
  (armed (Legacy.board (legacy_run cs s)) <= 1)%nat.
Proof.
  induction cs as [|c cs IH]; intros s H; cbn.
  - exact H.
  - apply IH, legacy_exec_armed, H.
Qed.

Lemma arduino_play_alarms e w :
  alarms (Arduino.board (Arduino.servoPlay e w))
  = if Arduino.servoTimer w
    then [Arduino.now_us e + 2000000] else alarms (Arduino.board w).
Proof.
  unfold Arduino.servoPlay. cbn.
  destruct (Arduino.servoTimer w); reflexivity.
Qed.

Lemma arduino_rest_alarms w :
  alarms (Arduino.board (Arduino.servoRest w))
  = if Arduino.servoTimer w then [] else alarms (Arduino.board w).
Proof.
  unfold Arduino.servoRest. destruct (Arduino.servoTimer w); reflexivity.
Qed.

Lemma arduino_play_effects e w :
  new_effects (Arduino.board w) (Arduino.board (Arduino.servoPlay e w))
  = LedcSetDuty 933
      :: (if Arduino.servoTimer w
          then [TimerStop; TimerStartOnce 2000000] else []).
Proof.
  unfold Arduino.servoPlay. cbn.
  destruct (Arduino.servoTimer w); log_delta.
Qed.

Lemma arduino_rest_effects w :
  new_effects (Arduino.board w) (Arduino.board (Arduino.servoRest w))
  = if Arduino.servoTimer w
    then [TimerStop; LedcSetDuty 296] else [LedcSetDuty 296].
Proof.
  unfold Arduino.servoRest. destruct (Arduino.servoTimer w); log_delta.
Qed.

Lemma arduino_report_alarms e w :
  alarms (Arduino.board (Arduino.reportLightState e w))
  = alarms (Arduino.board w).
Proof.
  unfold Arduino.reportLightState. destruct (Arduino.connected e); reflexivity.
Qed.

Lemma arduino_exec_armed c w :
  (armed (Arduino.board w) <= 1)%nat ->
  (armed (Arduino.board (arduino_exec c w)) <= 1)%nat.
Proof.
  intros H. unfold armed in *.
  destruct c as [e| |e]; cbn [arduino_exec].
  - rewrite arduino_play_alarms. destruct (Arduino.servoTimer w); cbn; lia.
  - rewrite arduino_rest_alarms. destruct (Arduino.servoTimer w); cbn; lia.
  - unfold Arduino.toggleLight.
    destruct (Arduino.lightState (Arduino.zbLight w)).
    + rewrite turnLightOff_spec. cbn [Arduino.board alarms].
      destruct (Arduino.servoTimer w); cbn; lia.
    + rewrite turnLightOn_spec. cbn [Arduino.board alarms].
      destruct (Arduino.servoTimer w); cbn; lia.
Qed.

Lemma arduino_run_armed cs : forall w,
  (armed (Arduino.board w) <= 1)%nat ->
  (armed (Arduino.board (arduino_run cs w)) <= 1)%nat.
Proof.
  induction cs as [|c cs IH]; intros w H; cbn.
  - exact H.
  - apply IH, arduino_exec_armed, H.
Qed.

(** C2, as the code has it: from a state with at most one deadline armed,
    any sequence of press, release and toggle leaves at most one armed.
    release stops the timer before it commands the servo and leaves none
    armed; press commands the servo first and then stops the timer and
    starts it again, which leaves the fresh deadline as the only one.
    Without a timer handle neither touches the timer. *)
Theorem at_most_one_deadline
    (cs : list (command Z)) (s : Legacy.state)
    (ca : list (command Arduino.env)) (w : Arduino.world)
    (now : Z) (e : Arduino.env) :
  (armed (Legacy.board s) <= 1)%nat ->
  (armed (Arduino.board w) <= 1)%nat ->
  (armed (Legacy.board (legacy_run cs s)) <= 1)%nat /\
  (armed (Arduino.board (arduino_run ca w)) <= 1)%nat /\
  (* release *)
  new_effects (Legacy.board s) (Legacy.board (Legacy.servo_rest s))
  = (if Legacy.g_servo_timer s
     then [TimerStop; LedcSetDuty 296] else [LedcSetDuty 296]) /\
  alarms (Legacy.board (Legacy.servo_rest s))
  = (if Legacy.g_servo_timer s then [] else alarms (Legacy.board s)) /\
  new_effects (Arduino.board w) (Arduino.board (Arduino.servoRest w))
  = (if Arduino.servoTimer w
     then [TimerStop; LedcSetDuty 296] else [LedcSetDuty 296]) /\
  alarms (Arduino.board (Arduino.servoRest w))
  = (if Arduino.servoTimer w then [] else alarms (Arduino.board w)) /\
  (* press *)
  new_effects (Legacy.board s) (Legacy.board (Legacy.servo_play now s))
  = LedcSetDuty 933
      :: (if Legacy.g_servo_timer s
          then [TimerStop; TimerStartOnce 2000000] else []) /\
  alarms (Legacy.board (Legacy.servo_play now s))
  = (if Legacy.g_servo_timer s
     then [now + 2000000] else alarms (Legacy.board s)) /\
  new_effects (Arduino.board w) (Arduino.board (Arduino.servoPlay e w))
  = LedcSetDuty 933
      :: (if Arduino.servoTimer w
          then [TimerStop; TimerStartOnce 2000000] else []) /\
  alarms (Arduino.board (Arduino.servoPlay e w))
  = (if Arduino.servoTimer w
     then [Arduino.now_us e + 2000000] else alarms (Arduino.board w)).
Proof.
  intros Hs Hw.
  split; [now apply legacy_run_armed|].
  split; [now apply arduino_run_armed|].
  split; [apply legacy_rest_effects|].
  split; [apply legacy_rest_alarms|].
  split; [apply arduino_rest_effects|].
  split; [apply arduino_rest_alarms|].
  split; [apply legacy_play_effects|].
  split; [apply legacy_play_alarms|].
  split; [apply arduino_play_effects|].
  apply arduino_play_alarms.
Qed.

Lemma at_most_one_deadline_witness :
  (armed (Legacy.board legacy_pressed) <= 1)%nat /\
  (armed (Arduino.board arduino_on) <= 1)%nat /\
  (armed (Legacy.board
            (legacy_run legacy_commands legacy_pressed)) <= 1)%nat /\
  alarms (Legacy.board (Legacy.servo_play 700 legacy_pressed)) = [2000700].
Proof.
  assert (H1 : (armed (Legacy.board legacy_pressed) <= 1)%nat) by (cbn; lia).
  assert (H2 : (armed (Arduino.board arduino_on) <= 1)%nat) by (cbn; lia).
  pose proof (at_most_one_deadline legacy_commands legacy_pressed
                [Release] arduino_on 700 arduino_env H1 H2) as T.
  split; [exact H1|]. split; [exact H2|].
  split; [exact (proj1 T)|].
  exact (proj1 (proj2 (proj2 (proj2 (proj2 (proj2 (proj2 (proj2 T)))))))).
Defined.

(** The claim of C2 fails where it says that press cancels before anything
    else: with a deadline armed, the first call of press is the position
    command, and the stop of the timer comes second. *)
Lemma press_commands_before_cancelling :
  Legacy.board legacy_pressed = mkHw 933 [2000100] [] /\
  ~ cancels_first
      (new_effects (Legacy.board legacy_pressed)
         (Legacy.board (Legacy.servo_play 700 legacy_pressed))) /\
  ~ cancels_first
      (new_effects (Arduino.board arduino_on)
         (Arduino.board (Arduino.servoPlay arduino_env arduino_on))).
Proof.
  split; [reflexivity|]. split; intros H; discriminate H.
Qed.

(** ** Repeated release and repeated press *)

(** C3, as the code has it: a second release leaves the position, the
    timer and the at-target flag as the first one left them, and every
    release sends the rest position to the driver, so two in a row send it
    twice. *)
Theorem release_twice_repeats_command (s : Legacy.state) (w : Arduino.world) :
  (duty (Legacy.board (Legacy.servo_rest (Legacy.servo_rest s)))
   = duty (Legacy.board (Legacy.servo_rest s)) /\
   alarms (Legacy.board (Legacy.servo_rest (Legacy.servo_rest s)))
   = alarms (Legacy.board (Legacy.servo_rest s)) /\
   Legacy.g_servo_at_target (Legacy.servo_rest (Legacy.servo_rest s))
   = Legacy.g_servo_at_target (Legacy.servo_rest s)) /\
  servo_cmds
    (new_effects (Legacy.board s)
       (Legacy.board (Legacy.servo_rest (Legacy.servo_rest s))))
  = [LedcSetDuty 296; LedcSetDuty 296] /\
  (duty (Arduino.board (Arduino.servoRest (Arduino.servoRest w)))
   = duty (Arduino.board (Arduino.servoRest w)) /\
   alarms (Arduino.board (Arduino.servoRest (Arduino.servoRest w)))
   = alarms (Arduino.board (Arduino.servoRest w))) /\
  servo_cmds
    (new_effects (Arduino.board w)
       (Arduino.board (Arduino.servoRest (Arduino.servoRest w))))
  = [LedcSetDuty 296; LedcSetDuty 296].
Proof.
  split; [|split; [|split]].
  - unfold Legacy.servo_rest, Legacy.servo_cancel_timer.
    destruct (Legacy.g_servo_timer s) eqn:T; cbn; rewrite ?T; cbn; auto.
  - unfold Legacy.servo_rest, Legacy.servo_cancel_timer.
    destruct (Legacy.g_servo_timer s) eqn:T; cbn; rewrite ?T; cbn;
      (erewrite new_effects_app;
       [| cbn; rewrite <- ?app_assoc; reflexivity]); reflexivity.
  - unfold Arduino.servoRest.
    destruct (Arduino.servoTimer w) eqn:T; cbn; rewrite ?T; cbn; auto.
  - unfold Arduino.servoRest.
    destruct (Arduino.servoTimer w) eqn:T; cbn; rewrite ?T; cbn;
      (erewrite new_effects_app;
       [| cbn; rewrite <- ?app_assoc; reflexivity]); reflexivity.
Qed.

(** The claim of C3 fails: two releases in a row, from rest, send two
    position commands. *)
Lemma release_twice_two_commands :
  length (servo_cmds
            (new_effects (Legacy.board legacy_at_rest)
               (Legacy.board
                  (Legacy.servo_rest (Legacy.servo_rest legacy_at_rest)))))
  = 2%nat /\
  length (servo_cmds
            (new_effects (Arduino.board arduino_off)
               (Arduino.board
                  (Arduino.servoRest (Arduino.servoRest arduino_off)))))
  = 2%nat.
Proof. split; reflexivity. Qed.

(** C4, as the code has it: a second press re-arms the deadline, 2000 ms
    from the time of the second press, and sends the press position to the
    driver again although the position has not changed. *)
Theorem press_twice_rearms_and_repeats_command
    (s : Legacy.state) (now1 now2 : Z)
    (w : Arduino.world) (e1 e2 : Arduino.env) :
  alarms (Legacy.board (Legacy.servo_play now2 (Legacy.servo_play now1 s)))
  = (if Legacy.g_servo_timer s
     then [now2 + SERVO_AUTO_RETURN_MS * 1000]
     else alarms (Legacy.board s)) /\
  new_effects (Legacy.board (Legacy.servo_play now1 s))
    (Legacy.board (Legacy.servo_play now2 (Legacy.servo_play now1 s)))
  = LedcSetDuty 933
      :: (if Legacy.g_servo_timer s
          then [TimerStop; TimerStartOnce 2000000] else []) /\
  duty (Legacy.board (Legacy.servo_play now2 (Legacy.servo_play now1 s)))
  = duty (Legacy.board (Legacy.servo_play now1 s)) /\
  Legacy.g_servo_at_target (Legacy.servo_play now1 s) = true /\
  alarms (Arduino.board (Arduino.servoPlay e2 (Arduino.servoPlay e1 w)))
  = (if Arduino.servoTimer w
     then [Arduino.now_us e2 + SERVO_AUTO_RETURN_MS * 1000]
     else alarms (Arduino.board w)) /\
  new_effects (Arduino.board (Arduino.servoPlay e1 w))
    (Arduino.board (Arduino.servoPlay e2 (Arduino.servoPlay e1 w)))
  = LedcSetDuty 933
      :: (if Arduino.servoTimer w
          then [TimerStop; TimerStartOnce 2000000] else []) /\
  duty (Arduino.board (Arduino.servoPlay e2 (Arduino.servoPlay e1 w)))
  = duty (Arduino.board (Arduino.servoPlay e1 w)).
Proof.
  assert (TL : Legacy.g_servo_timer (Legacy.servo_play now1 s)
               = Legacy.g_servo_timer s).
  { unfold Legacy.servo_play, Legacy.servo_start_timer. cbn.
    destruct (Legacy.g_servo_timer s) eqn:T; cbn; rewrite ?T; reflexivity. }
  assert (TA : Arduino.servoTimer (Arduino.servoPlay e1 w)
               = Arduino.servoTimer w).
  { unfold Arduino.servoPlay. cbn.
    destruct (Arduino.servoTimer w) eqn:T; cbn; rewrite ?T; reflexivity. }
  repeat split.
  - rewrite legacy_play_alarms, TL, legacy_play_alarms.
    destruct (Legacy.g_servo_timer s); reflexivity.
  - rewrite legacy_play_effects, TL. reflexivity.
  - unfold Legacy.servo_play, Legacy.servo_start_timer. cbn.
    destruct (Legacy.g_servo_timer s) eqn:T; cbn; rewrite ?T; reflexivity.
  - unfold Legacy.servo_play, Legacy.servo_start_timer. cbn.
    destruct (Legacy.g_servo_timer s) eqn:T; cbn; rewrite ?T; reflexivity.
  - rewrite arduino_play_alarms, TA, arduino_play_alarms.
    destruct (Arduino.servoTimer w); reflexivity.
  - rewrite arduino_play_effects, TA. reflexivity.
  - unfold Arduino.servoPlay. cbn.
    destruct (Arduino.servoTimer w) eqn:T; cbn; rewrite ?T; reflexivity.
Qed.

(** The claim of C4 fails: pressed, with its deadline armed, a second press
    sends the position command again. *)
Lemma second_press_commands_again :
  Legacy.g_servo_at_target legacy_pressed = true /\
  alarms (Legacy.board legacy_pressed) = [2000100] /\
  servo_cmds
    (new_effects (Legacy.board legacy_pressed)
       (Legacy.board (Legacy.servo_play 700 legacy_pressed)))
  = [LedcSetDuty 933] /\
  servo_cmds
    (new_effects (Arduino.board arduino_on)
       (Arduino.board (Arduino.servoPlay arduino_env arduino_on)))
  = [LedcSetDuty 933].
Proof. repeat split. Qed.

(** ** Button classification *)

(** C5 on main/main.c: a glitch shorter than the debounce delay, any time
    later than 3 s after boot, is taken for a long press (the hold check
    runs on the stale sample against [press_start = 0]) and the release
    that follows performs the factory reset. *)
Theorem idfmain_glitch_factory_resets :
  new_effects (IdfMain.board idfmain_joined)
    (IdfMain.board
       (snd (IdfMain.button_task idfmain_glitch IdfMain.button_init
               idfmain_joined)))
  = [Delay 50; Delay 50; ZbFactoryReset; Delay 50] /\
  IdfMain.g_led_state
    (snd (IdfMain.button_task idfmain_glitch IdfMain.button_init
            idfmain_joined))
  = IdfMain.LED_RESET_WARN.
Proof. split; reflexivity. Qed.

(** The same for every state and every glitch later than 3 s after boot. *)
Lemma idfmain_any_glitch_factory_resets (s : IdfMain.state) (t1 t2 : Z) :
  Z.quot t1 1000 > 3000 ->
  In ZbFactoryReset
     (new_effects (IdfMain.board s)
        (IdfMain.board
           (snd (IdfMain.button_task
                   [IdfMain.mkSample Low High t1; IdfMain.mkSample High High t2]
                   IdfMain.button_init s)))).
Proof.
  intros H.
  assert (E : (Z.quot t1 1000 - 0 >? IdfMain.BUTTON_LONG_PRESS_MS) = true).
  { unfold IdfMain.BUTTON_LONG_PRESS_MS. apply Z.gtb_lt. lia. }
  unfold IdfMain.button_task, IdfMain.button_iteration, IdfMain.button_init.
  cbn -[Z.quot Z.gtb IdfMain.BUTTON_LONG_PRESS_MS]. rewrite E.
  cbn -[Z.quot Z.gtb].
  match goal with
  | |- In _ (new_effects ?a ?b) =>
      rewrite (new_effects_app a b
                 [Delay 50; Delay 50; ZbFactoryReset; Delay 50])
        by (cbn; rewrite <- ?app_assoc; reflexivity)
  end.
  cbn. tauto.
Qed.

(** The legacy variant rejects the same glitch: nothing but the delays. *)
Lemma legacy_glitch_rejected (s : Legacy.state) (t1 t2 : Z) :
  new_effects (Legacy.board s)
    (Legacy.board
       (snd (Legacy.button_task
               [Legacy.mkSample Low High t1; Legacy.mkSample High High t2]
               Legacy.button_init s)))
  = [Delay 50; Delay 20; Delay 20] /\
  fst (Legacy.button_task
         [Legacy.mkSample Low High t1; Legacy.mkSample High High t2]
         Legacy.button_init s)
  = Legacy.button_init.
Proof. split; [log_delta | reflexivity]. Qed.

Lemma checkButton_polls_app es1 es2 b :
  Arduino.checkButton_polls (es1 ++ es2) b
  = (fst (Arduino.checkButton_polls es1 b)
       ++ fst (Arduino.checkButton_polls es2
                 (snd (Arduino.checkButton_polls es1 b))),
     snd (Arduino.checkButton_polls es2
            (snd (Arduino.checkButton_polls es1 b)))).
Proof.
  revert b. induction es1 as [|e es1 IH]; intros b; cbn.
  - now destruct (Arduino.checkButton_polls es2 b).
  - destruct (Arduino.checkButton e b) as [a b1].
    rewrite IH.
    destruct (Arduino.checkButton_polls es1 b1) as [acts b2]. cbn.
    reflexivity.
Qed.

Lemma held_polls_quiet hs t0 :
  Forall (fun e => Arduino.pressed e = true /\
                   measured t0 e <= Arduino.LONG_PRESS_MS) hs ->
  Arduino.checkButton_polls hs (Arduino.mkButtonStatics true t0 false)
  = (repeat Arduino.BUTTON_NONE (length hs),
     Arduino.mkButtonStatics true t0 false).
Proof.
  induction 1 as [|e hs [P M] _ IH]; cbn; [reflexivity|].
  unfold Arduino.checkButton. cbn. rewrite P. cbn.
  unfold measured in M.
  replace (_ >? Arduino.LONG_PRESS_MS) with false
    by (symmetry; rewrite Z.gtb_ltb; apply Z.ltb_ge; lia).
  rewrite IH. reflexivity.
Qed.

Lemma handled_polls_quiet hs t0 :
  Forall (fun e => Arduino.pressed e = true) hs ->
  Arduino.checkButton_polls hs (Arduino.mkButtonStatics true t0 true)
  = (repeat Arduino.BUTTON_NONE (length hs),
     Arduino.mkButtonStatics true t0 true).
Proof.
  induction 1 as [|e hs P _ IH]; cbn; [reflexivity|].
  unfold Arduino.checkButton. cbn. rewrite P. cbn.
  rewrite IH. reflexivity.
Qed.

Lemma press_poll e0 b :
  Arduino.wasPressed b = false -> Arduino.pressed e0 = true ->
  Arduino.checkButton e0 b
  = (Arduino.BUTTON_NONE,
     Arduino.mkButtonStatics true (Arduino.now_ms e0) false).
Proof.
  intros W P. unfold Arduino.checkButton. now rewrite P, W.
Qed.

(** X27.  zigbee_switch.ino [checkButton] over one press of the button.
    An episode is a poll [e0] that finds the button pressed, polls [hs] that
    find it held, and a poll [er] that finds it released.  When no held poll
    measures more than the long-press time, the release answers a short
    press if it measures more than the debounce time and nothing otherwise,
    and no other poll answers anything. *)
Lemma checkButton_short_episode b e0 hs er :
  Arduino.wasPressed b = false ->
  Arduino.pressed e0 = true ->
  Arduino.pressed er = false ->
  Forall (fun e => Arduino.pressed e = true /\
                   measured (Arduino.now_ms e0) e <= Arduino.LONG_PRESS_MS)
         hs ->
  fst (Arduino.checkButton_polls (e0 :: hs ++ [er]) b)
  = repeat Arduino.BUTTON_NONE (1 + length hs)
      ++ [if measured (Arduino.now_ms e0) er >? Arduino.DEBOUNCE_MS
          then Arduino.BUTTON_SHORT_PRESS else Arduino.BUTTON_NONE] /\
  Arduino.wasPressed
    (snd (Arduino.checkButton_polls (e0 :: hs ++ [er]) b)) = false.
Proof.
  intros W P0 Pr H.
  cbn [Arduino.checkButton_polls]. rewrite (press_poll e0 b W P0).
  rewrite checkButton_polls_app, (held_polls_quiet hs _ H).
  cbn [fst snd Arduino.checkButton_polls].
  unfold Arduino.checkButton. rewrite Pr.
  cbn [andb negb Arduino.wasPressed Arduino.longPressHandled
       Arduino.pressStartTime].
  fold (measured (Arduino.now_ms e0) er).
  destruct (measured (Arduino.now_ms e0) er >? Arduino.DEBOUNCE_MS);
    cbn; split; reflexivity.
Qed.

(** X28.  zigbee_switch.ino [checkButton] over one long press: when a
    held poll [h] is the first to measure more than the long-press
    time, it answers the long press, and no other poll of the episode
    answers anything, the release included. *)
Lemma checkButton_long_episode b e0 hs1 h hs2 er :
  Arduino.wasPressed b = false ->
  Arduino.pressed e0 = true ->
  Arduino.pressed er = false ->
  Forall (fun e => Arduino.pressed e = true /\
                   measured (Arduino.now_ms e0) e <= Arduino.LONG_PRESS_MS)
         hs1 ->
  Arduino.pressed h = true ->
  measured (Arduino.now_ms e0) h > Arduino.LONG_PRESS_MS ->
  Forall (fun e => Arduino.pressed e = true) hs2 ->
  fst (Arduino.checkButton_polls (e0 :: hs1 ++ h :: hs2 ++ [er]) b)
  = repeat Arduino.BUTTON_NONE (1 + length hs1)
      ++ [Arduino.BUTTON_LONG_PRESS]
      ++ repeat Arduino.BUTTON_NONE (length hs2 + 1) /\
  Arduino.wasPressed
    (snd (Arduino.checkButton_polls (e0 :: hs1 ++ h :: hs2 ++ [er]) b))
  = false.
Proof.
  intros W P0 Pr H1 Ph Mh H2.
  cbn [Arduino.checkButton_polls]. rewrite (press_poll e0 b W P0).
  rewrite checkButton_polls_app, (held_polls_quiet hs1 _ H1).
  cbn [fst snd Arduino.checkButton_polls].
  assert (Eh : Arduino.checkButton h
                 (Arduino.mkButtonStatics true (Arduino.now_ms e0) false)
               = (Arduino.BUTTON_LONG_PRESS,
                  Arduino.mkButtonStatics true (Arduino.now_ms e0) true)).
  { unfold Arduino.checkButton. rewrite Ph.
    cbn [andb negb Arduino.wasPressed Arduino.longPressHandled
         Arduino.pressStartTime].
    fold (measured (Arduino.now_ms e0) h).
    replace (_ >? Arduino.LONG_PRESS_MS) with true
      by (symmetry; apply Z.gtb_lt; lia).
    reflexivity. }
  rewrite Eh, checkButton_polls_app, (handled_polls_quiet hs2 _ H2).
  cbn [fst snd Arduino.checkButton_polls].
  unfold Arduino.checkButton. rewrite Pr.
  cbn [andb negb Arduino.wasPressed Arduino.longPressHandled
       Arduino.pressStartTime fst snd].
  split; [|reflexivity].
  cbn [repeat Nat.add app]. f_equal. f_equal. f_equal.
  rewrite Nat.add_1_r. cbn [repeat].
  now rewrite repeat_cons.
Qed.

(** ** State reports and the lock of the Zigbee stack *)

(** C8 on the ESP-IDF variants: [report_attribute] of
    legacy_esp_idf/main/main.c and of main/main.c, which [button_task] calls
    from its own task, makes the report request without acquiring the lock
    of the stack. *)
Theorem idf_report_attribute_without_lock
    (s : Legacy.state) (m : IdfMain.state) :
  new_effects (Legacy.board s) (Legacy.board (Legacy.report_attribute s))
  = [ZbReportAttrCmdReq ClusterOnOff] /\
  lock_scoped
    (new_effects (Legacy.board s) (Legacy.board (Legacy.report_attribute s)))
  = false /\
  new_effects (IdfMain.board m) (IdfMain.board (IdfMain.report_attribute m))
  = [ZbReportAttrCmdReq ClusterOnOff] /\
  lock_scoped
    (new_effects (IdfMain.board m)
       (IdfMain.board (IdfMain.report_attribute m)))
  = false.
Proof.
  assert (L : new_effects (Legacy.board s)
                (Legacy.board (Legacy.report_attribute s))
              = [ZbReportAttrCmdReq ClusterOnOff]) by log_delta.
  assert (M : new_effects (IdfMain.board m)
                (IdfMain.board (IdfMain.report_attribute m))
              = [ZbReportAttrCmdReq ClusterOnOff]) by log_delta.
  rewrite L, M. repeat split.
Qed.

(** zigbee_switch.ino does what C8 says: each report, and each reporting
    configuration, is the one request of a region that acquires the lock
    before it and releases it after it, whatever the request answers. *)
Lemma arduino_reports_lock_scoped (e : Arduino.env) (w : Arduino.world) :
  new_effects (Arduino.board w) (Arduino.board (snd (Arduino.reportOnOff e w)))
  = [ZbLockAcquire; ZbReportAttrCmdReq ClusterOnOff; ZbLockRelease] /\
  new_effects (Arduino.board w) (Arduino.board (snd (Arduino.reportLevel e w)))
  = [ZbLockAcquire; ZbReportAttrCmdReq ClusterLevelControl; ZbLockRelease] /\
  lock_scoped
    (new_effects (Arduino.board w)
       (Arduino.board (Arduino.reportLightState e w))) = true /\
  lock_scoped
    (new_effects (Arduino.board w)
       (Arduino.board (Arduino.setupReporting e w))) = true /\
  lock_scoped
    (new_effects (Arduino.board w)
       (Arduino.board (Arduino.turnLightOff e w))) = true /\
  lock_scoped
    (new_effects (Arduino.board w)
       (Arduino.board (Arduino.turnLightOn e w))) = true.
Proof.
  split; [log_delta|]. split; [log_delta|].
  split; [|split; [|split]].
  - unfold Arduino.reportLightState. destruct (Arduino.connected e); cbn.
    + delta_rw. reflexivity.
    + delta_rw. reflexivity.
  - delta_rw. reflexivity.
  - rewrite turnLightOff_spec.
    erewrite new_effects_app by (cbn [Arduino.board log]; reflexivity).
    unfold callback_calls, change_calls, light_reports.
    destruct (Arduino.light_change e) as [|[] ? ? ?|[] ? ?];
      destruct (Arduino.servoTimer w); destruct (Arduino.connected e);
      reflexivity.
  - rewrite turnLightOn_spec.
    erewrite new_effects_app by (cbn [Arduino.board log]; reflexivity).
    unfold callback_calls, change_calls, light_reports.
    destruct (Arduino.light_change e) as [|[] ? ? ?|[] ? ?];
      destruct (Arduino.servoTimer w); destruct (Arduino.connected e);
      reflexivity.
Qed.

(** ** A tap: toggle, and report when joined *)

(** C9 on main/main.c: the release of a tap toggles the servo and calls
    [report_attribute] without looking at [g_zigbee_connected]; not joined,
    the report request is made all the same. *)
Theorem idfmain_tap_reports_unjoined :
  IdfMain.g_zigbee_connected idfmain_unjoined = false /\
  new_effects (IdfMain.board idfmain_unjoined)
    (IdfMain.board
       (snd (IdfMain.button_task idfmain_tap IdfMain.button_init
               idfmain_unjoined)))
  = [Delay 50; Delay 50; LedcSetDuty 1024;
     ZbReportAttrCmdReq ClusterOnOff; Delay 50] /\
  IdfMain.g_servo_state
    (snd (IdfMain.button_task idfmain_tap IdfMain.button_init
            idfmain_unjoined))
  = true.
Proof. repeat split. Qed.

(** The legacy variant does what C9 says: the confirmed release of a short
    press toggles the servo, and reports exactly when joined. *)
Lemma legacy_tap_toggles_and_reports_iff_joined
    (s : Legacy.state) (t0 t : Z) (l : gpio_level) :
  let r := Legacy.button_iteration (Legacy.mkSample High High t)
             (Legacy.mkButton true t0 false) s in
  reports (new_effects (Legacy.board s) (Legacy.board (snd r)))
  = (if Legacy.g_zigbee_connected s
     then [ZbReportAttrCmdReq ClusterOnOff] else []) /\
  Legacy.g_servo_at_target (snd r) = negb (Legacy.g_servo_at_target s) /\
  servo_cmds (new_effects (Legacy.board s) (Legacy.board (snd r)))
  = [LedcSetDuty (if Legacy.g_servo_at_target s then 296 else 933)] /\
  fst r = Legacy.button_init.
Proof.
  unfold Legacy.button_iteration, Legacy.servo_toggle, Legacy.servo_rest,
    Legacy.servo_play, Legacy.servo_cancel_timer, Legacy.servo_start_timer.
  cbn.
  destruct (Legacy.g_servo_at_target s) eqn:A;
    destruct (Legacy.g_servo_timer s) eqn:T; cbn; rewrite ?T; cbn;
    destruct (Legacy.g_zigbee_connected s) eqn:C; cbn;
    delta_rw; repeat split.
Qed.

(** zigbee_switch.ino does what C9 says: a short press toggles the light
    and the servo, and reports (On/Off, then the level) exactly when
    [Zigbee.connected()]. *)
Lemma arduino_tap_toggles_and_reports_iff_joined
    (e : Arduino.env) (w : Arduino.world) :
  let w' := Arduino.handleButton Arduino.BUTTON_SHORT_PRESS e w in
  w' = Arduino.toggleLight e w /\
  reports (new_effects (Arduino.board w) (Arduino.board w'))
  = (if Arduino.connected e
     then [ZbReportAttrCmdReq ClusterOnOff;
           ZbReportAttrCmdReq ClusterLevelControl]
     else []) /\
  Arduino.lightState (Arduino.zbLight w')
  = negb (Arduino.lightState (Arduino.zbLight w)) /\
  duty (Arduino.board w')
  = (if Arduino.lightState (Arduino.zbLight w) then 296 else 933).
Proof.
  cbv zeta. split; [reflexivity|].
  unfold Arduino.handleButton, Arduino.toggleLight.
  destruct (Arduino.lightState (Arduino.zbLight w)) eqn:L.
  - rewrite turnLightOff_spec.
    erewrite new_effects_app by (cbn [Arduino.board log]; reflexivity).
    unfold callback_calls, change_calls, light_reports.
    destruct (Arduino.light_change e) as [|[] ? ? ?|[] ? ?];
      destruct (Arduino.servoTimer w); destruct (Arduino.connected e);
      repeat split.
  - rewrite turnLightOn_spec, turnLightOn_zbLight.
    erewrite new_effects_app by (cbn [Arduino.board log]; reflexivity).
    unfold callback_calls, change_calls, light_reports.
    destruct (Arduino.light_change e) as [|[] ? ? ?|[] ? ?];
      destruct (Arduino.servoTimer w); destruct (Arduino.connected e);
      repeat split.
Qed.

(** ** Join timeout *)

Lemma tick_failed_stays e w :
  Arduino.pairing (Arduino.state w) = Arduino.PAIRING_FAILED ->
  Arduino.pairing (Arduino.state (pairing_tick e w)) = Arduino.PAIRING_FAILED.
Proof.
  intros F. unfold pairing_tick.
  destruct (Arduino.running w); [|exact F].
  unfold Arduino.updatePairingState. rewrite F.
  unfold Arduino.enterDeepSleep, Arduino.servoRest.
  destruct (Arduino.servoTimer w) eqn:T; cbn; rewrite ?T; exact F.
Qed.

Lemma tick_in_progress_waits e w :
  Arduino.pairing (Arduino.state w) = Arduino.PAIRING_IN_PROGRESS ->
  Arduino.running w = true ->
  Arduino.connected e = false ->
  timed_out w e = false ->
  Arduino.pairing (Arduino.state (pairing_tick e w))
  = Arduino.PAIRING_IN_PROGRESS /\
  Arduino.running (pairing_tick e w) = true /\
  Arduino.pairingStartTime (Arduino.state (pairing_tick e w))
  = Arduino.pairingStartTime (Arduino.state w).
Proof.
  intros P R C T. unfold pairing_tick. rewrite R.
  unfold Arduino.updatePairingState. rewrite P, C.
  unfold timed_out in T. rewrite T.
  unfold Arduino.ledBlink. cbv zeta.
  destruct (_ >=? Arduino.LED_SLOW_BLINK_MS).
  - destruct (negb (Arduino.ledBlinkOn (Arduino.state w)));
      cbn; destruct (_ >? 1000); cbn; auto.
  - destruct (_ >? 1000); cbn; auto.
Qed.

Lemma tick_in_progress_times_out e w :
  Arduino.pairing (Arduino.state w) = Arduino.PAIRING_IN_PROGRESS ->
  Arduino.running w = true ->
  Arduino.connected e = false ->
  timed_out w e = true ->
  Arduino.pairing (Arduino.state (pairing_tick e w)) = Arduino.PAIRING_FAILED /\
  Arduino.running (pairing_tick e w) = true /\
  Arduino.board (pairing_tick e w) = Arduino.board w.
Proof.
  intros P R C T. unfold pairing_tick. rewrite R.
  unfold Arduino.updatePairingState. rewrite P, C.
  unfold timed_out in T. rewrite T. cbn. auto.
Qed.

(** After [PAIRING_FAILED] the next turn shows red, rests the servo and
    enters deep sleep. *)
Lemma tick_failed_sleeps e w :
  Arduino.pairing (Arduino.state w) = Arduino.PAIRING_FAILED ->
  Arduino.running w = true ->
  Arduino.running (pairing_tick e w) = false /\
  new_effects (Arduino.board w) (Arduino.board (pairing_tick e w))
  = [LedWrite 255 0 0; Delay 2000; LedWrite 0 0 0]
      ++ (if Arduino.servoTimer w then [TimerStop] else [])
      ++ [LedcSetDuty 296; Delay 100; DeepSleepStart].
Proof.
  intros F R. unfold pairing_tick. rewrite R.
  unfold Arduino.updatePairingState. rewrite F.
  unfold Arduino.enterDeepSleep, Arduino.servoRest.
  destruct (Arduino.servoTimer w) eqn:T; cbn; rewrite ?T; cbn;
    (split; [reflexivity | log_delta]).
Qed.

Lemma last_cons_default {A} (a d : A) (l : list A) :
  last (a :: l) d = last l a.
Proof.
  revert a d. induction l as [|b l IH]; intros a d; [reflexivity|].
  change (last (a :: b :: l) d) with (last (b :: l) d).
  rewrite (IH b d), (IH b a). reflexivity.
Qed.

Lemma pairing_states_failed es : forall w,
  Arduino.pairing (Arduino.state w) = Arduino.PAIRING_FAILED ->
  pairing_states es w = repeat Arduino.PAIRING_FAILED (length es).
Proof.
  induction es as [|e es IH]; intros w F; cbn [pairing_states length repeat].
  - reflexivity.
  - pose proof (tick_failed_stays e w F) as F'.
    rewrite F', (IH _ F'). reflexivity.
Qed.

Lemma entries_after_waiting k m :
  entries_into_failed Arduino.PAIRING_IN_PROGRESS
    (repeat Arduino.PAIRING_IN_PROGRESS k
       ++ repeat Arduino.PAIRING_FAILED (S m)) = 1%nat.
Proof.
  induction k as [|k IH]; [|exact IH].
  cbn [repeat app entries_into_failed is_failed andb negb].
  assert (Z : forall j,
             entries_into_failed Arduino.PAIRING_FAILED
               (repeat Arduino.PAIRING_FAILED j) = 0%nat)
    by (induction j as [|j IHj]; [reflexivity | exact IHj]).
  now rewrite Z.
Qed.

Lemma idfmain_failed_steerings (fn : bool) n : forall s,
  IdfMain.g_led_state
    (IdfMain.signals (repeat (IdfMain.SIGNAL_STEERING, false, fn) n) s)
  = IdfMain.g_led_state s /\
  IdfMain.g_zigbee_connected
    (IdfMain.signals (repeat (IdfMain.SIGNAL_STEERING, false, fn) n) s)
  = IdfMain.g_zigbee_connected s /\
  log (IdfMain.board
         (IdfMain.signals (repeat (IdfMain.SIGNAL_STEERING, false, fn) n) s))
  = log (IdfMain.board s) ++ repeat (ZbSchedulerAlarm 1000) n.
Proof.
  induction n as [|n IH]; intros s.
  - cbn. rewrite app_nil_r. repeat split.
  - unfold IdfMain.signals in *. cbn [repeat fold_left fst snd].
    destruct (IH (IdfMain.esp_zb_app_signal_handler
                    IdfMain.SIGNAL_STEERING false fn s)) as (L & C & G).
    rewrite L, C, G. cbn. rewrite <- app_assoc. repeat split.
Qed.

(** C6, as the code has it.  In zigbee_switch.ino, from
    [PAIRING_IN_PROGRESS], over the turns that find the node not joined: the
    machine waits in [PAIRING_IN_PROGRESS] through every turn that measures
    no more than PAIRING_TIMEOUT_MS since the start of pairing, however many
    there are; the first turn that measures more enters [PAIRING_FAILED];
    nothing leaves [PAIRING_FAILED], so it is entered exactly once.  The
    sketch counts no join attempts.  main/main.c has no join timeout and no
    failed state: any number of failed steering attempts leaves the
    indicator state and the joined flag as they were, and schedules one
    retry, 1000 ms ahead, for each. *)
Theorem join_timeout_fails_exactly_once
    (es1 es2 : list Arduino.env) (e : Arduino.env) (w : Arduino.world)
    (n : nat) (fn : bool) (s : IdfMain.state) :
  Arduino.pairing (Arduino.state w) = Arduino.PAIRING_IN_PROGRESS ->
  Arduino.running w = true ->
  Forall (fun x => Arduino.connected x = false /\ timed_out w x = false) es1 ->
  Arduino.connected e = false ->
  timed_out w e = true ->
  pairing_states (es1 ++ e :: es2) w
  = repeat Arduino.PAIRING_IN_PROGRESS (length es1)
      ++ repeat Arduino.PAIRING_FAILED (S (length es2)) /\
  entries_into_failed Arduino.PAIRING_IN_PROGRESS
    (pairing_states (es1 ++ e :: es2) w) = 1%nat /\
  IdfMain.g_led_state
    (IdfMain.signals (repeat (IdfMain.SIGNAL_STEERING, false, fn) n) s)
  = IdfMain.g_led_state s /\
  IdfMain.g_zigbee_connected
    (IdfMain.signals (repeat (IdfMain.SIGNAL_STEERING, false, fn) n) s)
  = IdfMain.g_zigbee_connected s /\
  new_effects (IdfMain.board s)
    (IdfMain.board
       (IdfMain.signals (repeat (IdfMain.SIGNAL_STEERING, false, fn) n) s))
  = repeat (ZbSchedulerAlarm 1000) n.
Proof.
  intros P R W Ce Te.
  assert (A : pairing_states (es1 ++ e :: es2) w
              = repeat Arduino.PAIRING_IN_PROGRESS (length es1)
                  ++ repeat Arduino.PAIRING_FAILED (S (length es2))).
  { revert w P R W Te. induction es1 as [|x es1 IH]; intros w P R W Te.
    - cbn [app length repeat pairing_states].
      destruct (tick_in_progress_times_out e w P R Ce Te) as (F & _ & _).
      rewrite F, (pairing_states_failed es2 _ F). reflexivity.
    - inversion W as [|? ? [Cx Tx] W']; subst.
      cbn [app length repeat pairing_states].
      destruct (tick_in_progress_waits x w P R Cx Tx) as (P' & R' & S').
      rewrite P'. f_equal. apply IH; [exact P' | exact R' | |].
      + eapply Forall_impl; [|exact W'].
        intros a [Ca Ta]. split; [exact Ca|].
        unfold timed_out in *. now rewrite S'.
      + unfold timed_out in *. now rewrite S'. }
  rewrite A. split; [reflexivity|].
  split; [apply entries_after_waiting|].
  destruct (idfmain_failed_steerings fn n s) as (L & C & G).
  split; [exact L | split; [exact C | apply new_effects_app, G]].
Qed.

Lemma join_timeout_fails_exactly_once_witness :
  Arduino.pairing (Arduino.state arduino_seeking)
  = Arduino.PAIRING_IN_PROGRESS /\
  Arduino.running arduino_seeking = true /\
  Forall (fun x => Arduino.connected x = false /\
                   timed_out arduino_seeking x = false)
    [Arduino.mkEnv false 20000 20000000 false true Arduino.NoCallback] /\
  Arduino.connected
    (Arduino.mkEnv false 41001 41001000 false true Arduino.NoCallback)
  = false /\
  timed_out arduino_seeking
    (Arduino.mkEnv false 41001 41001000 false true Arduino.NoCallback)
  = true /\
  pairing_states arduino_unjoined_turns arduino_seeking
  = [Arduino.PAIRING_IN_PROGRESS; Arduino.PAIRING_FAILED;
     Arduino.PAIRING_FAILED].
Proof.
  assert (W : Forall (fun x => Arduino.connected x = false /\
                               timed_out arduino_seeking x = false)
                [Arduino.mkEnv false 20000 20000000 false true
                   Arduino.NoCallback])
    by (repeat constructor).
  split; [reflexivity|]. split; [reflexivity|].
  split; [exact W|]. split; [reflexivity|]. split; [reflexivity|].
  exact (proj1
    (join_timeout_fails_exactly_once
       [Arduino.mkEnv false 20000 20000000 false true Arduino.NoCallback]
       [Arduino.mkEnv false 41011 41011000 false true Arduino.NoCallback]
       (Arduino.mkEnv false 41001 41001000 false true Arduino.NoCallback)
       arduino_seeking 0 true idfmain_unjoined
       eq_refl eq_refl W eq_refl eq_refl)).
Defined.

(** The claim of C6 fails on main/main.c, which has no join timeout: after
    sixty failed steering attempts, a second apart, the node is still
    seeking (the indicator state is LED_PAIRING, as it was), and the
    sixtieth retry is scheduled like the first. *)
Lemma idfmain_steering_never_fails :
  IdfMain.g_led_state (IdfMain.signals idfmain_failed_attempts idfmain_unjoined)
  = IdfMain.LED_PAIRING /\
  IdfMain.g_zigbee_connected
    (IdfMain.signals idfmain_failed_attempts idfmain_unjoined) = false /\
  new_effects (IdfMain.board idfmain_unjoined)
    (IdfMain.board (IdfMain.signals idfmain_failed_attempts idfmain_unjoined))
  = repeat (ZbSchedulerAlarm 1000) 60.
Proof. repeat split. Qed.

(** One turn of [loop] with the button up runs [updatePairingState] on a
    world that has the pairing state [loop] started with. *)
Lemma loop_runs_pairing_tick e1 e2 e3 w :
  Arduino.running w = true ->
  Arduino.pressed e2 = false ->
  exists w2,
    Arduino.state w2 = Arduino.state w /\
    Arduino.running w2 = true /\
    Arduino.state (Arduino.loop e1 e2 e3 w)
    = Arduino.state (pairing_tick e3 w2) /\
    Arduino.running (Arduino.loop e1 e2 e3 w)
    = Arduino.running (pairing_tick e3 w2).
Proof.
  intros R P.
  assert (Off : forall e w0,
             Arduino.state (Arduino.turnLightOff e w0) = Arduino.state w0 /\
             Arduino.running (Arduino.turnLightOff e w0) = Arduino.running w0).
  { intros e w0. rewrite turnLightOff_spec. auto. }
  assert (On : forall e w0,
             Arduino.state (Arduino.turnLightOn e w0) = Arduino.state w0 /\
             Arduino.running (Arduino.turnLightOn e w0) = Arduino.running w0).
  { intros e w0. rewrite turnLightOn_spec. auto. }
  unfold Arduino.loop. rewrite R. cbn [negb].
  set (w1 := if Arduino.servoAutoReturnPending w
             then Arduino.turnLightOff e1
                    (Arduino.set_servoAutoReturnPending false w)
             else w).
  assert (H1 : Arduino.state w1 = Arduino.state w /\ Arduino.running w1 = true).
  { unfold w1. destruct (Arduino.servoAutoReturnPending w); [|auto].
    destruct (Off e1 (Arduino.set_servoAutoReturnPending false w)) as [S1 R1].
    rewrite S1, R1. auto. }
  destruct H1 as [S1 R1].
  assert (A : exists b, Arduino.checkButton e2 (Arduino.buttonStatics w1)
                        = (Arduino.BUTTON_NONE, b) \/
                        Arduino.checkButton e2 (Arduino.buttonStatics w1)
                        = (Arduino.BUTTON_SHORT_PRESS, b)).
  { unfold Arduino.checkButton. rewrite P. cbn [andb negb].
    destruct (Arduino.wasPressed (Arduino.buttonStatics w1)); [|eauto].
    destruct (negb _ && _); eauto. }
  destruct A as [b [E|E]]; rewrite E; cbn [Arduino.handleButton].
  - set (w2 := Arduino.set_buttonStatics b w1).
    exists w2. change (Arduino.running w2) with (Arduino.running w1).
    rewrite R1. cbn [negb]. split; [exact S1|]. split; [reflexivity|].
    unfold pairing_tick. change (Arduino.running w2) with (Arduino.running w1).
    rewrite R1. destruct (negb (Arduino.running _)); auto.
  - set (w0 := Arduino.set_buttonStatics b w1).
    set (w2 := Arduino.toggleLight e2 w0).
    assert (H2 : Arduino.state w2 = Arduino.state w /\ Arduino.running w2 = true).
    { unfold w2, Arduino.toggleLight.
      destruct (Arduino.lightState (Arduino.zbLight w0)).
      - destruct (Off e2 w0) as [S2 R2]. rewrite S2, R2. auto.
      - destruct (On e2 w0) as [S2 R2]. rewrite S2, R2. auto. }
    destruct H2 as [S2 R2].
    exists w2. rewrite R2. cbn [negb]. split; [exact S2|]. split; [reflexivity|].
    unfold pairing_tick. rewrite R2.
    destruct (negb (Arduino.running _)); auto.
Qed.

(** ** Boot and wake-up *)

Lemma holdLoop_S fuel be ps i w :
  Arduino.holdLoop (S fuel) be ps i w
  = if Arduino.button_low be i then
      if wrap_u32 (Arduino.millis_at be (S i) - ps) >? Arduino.LONG_PRESS_MS
      then Some (true, Arduino.delay 50 w)
      else Arduino.holdLoop fuel be ps (S i) (Arduino.delay 50 w)
    else Some (false, w).
Proof. reflexivity. Qed.

Lemma holdLoop_released be ps : forall k i w,
  (forall j, (j < k)%nat ->
             Arduino.button_low be (i + j) = true /\
             wrap_u32 (Arduino.millis_at be (S (i + j)) - ps)
             <= Arduino.LONG_PRESS_MS) ->
  Arduino.button_low be (i + k) = false ->
  Arduino.holdLoop (S k) be ps i w
  = Some (false, Nat.iter k (Arduino.delay 50) w).
Proof.
  induction k as [|k IH]; intros i w H R.
  - rewrite Nat.add_0_r in R. rewrite holdLoop_S. now rewrite R.
  - destruct (H 0%nat ltac:(lia)) as [L M]. rewrite Nat.add_0_r in L, M.
    rewrite holdLoop_S, L.
    replace (_ >? Arduino.LONG_PRESS_MS) with false
      by (symmetry; rewrite Z.gtb_ltb; apply Z.ltb_ge; lia).
    rewrite (IH (S i) (Arduino.delay 50 w)).
    + now rewrite Nat.iter_succ_r.
    + intros j Hj. replace (S i + j)%nat with (i + S j)%nat by lia.
      apply H. lia.
    + now replace (S i + k)%nat with (i + S k)%nat by lia.
Qed.

Lemma holdLoop_long be ps : forall k i w,
  (forall j, (j < k)%nat ->
             Arduino.button_low be (i + j) = true /\
             wrap_u32 (Arduino.millis_at be (S (i + j)) - ps)
             <= Arduino.LONG_PRESS_MS) ->
  Arduino.button_low be (i + k) = true ->
  wrap_u32 (Arduino.millis_at be (S (i + k)) - ps) > Arduino.LONG_PRESS_MS ->
  Arduino.holdLoop (S k) be ps i w
  = Some (true, Nat.iter (S k) (Arduino.delay 50) w).
Proof.
  induction k as [|k IH]; intros i w H L M.
  - rewrite Nat.add_0_r in L, M. rewrite holdLoop_S, L.
    replace (_ >? Arduino.LONG_PRESS_MS) with true
      by (symmetry; apply Z.gtb_lt; lia).
    reflexivity.
  - destruct (H 0%nat ltac:(lia)) as [L0 M0]. rewrite Nat.add_0_r in L0, M0.
    rewrite holdLoop_S, L0.
    replace (_ >? Arduino.LONG_PRESS_MS) with false
      by (symmetry; rewrite Z.gtb_ltb; apply Z.ltb_ge; lia).
    rewrite (IH (S i) (Arduino.delay 50 w)).
    + now rewrite (Nat.iter_succ_r (S k)).
    + intros j Hj. replace (S i + j)%nat with (i + S j)%nat by lia.
      apply H. lia.
    + now replace (S i + k)%nat with (i + S k)%nat by lia.
    + now replace (S i + k)%nat with (i + S k)%nat by lia.
Qed.

Lemma holdLoop_more_fuel be ps r : forall fuel n i w,
  Arduino.holdLoop fuel be ps i w = Some r ->
  Arduino.holdLoop (fuel + n) be ps i w = Some r.
Proof.
  induction fuel as [|fuel IH]; intros n i w H; [discriminate|].
  cbn [Nat.add]. rewrite holdLoop_S in *.
  destruct (Arduino.button_low be i); [|exact H].
  destruct (_ >? Arduino.LONG_PRESS_MS); [exact H|].
  now apply IH.
Qed.

(** The loop of [handleWakeup] ends: when some turn measures more than the
    long-press time, that many turns of fuel give a result. *)
Lemma holdLoop_returns be ps : forall n i w,
  wrap_u32 (Arduino.millis_at be (S (i + n)) - ps) > Arduino.LONG_PRESS_MS ->
  exists r, Arduino.holdLoop (S n) be ps i w = Some r.
Proof.
  induction n as [|n IH]; intros i w M.
  - rewrite Nat.add_0_r in M. rewrite holdLoop_S.
    destruct (Arduino.button_low be i); [|eauto].
    replace (_ >? Arduino.LONG_PRESS_MS) with true
      by (symmetry; apply Z.gtb_lt; lia).
    eauto.
  - rewrite holdLoop_S.
    destruct (Arduino.button_low be i); [|eauto].
    destruct (_ >? Arduino.LONG_PRESS_MS); [eauto|].
    apply IH. now replace (S i + n)%nat with (i + S n)%nat by lia.
Qed.

(** X29.  zigbee_switch.ino [handleWakeup] returns: with [millis()]
    advancing by at least 50 at each [delay(50)] and not wrapping during the
    boot, the loop that waits for the button ends within 61 turns, however
    long the button is held. *)
Lemma handleWakeup_returns be w :
  0 <= Arduino.millis_at be 0 ->
  (forall j, Arduino.millis_at be j + 50 <= Arduino.millis_at be (S j)) ->
  Arduino.millis_at be 61 < 2 ^ 32 ->
  exists r, Arduino.handleWakeup 61 be w = Some r.
Proof.
  intros H0 Hstep Hmax. unfold Arduino.handleWakeup.
  destruct (Arduino.cause be); [|eauto].
  assert (G : forall j : nat,
             Arduino.millis_at be 0 + 50 * Z.of_nat j
             <= Arduino.millis_at be j).
  { induction j as [|j IHj]; [lia|]. specialize (Hstep j). lia. }
  destruct (holdLoop_returns be (Arduino.millis_at be 0) 60 0 w) as [[b w'] E].
  - cbn [Nat.add]. pose proof (G 61%nat) as G61.
    unfold wrap_u32, Arduino.LONG_PRESS_MS.
    rewrite Z.mod_small by lia. lia.
  - rewrite E. destruct b; eauto.
Qed.

Lemma iter_delay_fields k : forall w,
  log (Arduino.board (Nat.iter k (Arduino.delay 50) w))
  = log (Arduino.board w) ++ repeat (Delay 50) k /\
  Arduino.servoTimer (Nat.iter k (Arduino.delay 50) w) = Arduino.servoTimer w /\
  Arduino.state (Nat.iter k (Arduino.delay 50) w) = Arduino.state w /\
  Arduino.running (Nat.iter k (Arduino.delay 50) w) = Arduino.running w.
Proof.
  induction k as [|k IH]; intros w.
  - cbn. now rewrite app_nil_r.
  - rewrite Nat.iter_succ_r.
    destruct (IH (Arduino.delay 50 w)) as (L & T & S & R).
    rewrite L, T, S, R. cbn. rewrite <- app_assoc. auto.
Qed.

Lemma enterDeepSleep_fields w :
  Arduino.running (Arduino.enterDeepSleep w) = false /\
  Arduino.state (Arduino.enterDeepSleep w) = Arduino.state w /\
  log (Arduino.board (Arduino.enterDeepSleep w))
  = log (Arduino.board w)
      ++ [LedWrite 0 0 0]
      ++ (if Arduino.servoTimer w then [TimerStop] else [])
      ++ [LedcSetDuty 296; Delay 100; DeepSleepStart].
Proof.
  unfold Arduino.enterDeepSleep, Arduino.servoRest.
  destruct (Arduino.servoTimer w) eqn:T; cbn; rewrite ?T; cbn;
    rewrite <- ?app_assoc; auto.
Qed.

Lemma setup_proceeds fuel be timer_ok e w w2 :
  Arduino.handleWakeup fuel be (Arduino.servoInit timer_ok (Arduino.ledOff w))
  = Some (true, w2) ->
  Arduino.running w2 = true ->
  exists w',
    Arduino.setup fuel be timer_ok true e w = Some w' /\
    Arduino.running w' = true /\
    (exists d, log (Arduino.board w')
               = log (Arduino.board w2) ++ ZbBegin :: d) /\
    Arduino.pairing (Arduino.state w')
    = (if Arduino.connected e
       then Arduino.PAIRING_IDLE else Arduino.PAIRING_IN_PROGRESS).
Proof.
  intros H R. unfold Arduino.setup. cbv zeta. rewrite H, R. cbn [negb].
  destruct (Arduino.connected e) eqn:C; eexists; (split; [reflexivity|]).
  - unfold Arduino.reportLightState. rewrite C. cbn.
    split; [exact R|]. split; [|reflexivity].
    eexists. rewrite <- !app_assoc. reflexivity.
  - cbn. split; [exact R|]. split; [|reflexivity].
    exists []. reflexivity.
Qed.

(** C7, as the code has it.  A wake from deep sleep by the button, with the
    button released before the hold measures more than 3000 ms, goes back
    to deep sleep: the Zigbee stack is not started and the pairing state is
    never written.  A wake with the button held past 3000 ms, and likewise
    a boot that is not a wake from deep sleep (power-on, reset) whatever the
    button does, starts the stack and enters [PAIRING_IN_PROGRESS] when not
    joined (and [PAIRING_IDLE] when joined). *)
Theorem boot_by_kind
    (be : Arduino.boot_env) (bk : boot_kind) (fuel : nat)
    (timer_ok : bool) (e : Arduino.env) (l : Arduino.Light) :
  boot_is be bk ->
  enough_fuel bk fuel ->
  exists w',
    Arduino.setup fuel be timer_ok true e (Arduino.boot_world l) = Some w' /\
    match bk with
    | WakeShortPress _ =>
        Arduino.running w' = false /\
        Arduino.pairing (Arduino.state w') = Arduino.PAIRING_IDLE /\
        ~ In ZbBegin (log (Arduino.board w')) /\
        last (log (Arduino.board w')) (Delay 0) = DeepSleepStart
    | WakeLongPress _ | ColdBoot =>
        Arduino.running w' = true /\
        In ZbBegin (log (Arduino.board w')) /\
        Arduino.pairing (Arduino.state w')
        = (if Arduino.connected e
           then Arduino.PAIRING_IDLE else Arduino.PAIRING_IN_PROGRESS)
    end.
Proof.
  intros B F.
  set (w1 := Arduino.servoInit timer_ok (Arduino.ledOff (Arduino.boot_world l))).
  destruct bk as [k|k|]; cbn [boot_is enough_fuel] in B, F.
  - destruct B as (G & H & Rk).
    assert (E : Arduino.holdLoop fuel be (Arduino.millis_at be 0) 0 w1
                = Some (false, Nat.iter k (Arduino.delay 50) w1)).
    { replace fuel with (S k + (fuel - S k))%nat by lia.
      apply holdLoop_more_fuel, holdLoop_released; [|exact Rk].
      intros j Hj. apply (H j Hj). }
    destruct (iter_delay_fields k w1) as (Lk & Tk & Sk & _).
    destruct (enterDeepSleep_fields (Nat.iter k (Arduino.delay 50) w1))
      as (Rs & Ss & Ls).
    exists (Arduino.enterDeepSleep (Nat.iter k (Arduino.delay 50) w1)).
    split.
    { unfold Arduino.setup. cbv zeta. fold w1.
      unfold Arduino.handleWakeup. rewrite G, E, Rs. reflexivity. }
    split; [exact Rs|]. split; [rewrite Ss, Sk; reflexivity|].
    rewrite Ls, Lk. split.
    + rewrite !in_app_iff. intros [[I|I]|[I|[I|I]]].
      * cbn in I. destruct I as [I|[I|[]]]; discriminate I.
      * apply repeat_spec in I. discriminate I.
      * cbn in I. destruct I as [I|[]]; discriminate I.
      * destruct (Arduino.servoTimer _); cbn in I;
          [destruct I as [I|[]]; discriminate I | destruct I].
      * cbn in I. destruct I as [I|[I|[I|[]]]]; discriminate I.
    + change [LedcSetDuty 296; Delay 100; DeepSleepStart]
        with ([LedcSetDuty 296; Delay 100] ++ [DeepSleepStart]).
      rewrite !app_assoc. apply last_last.
  - destruct B as (G & H & Lk & Mk).
    assert (E : Arduino.holdLoop fuel be (Arduino.millis_at be 0) 0 w1
                = Some (true, Nat.iter (S k) (Arduino.delay 50) w1)).
    { replace fuel with (S k + (fuel - S k))%nat by lia.
      apply holdLoop_more_fuel, holdLoop_long; [|exact Lk|exact Mk].
      intros j Hj. apply (H j Hj). }
    destruct (iter_delay_fields (S k) w1) as (_ & _ & _ & Rk).
    destruct (setup_proceeds fuel be timer_ok e (Arduino.boot_world l)
                (Nat.iter (S k) (Arduino.delay 50) w1))
      as (w' & S' & R' & [d L'] & P').
    { fold w1. unfold Arduino.handleWakeup. now rewrite G, E. }
    { rewrite Rk. reflexivity. }
    exists w'. split; [exact S'|]. split; [exact R'|]. split; [|exact P'].
    rewrite L'. apply in_or_app. right. now left.
  - destruct (setup_proceeds fuel be timer_ok e (Arduino.boot_world l) w1)
      as (w' & S' & R' & [d L'] & P').
    { fold w1. unfold Arduino.handleWakeup. now rewrite B. }
    { reflexivity. }
    exists w'. split; [exact S'|]. split; [exact R'|]. split; [|exact P'].
    rewrite L'. apply in_or_app. right. now left.
Qed.

Lemma boot_by_kind_witness :
  boot_is short_wake_boot (WakeShortPress 2) /\
  enough_fuel (WakeShortPress 2) 5 /\
  exists w',
    Arduino.setup 5 short_wake_boot true true arduino_unjoined_env
      (Arduino.boot_world default_light) = Some w' /\
    Arduino.running w' = false /\
    Arduino.pairing (Arduino.state w') = Arduino.PAIRING_IDLE /\
    ~ In ZbBegin (log (Arduino.board w')) /\
    last (log (Arduino.board w')) (Delay 0) = DeepSleepStart.
Proof.
  assert (B : boot_is short_wake_boot (WakeShortPress 2)).
  { split; [reflexivity|]. split; [|reflexivity].
    intros j Hj. destruct j as [|[|j]].
    - split; [reflexivity | discriminate].
    - split; [reflexivity | discriminate].
    - lia. }
  assert (F : enough_fuel (WakeShortPress 2) 5) by (cbn; lia).
  split; [exact B|]. split; [exact F|].
  exact (boot_by_kind short_wake_boot (WakeShortPress 2) 5 true
           arduino_unjoined_env default_light B F).
Defined.

(** The claim of C7 fails on a power-on boot: no button was held, the wake
    was no qualifying long hold, and the node, not joined, starts pairing. *)
Lemma power_on_boot_starts_pairing :
  ~ qualifying_hold power_on_boot /\
  exists w',
    Arduino.setup 0 power_on_boot true true arduino_unjoined_env
      (Arduino.boot_world default_light) = Some w' /\
    Arduino.running w' = true /\
    Arduino.pairing (Arduino.state w') = Arduino.PAIRING_IN_PROGRESS.
Proof.
  split.
  - intros [k (G & _)]. discriminate G.
  - eexists. split; [reflexivity|]. split; reflexivity.
Qed.

(** ** Colour temperature conversions *)

Lemma wrap_u16_small z : 0 <= z < 2 ^ 16 -> Arduino.wrap_u16 z = z.
Proof. intros H. unfold Arduino.wrap_u16. now rewrite Z.mod_small. Qed.

Lemma million_div_bounds k :
  16 <= k <= 65535 -> 15 <= 1000000 / k <= 62500.
Proof.
  intros H. split.
  - apply Z.div_le_lower_bound; lia.
  - apply Z.div_le_upper_bound; lia.
Qed.

Lemma kelvinToMireds_in_range k :
  16 <= k <= 65535 -> Arduino.kelvinToMireds k = Some (1000000 / k).
Proof.
  intros H. unfold Arduino.kelvinToMireds.
  replace (k =? 0) with false by (symmetry; apply Z.eqb_neq; lia).
  rewrite Z.quot_div_nonneg by lia.
  pose proof (million_div_bounds k H).
  rewrite wrap_u16_small by lia. reflexivity.
Qed.

Lemma miredsToKelvin_in_range m :
  16 <= m <= 65535 -> Arduino.miredsToKelvin m = Some (1000000 / m).
Proof. exact (kelvinToMireds_in_range m). Qed.

(** X1.  For a 16-bit argument, [kelvinToMireds] answers the quotient
    1000000 / kelvin exactly when the argument is at least 16: zero has no
    result, and from 1 to 15 the quotient does not fit 16 bits and is cut.
    In range the result lies between 15 and 62500 and does not grow with the
    argument. *)
Theorem kelvinToMireds_exact_iff (k : Z) :
  0 <= k <= 65535 ->
  (Arduino.kelvinToMireds k = Some (1000000 / k) <-> 16 <= k) /\
  (Arduino.kelvinToMireds k = None <-> k = 0) /\
  (16 <= k ->
   15 <= 1000000 / k <= 62500 /\
   forall k', k <= k' <= 65535 -> 1000000 / k' <= 1000000 / k).
Proof.
  intros H. split; [|split].
  - split.
    + intros E. unfold Arduino.kelvinToMireds in E.
      destruct (k =? 0) eqn:Z0; [discriminate|].
      apply Z.eqb_neq in Z0.
      destruct (Z_lt_le_dec k 16) as [Lt|Ge]; [exfalso|exact Ge].
      injection E as E. rewrite Z.quot_div_nonneg in E by lia.
      assert (65536 <= 1000000 / k)
        by (apply Z.div_le_lower_bound; lia).
      unfold Arduino.wrap_u16 in E.
      pose proof (Z.mod_pos_bound (1000000 / k) (2 ^ 16) ltac:(lia)).
      lia.
    + intros Ge. apply kelvinToMireds_in_range. lia.
  - unfold Arduino.kelvinToMireds. split.
    + destruct (k =? 0) eqn:Z0; [intros _; now apply Z.eqb_eq|discriminate].
    + intros ->. reflexivity.
  - intros Ge. split; [apply million_div_bounds; lia|].
    intros k' Hk. apply Z.div_le_compat_l; lia.
Qed.

Lemma kelvinToMireds_exact_iff_witness :
  (Arduino.kelvinToMireds 6500 = Some (1000000 / 6500) <-> 16 <= 6500) /\
  (Arduino.kelvinToMireds 6500 = None <-> 6500 = 0) /\
  (16 <= 6500 ->
   15 <= 1000000 / 6500 <= 62500 /\
   forall k', 6500 <= k' <= 65535 -> 1000000 / k' <= 1000000 / 6500).
Proof. apply (kelvinToMireds_exact_iff 6500). lia. Defined.

(** X2.  Kelvin to mireds and back: from 16 to 62500 kelvin the trip never
    answers less than it was given, it answers the same value up to 1000
    kelvin, and the mireds of the answer are the mireds of the argument.
    Above 62500 kelvin the mireds are 15 and the way back does not fit 16
    bits: it answers 1130. *)
Theorem kelvin_mireds_round_trip (k : Z) :
  16 <= k <= 65535 ->
  exists m k',
    Arduino.kelvinToMireds k = Some m /\
    Arduino.miredsToKelvin m = Some k' /\
    (k <= 62500 ->
     k <= k' /\ Arduino.kelvinToMireds k' = Some m /\ (k <= 1000 -> k' = k)) /\
    (62500 < k -> m = 15 /\ k' = 1130).
Proof.
  intros H.
  pose proof (million_div_bounds k H) as Hm.
  exists (1000000 / k).
  destruct (Z_le_gt_dec k 62500) as [Le|Gt].
  - assert (M16 : 16 <= 1000000 / k)
      by (apply Z.div_le_lower_bound; lia).
    exists (1000000 / (1000000 / k)).
    split; [apply kelvinToMireds_in_range; lia|].
    split; [apply miredsToKelvin_in_range; lia|].
    split; [|lia]. intros _.
    assert (Kk' : k <= 1000000 / (1000000 / k)).
    { apply Z.div_le_lower_bound; [lia|].
      rewrite Z.mul_comm. apply Z.mul_div_le. lia. }
    assert (K'max : 1000000 / (1000000 / k) <= 62500)
      by (apply Z.div_le_upper_bound; lia).
    split; [exact Kk'|]. split.
    + rewrite kelvinToMireds_in_range by lia. f_equal.
      apply Z.le_antisymm.
      * apply Z.div_le_compat_l; lia.
      * apply Z.div_le_lower_bound; [lia|].
        rewrite Z.mul_comm. apply Z.mul_div_le. lia.
    + intros K1000.
      apply Z.le_antisymm; [|exact Kk'].
      assert (Mk : k <= 1000000 / k)
        by (apply Z.div_le_lower_bound; nia).
      pose proof (Z.mul_succ_div_gt 1000000 k ltac:(lia)) as G.
      apply Z.lt_succ_r. apply Z.div_lt_upper_bound; [lia|]. nia.
  - assert (E : 1000000 / k = 15).
    { apply Z.le_antisymm; [|lia].
      apply Z.lt_succ_r. apply Z.div_lt_upper_bound; lia. }
    exists 1130. rewrite E.
    split; [rewrite kelvinToMireds_in_range by lia; now rewrite E|].
    split; [reflexivity|]. split; [lia|]. intros _. split; reflexivity.
Qed.

Lemma kelvin_mireds_round_trip_witness :
  exists m k',
    Arduino.kelvinToMireds 6500 = Some m /\
    Arduino.miredsToKelvin m = Some k' /\
    (6500 <= 62500 ->
     6500 <= k' /\ Arduino.kelvinToMireds k' = Some m /\
     (6500 <= 1000 -> k' = 6500)) /\
    (62500 < 6500 -> m = 15 /\ k' = 1130).
Proof. apply (kelvin_mireds_round_trip 6500). lia. Defined.

Example colour_temperature_range :
  Arduino.kelvinToMireds 6500 = Some 153 /\
  Arduino.kelvinToMireds 2000 = Some 500 /\
  Arduino.miredsToKelvin 153 = Some 6535 /\
  Arduino.kelvinToMireds 1 = Some 16960.
Proof. repeat split. Qed.

(** ** The light and its servo *)


(** X4.  Two toggles in a row bring the light state back, and the servo
    ends where the second toggle puts it: pressed, with the deadline of that
    toggle armed, when the light was on; at rest with none armed when it
    was off.  The servo commands made on the way are the two toggles' own,
    a release and a press, each after what the change callback of the
    library commands when it runs. *)
Theorem toggleLight_twice (e1 e2 : Arduino.env) (w : Arduino.world) :
  Arduino.lightState
    (Arduino.zbLight (Arduino.toggleLight e2 (Arduino.toggleLight e1 w)))
  = Arduino.lightState (Arduino.zbLight w) /\
  duty (Arduino.board (Arduino.toggleLight e2 (Arduino.toggleLight e1 w)))
  = (if Arduino.lightState (Arduino.zbLight w) then 933 else 296) /\
  alarms (Arduino.board (Arduino.toggleLight e2 (Arduino.toggleLight e1 w)))
  = (if Arduino.servoTimer w
     then if Arduino.lightState (Arduino.zbLight w)
          then [Arduino.now_us e2 + 2000000] else []
     else alarms (Arduino.board w)) /\
  servo_cmds
    (new_effects (Arduino.board w)
       (Arduino.board (Arduino.toggleLight e2 (Arduino.toggleLight e1 w))))
  = servo_cmds (callback_calls e1 (Arduino.servoTimer w))
      ++ [LedcSetDuty (if Arduino.lightState (Arduino.zbLight w)
                       then 296 else 933)]
      ++ servo_cmds (callback_calls e2 (Arduino.servoTimer w))
      ++ [LedcSetDuty (if Arduino.lightState (Arduino.zbLight w)
                       then 933 else 296)].
Proof.
  unfold Arduino.toggleLight.
  destruct (Arduino.lightState (Arduino.zbLight w)) eqn:L.
  - rewrite (turnLightOff_spec e1 w).
    cbn [Arduino.zbLight Arduino.lightState].
    rewrite turnLightOn_spec, turnLightOn_zbLight.
    cbn [Arduino.board Arduino.servoTimer Arduino.lightState duty alarms log].
    split; [reflexivity|]. split; [reflexivity|].
    split; [destruct (Arduino.servoTimer w); reflexivity|].
    erewrite new_effects_app by (rewrite <- !app_assoc; reflexivity).
    unfold servo_cmds, light_reports. rewrite !filter_app.
    destruct (Arduino.servoTimer w); destruct (Arduino.connected e1);
      destruct (Arduino.connected e2); cbn [filter is_servo_cmd app];
      rewrite ?app_nil_r, <- ?app_assoc; reflexivity.
  - rewrite (turnLightOn_spec e1 w), turnLightOn_zbLight.
    cbn [Arduino.zbLight Arduino.lightState].
    rewrite turnLightOff_spec.
    cbn [Arduino.board Arduino.servoTimer Arduino.zbLight Arduino.lightState
         duty alarms log].
    split; [reflexivity|]. split; [reflexivity|].
    split; [destruct (Arduino.servoTimer w); reflexivity|].
    erewrite new_effects_app by (rewrite <- !app_assoc; reflexivity).
    unfold servo_cmds, light_reports. rewrite !filter_app.
    destruct (Arduino.servoTimer w); destruct (Arduino.connected e1);
      destruct (Arduino.connected e2); cbn [filter is_servo_cmd app];
      rewrite ?app_nil_r, <- ?app_assoc; reflexivity.
Qed.

(** ** The main loop of the sketch *)

Lemma lock_closed_nil : lock_closed [].
Proof. intros rest. reflexivity. Qed.

Lemma lock_closed_app a b : lock_closed a -> lock_closed b -> lock_closed (a ++ b).
Proof.
  intros Ha Hb rest. rewrite <- app_assoc, Ha, Hb. reflexivity.
Qed.

Lemma lock_closed_scoped d : lock_closed d -> lock_scoped d = true.
Proof.
  intros H. unfold lock_scoped. rewrite <- (app_nil_r d), H. reflexivity.
Qed.

Lemma light_reports_closed c : lock_closed (light_reports c).
Proof. destruct c; intros rest; reflexivity. Qed.

Lemma appends_refl P w : appends P w w.
Proof.
  exists []. split; [now rewrite app_nil_r|].
  split; [apply lock_closed_nil | intros []].
Qed.

Lemma appends_trans P w1 w2 w3 :
  appends P w1 w2 -> appends P w2 w3 -> appends P w1 w3.
Proof.
  intros (d1 & L1 & C1 & S1) (d2 & L2 & C2 & S2).
  exists (d1 ++ d2). split; [rewrite L2, L1; now rewrite app_assoc|].
  split; [now apply lock_closed_app|].
  intros I. apply in_app_or in I. tauto.
Qed.

Lemma appends_weaken (P Q : Prop) w w' :
  (P -> Q) -> appends P w w' -> appends Q w w'.
Proof. intros H (d & L & C & S). exists d. tauto. Qed.

Ltac appends_concrete :=
  eexists; split;
  [ cbn; rewrite <- ?app_assoc; reflexivity
  | split; [ intros rest; reflexivity | cbn; intuition discriminate ] ].

Lemma turnLightOff_appends e w : appends False w (Arduino.turnLightOff e w).
Proof.
  rewrite turnLightOff_spec.
  unfold appends, light_reports, callback_calls, change_calls.
  cbn [Arduino.board log].
  destruct (Arduino.light_change e) as [|[] ? ? ?|[] ? ?];
    destruct (Arduino.servoTimer w); destruct (Arduino.connected e);
    appends_concrete.
Qed.

Lemma turnLightOn_appends e w : appends False w (Arduino.turnLightOn e w).
Proof.
  rewrite turnLightOn_spec.
  unfold appends, light_reports, callback_calls, change_calls.
  cbn [Arduino.board log].
  destruct (Arduino.light_change e) as [|[] ? ? ?|[] ? ?];
    destruct (Arduino.servoTimer w); destruct (Arduino.connected e);
    appends_concrete.
Qed.

Lemma handleButton_appends a e w : appends False w (Arduino.handleButton a e w).
Proof.
  destruct a; cbn [Arduino.handleButton].
  - apply appends_refl.
  - unfold Arduino.toggleLight.
    destruct (Arduino.lightState (Arduino.zbLight w));
      [apply turnLightOff_appends | apply turnLightOn_appends].
  - unfold appends. appends_concrete.
Qed.

Lemma updatePairingState_appends e w :
  appends (Arduino.pairing (Arduino.state w) = Arduino.PAIRING_FAILED)
    w (Arduino.updatePairingState e w).
Proof.
  unfold Arduino.updatePairingState. cbv zeta.
  destruct (Arduino.pairing (Arduino.state w)) eqn:P.
  - destruct (Arduino.connected e); cbn [negb]; [apply appends_refl|].
    unfold appends. exists []. cbn. rewrite app_nil_r.
    split; [reflexivity|]. split; [apply lock_closed_nil | intros []].
  - destruct (Arduino.connected e) eqn:C.
    + rewrite reportLightState_spec, lightChanged_spec, C.
      unfold appends, light_reports, callback_calls, change_calls.
      cbn [Arduino.servoTimer Arduino.with_board Arduino.setupReporting
           Arduino.setupLevelReporting Arduino.setupOnOffReporting
           Arduino.locked_request Arduino.set_state Arduino.delay snd].
      destruct (Arduino.light_change e) as [|[] ? ? ?|[] ? ?];
        destruct (Arduino.servoTimer w); appends_concrete.
    + destruct (_ >? Arduino.PAIRING_TIMEOUT_MS).
      * unfold appends. exists []. cbn. rewrite app_nil_r.
        split; [reflexivity|]. split; [apply lock_closed_nil | intros []].
      * unfold Arduino.ledBlink. cbv zeta.
        destruct (_ >=? Arduino.LED_SLOW_BLINK_MS).
        -- destruct (negb (Arduino.ledBlinkOn (Arduino.state w)));
             cbn; destruct (_ >? 1000); unfold appends; appends_concrete.
        -- destruct (_ >? 1000); unfold appends; cbn;
             (exists []; rewrite app_nil_r;
              split; [reflexivity|];
              split; [apply lock_closed_nil | intros []]).
  - unfold Arduino.enterDeepSleep, Arduino.servoRest, appends.
    destruct (Arduino.servoTimer w) eqn:T; cbn; rewrite ?T; cbn;
      (eexists; split; [rewrite <- ?app_assoc; reflexivity|];
       split; [intros rest; reflexivity | reflexivity]).
Qed.

Lemma handleButton_state a e w :
  Arduino.state (Arduino.handleButton a e w) = Arduino.state w.
Proof.
  destruct a; cbn [Arduino.handleButton]; [reflexivity| |reflexivity].
  unfold Arduino.toggleLight.
  destruct (Arduino.lightState (Arduino.zbLight w));
    [rewrite turnLightOff_spec | rewrite turnLightOn_spec]; reflexivity.
Qed.

Lemma loop_appends e1 e2 e3 w :
  appends (Arduino.pairing (Arduino.state w) = Arduino.PAIRING_FAILED)
    w (Arduino.loop e1 e2 e3 w).
Proof.
  unfold Arduino.loop.
  destruct (negb (Arduino.running w)); [apply appends_refl|].
  set (w1 := if Arduino.servoAutoReturnPending w
             then Arduino.turnLightOff e1
                    (Arduino.set_servoAutoReturnPending false w)
             else w).
  assert (A1 : appends (Arduino.pairing (Arduino.state w)
                        = Arduino.PAIRING_FAILED) w w1).
  { unfold w1. destruct (Arduino.servoAutoReturnPending w);
      [|apply appends_refl].
    apply (appends_weaken False); [intros []|].
    apply (turnLightOff_appends e1
             (Arduino.set_servoAutoReturnPending false w)). }
  assert (S1 : Arduino.state w1 = Arduino.state w).
  { unfold w1. destruct (Arduino.servoAutoReturnPending w); [|reflexivity].
    rewrite turnLightOff_spec. reflexivity. }
  destruct (Arduino.checkButton e2 (Arduino.buttonStatics w1)) as [a b].
  set (w2 := Arduino.handleButton a e2 (Arduino.set_buttonStatics b w1)).
  assert (A2 : appends (Arduino.pairing (Arduino.state w)
                        = Arduino.PAIRING_FAILED) w w2).
  { eapply appends_trans; [exact A1|].
    apply (appends_weaken False); [intros []|].
    apply (handleButton_appends a e2 (Arduino.set_buttonStatics b w1)). }
  assert (S2 : Arduino.state w2 = Arduino.state w).
  { unfold w2. rewrite handleButton_state. exact S1. }
  destruct (negb (Arduino.running w2)); [exact A2|].
  assert (A3 : appends (Arduino.pairing (Arduino.state w)
                        = Arduino.PAIRING_FAILED)
                 w (Arduino.updatePairingState e3 w2)).
  { eapply appends_trans; [exact A2|].
    rewrite <- S2. apply updatePairingState_appends. }
  destruct (negb (Arduino.running _)); [exact A3|].
  eapply appends_trans; [exact A3|].
  unfold appends. appends_concrete.
Qed.

(** X5.  Whatever it reads, one turn of [loop] makes every request into the
    Zigbee stack inside a lock region of its own (acquire, one request,
    release), and leaves the lock free. *)
Theorem loop_lock_scoped (e1 e2 e3 : Arduino.env) (w : Arduino.world) :
  lock_scoped
    (new_effects (Arduino.board w) (Arduino.board (Arduino.loop e1 e2 e3 w)))
  = true.
Proof.
  destruct (loop_appends e1 e2 e3 w) as (d & L & C & _).
  rewrite (new_effects_app _ _ d L). now apply lock_closed_scoped.
Qed.

(** X6.  A turn of [loop] enters deep sleep only from [PAIRING_FAILED]: button
    presses, reports and the auto-release never put the chip to sleep. *)
Theorem loop_sleeps_only_when_failed
    (e1 e2 e3 : Arduino.env) (w : Arduino.world) :
  In DeepSleepStart
     (new_effects (Arduino.board w)
        (Arduino.board (Arduino.loop e1 e2 e3 w))) ->
  Arduino.pairing (Arduino.state w) = Arduino.PAIRING_FAILED /\
  Arduino.running w = true.
Proof.
  intros I.
  destruct (loop_appends e1 e2 e3 w) as (d & L & _ & S).
  rewrite (new_effects_app _ _ d L) in I. split; [now apply S|].
  destruct (Arduino.running w) eqn:R; [reflexivity|].
  unfold Arduino.loop in L. rewrite R in L. cbn [negb] in L.
  rewrite <- (app_nil_r (log (Arduino.board w))) in L at 1.
  apply app_inv_head in L. subst d. destruct I.
Qed.

Lemma loop_sleeps_only_when_failed_witness :
  In DeepSleepStart
     (new_effects (Arduino.board arduino_failed)
        (Arduino.board
           (Arduino.loop arduino_env arduino_env arduino_env arduino_failed))) /\
  Arduino.pairing (Arduino.state arduino_failed) = Arduino.PAIRING_FAILED /\
  Arduino.running arduino_failed = true.
Proof.
  assert (I : In DeepSleepStart
                (new_effects (Arduino.board arduino_failed)
                   (Arduino.board
                      (Arduino.loop arduino_env arduino_env arduino_env
                         arduino_failed)))).
  { vm_compute. repeat (try (left; reflexivity); right). }
  split; [exact I|].
  exact (loop_sleeps_only_when_failed arduino_env arduino_env arduino_env
           arduino_failed I).
Defined.

(** X7.  Entering deep sleep always leaves the servo at its rest position with
    no auto-release deadline armed and the LED off: the last call made is
    the start of deep sleep, and nothing runs after it. *)
Theorem deep_sleep_leaves_servo_at_rest (w : Arduino.world) :
  duty (Arduino.board (Arduino.enterDeepSleep w)) = servo_duty SERVO_REST_ANGLE /\
  alarms (Arduino.board (Arduino.enterDeepSleep w))
  = (if Arduino.servoTimer w then [] else alarms (Arduino.board w)) /\
  new_effects (Arduino.board w) (Arduino.board (Arduino.enterDeepSleep w))
  = [LedWrite 0 0 0]
      ++ (if Arduino.servoTimer w then [TimerStop] else [])
      ++ [LedcSetDuty 296; Delay 100; DeepSleepStart] /\
  Arduino.running (Arduino.enterDeepSleep w) = false /\
  (forall e1 e2 e3,
      Arduino.loop e1 e2 e3 (Arduino.enterDeepSleep w)
      = Arduino.enterDeepSleep w).
Proof.
  unfold Arduino.enterDeepSleep, Arduino.servoRest.
  destruct (Arduino.servoTimer w) eqn:T; cbn; rewrite ?T; cbn;
    (split; [reflexivity|]; split; [reflexivity|];
     split; [log_delta|]; split; [reflexivity|]; intros; reflexivity).
Qed.

(** X8.  A turn of [loop] always leaves the auto-release flag down: it clears a
    raised flag and never raises it. *)
Theorem loop_leaves_no_pending (e1 e2 e3 : Arduino.env) (w : Arduino.world) :
  Arduino.running w = true ->
  Arduino.servoAutoReturnPending (Arduino.loop e1 e2 e3 w) = false.
Proof.
  intros R.
  destruct (Arduino.servoAutoReturnPending w) eqn:P.
  - now apply loop_consumes_pending.
  - unfold Arduino.loop. rewrite R, P. cbn [negb].
    destruct (Arduino.checkButton e2 (Arduino.buttonStatics w)) as [a b].
    set (w1 := Arduino.set_buttonStatics b w).
    destruct (handleButton_keeps a e2 w1) as [P2 _].
    change (Arduino.servoAutoReturnPending w1)
      with (Arduino.servoAutoReturnPending w) in P2.
    set (w2 := Arduino.handleButton a e2 w1) in *.
    destruct (updatePairingState_keeps e3 w2) as [P3 _].
    destruct (negb (Arduino.running w2)); [congruence|].
    destruct (negb (Arduino.running _)); [congruence|].
    cbn. congruence.
Qed.

Lemma loop_leaves_no_pending_witness :
  Arduino.running arduino_on = true /\
  Arduino.servoAutoReturnPending
    (Arduino.loop arduino_env arduino_env arduino_env arduino_on) = false.
Proof.
  split; [reflexivity|].
  exact (loop_leaves_no_pending arduino_env arduino_env arduino_env
           arduino_on eq_refl).
Defined.

(** X9.  An idle turn of [loop] does nothing but wait: with the flag down, the
    button up and not remembered as pressed, and the node paired and joined,
    the turn is the 10 ms delay and changes nothing else. *)
Theorem loop_idle_only_delays (e1 e2 e3 : Arduino.env) (w : Arduino.world) :
  Arduino.running w = true ->
  Arduino.servoAutoReturnPending w = false ->
  Arduino.pressed e2 = false ->
  Arduino.wasPressed (Arduino.buttonStatics w) = false ->
  Arduino.pairing (Arduino.state w) = Arduino.PAIRING_IDLE ->
  Arduino.connected e3 = true ->
  Arduino.loop e1 e2 e3 w = Arduino.delay 10 w.
Proof.
  intros R P B W I C.
  destruct w as [h t p st l bs lp r]. cbn in *. subst.
  unfold Arduino.loop, Arduino.checkButton. cbn. rewrite B, W. cbn.
  unfold Arduino.updatePairingState. cbn. rewrite I, C. cbn.
  destruct bs; reflexivity.
Qed.

Lemma loop_idle_only_delays_witness :
  Arduino.running arduino_on = true /\
  Arduino.servoAutoReturnPending arduino_on = false /\
  Arduino.pressed arduino_env = false /\
  Arduino.wasPressed (Arduino.buttonStatics arduino_on) = false /\
  Arduino.pairing (Arduino.state arduino_on) = Arduino.PAIRING_IDLE /\
  Arduino.connected arduino_env = true /\
  Arduino.loop arduino_env arduino_env arduino_env arduino_on
  = Arduino.delay 10 arduino_on.
Proof.
  repeat (split; [reflexivity|]).
  exact (loop_idle_only_delays arduino_env arduino_env arduino_env arduino_on
           eq_refl eq_refl eq_refl eq_refl eq_refl eq_refl).
Defined.

(** ** Auto-release, end to end *)

Ltac arduino_fields :=
  cbn [Arduino.board Arduino.servoTimer Arduino.servoAutoReturnPending
       Arduino.state Arduino.buttonStatics Arduino.lastPrint Arduino.running
       Arduino.zbLight duty alarms log negb andb
       Arduino.set_servoAutoReturnPending Arduino.set_buttonStatics
       Arduino.with_board Arduino.set_state Arduino.delay
       Arduino.pairing Arduino.lightState Arduino.lightLevel Arduino.lightRed
       Arduino.lightGreen Arduino.lightBlue].

(** A turn of [loop] that finds the flag raised, the button untouched and
    the network joined and idle, only turns the light off and waits. *)
Lemma loop_pending_idle e1 e2 e3 w :
  Arduino.running w = true ->
  Arduino.servoAutoReturnPending w = true ->
  Arduino.pressed e2 = false ->
  Arduino.wasPressed (Arduino.buttonStatics w) = false ->
  Arduino.pairing (Arduino.state w) = Arduino.PAIRING_IDLE ->
  Arduino.connected e3 = true ->
  Arduino.loop e1 e2 e3 w
  = Arduino.delay 10
      (Arduino.turnLightOff e1 (Arduino.set_servoAutoReturnPending false w)).
Proof.
  destruct w as [[d a lg] t p st l bs lp r]. cbn. intros -> -> B W I C.
  unfold Arduino.loop. rewrite turnLightOff_spec. arduino_fields.
  unfold Arduino.checkButton. rewrite B, W. arduino_fields.
  cbn [Arduino.handleButton]. arduino_fields.
  unfold Arduino.updatePairingState. arduino_fields. rewrite I, C.
  arduino_fields. reflexivity.
Qed.

(** X10.  The light turned on at [e0] with the timer created: before the
    deadline, 2000 ms later, the timer task does nothing.  Once the deadline
    has come the timer task raises the flag and leaves the servo pressed,
    and an otherwise idle turn of [loop] turns the light off: the servo is
    at rest, no deadline is armed, the flag is down, and the state is
    reported (On/Off, then the level) when joined and not otherwise. *)
Theorem auto_release_round_trip
    (e0 e1 e2 e3 : Arduino.env) (now : Z) (w : Arduino.world) :
  Arduino.running w = true ->
  Arduino.servoTimer w = true ->
  Arduino.servoAutoReturnPending w = false ->
  Arduino.pressed e2 = false ->
  Arduino.wasPressed (Arduino.buttonStatics w) = false ->
  Arduino.pairing (Arduino.state w) = Arduino.PAIRING_IDLE ->
  Arduino.connected e3 = true ->
  (now < Arduino.now_us e0 + 2000000 ->
   Arduino.timer_task now (Arduino.turnLightOn e0 w)
   = Arduino.turnLightOn e0 w) /\
  (Arduino.now_us e0 + 2000000 <= now ->
   Arduino.servoAutoReturnPending
     (Arduino.timer_task now (Arduino.turnLightOn e0 w)) = true /\
   duty (Arduino.board (Arduino.timer_task now (Arduino.turnLightOn e0 w)))
   = 933 /\
   Arduino.lightState
     (Arduino.zbLight
        (Arduino.loop e1 e2 e3
           (Arduino.timer_task now (Arduino.turnLightOn e0 w)))) = false /\
   duty (Arduino.board
           (Arduino.loop e1 e2 e3
              (Arduino.timer_task now (Arduino.turnLightOn e0 w)))) = 296 /\
   alarms (Arduino.board
             (Arduino.loop e1 e2 e3
                (Arduino.timer_task now (Arduino.turnLightOn e0 w)))) = [] /\
   Arduino.servoAutoReturnPending
     (Arduino.loop e1 e2 e3
        (Arduino.timer_task now (Arduino.turnLightOn e0 w))) = false /\
   reports
     (new_effects (Arduino.board (Arduino.turnLightOn e0 w))
        (Arduino.board
           (Arduino.loop e1 e2 e3
              (Arduino.timer_task now (Arduino.turnLightOn e0 w)))))
   = (if Arduino.connected e1
      then [ZbReportAttrCmdReq ClusterOnOff;
            ZbReportAttrCmdReq ClusterLevelControl]
      else [])).
Proof.
  intros R T P B W I C.
  rewrite (turnLightOn_spec e0 w).
  set (l1 := Arduino.zbLight (Arduino.turnLightOn e0 w)). clearbody l1.
  destruct w as [h t p st l bs lp r]. cbn in R, T, P, W, I. subst.
  cbn [Arduino.board Arduino.servoTimer Arduino.servoAutoReturnPending
       Arduino.state Arduino.buttonStatics Arduino.lastPrint Arduino.running
       log].
  set (lg := log h ++ _). clearbody lg.
  unfold Arduino.timer_task, esp_timer_due.
  cbn [Arduino.servoTimer Arduino.board alarms andb].
  split.
  - intros Lt.
    replace (_ <=? now) with false by (symmetry; apply Z.leb_gt; lia).
    reflexivity.
  - intros Ge.
    replace (_ <=? now) with true by (symmetry; apply Z.leb_le; lia).
    split; [reflexivity|]. split; [reflexivity|].
    rewrite loop_pending_idle by (assumption || reflexivity).
    rewrite turnLightOff_spec.
    unfold Arduino.servoReturnCallback, esp_timer_disarm. arduino_fields.
    repeat (split; [reflexivity|]).
    unfold emit. cbn [duty alarms log].
    erewrite new_effects_app by (cbn [log]; rewrite <- !app_assoc; reflexivity).
    unfold reports, light_reports, callback_calls, change_calls.
    destruct (Arduino.light_change e1) as [|[] ? ? ?|[] ? ?];
      destruct (Arduino.connected e1); reflexivity.
Qed.

Lemma auto_release_round_trip_witness :
  Arduino.running arduino_off = true /\
  Arduino.servoTimer arduino_off = true /\
  Arduino.servoAutoReturnPending arduino_off = false /\
  Arduino.pressed arduino_env = false /\
  Arduino.wasPressed (Arduino.buttonStatics arduino_off) = false /\
  Arduino.pairing (Arduino.state arduino_off) = Arduino.PAIRING_IDLE /\
  Arduino.connected arduino_env = true /\
  Arduino.now_us arduino_env_on + 2000000 <= 7000000 /\
  duty (Arduino.board
          (Arduino.loop arduino_env arduino_env arduino_env
             (Arduino.timer_task 7000000
                (Arduino.turnLightOn arduino_env_on arduino_off)))) = 296.
Proof.
  do 7 (split; [reflexivity|]).
  split; [cbn; lia|].
  refine (proj1 (proj2 (proj2 (proj2 (proj2
    (auto_release_round_trip arduino_env_on arduino_env arduino_env arduino_env
       7000000 arduino_off eq_refl eq_refl eq_refl eq_refl eq_refl eq_refl
       eq_refl) _))))).
  cbn. lia.
Defined.

(** ** legacy_esp_idf and H2: the auto-release timer *)

(** X11.  legacy_esp_idf [servo_play] against the esp_timer task, which
    nothing keeps out of it.  With the timer created: when no deadline is
    due during the call, a dispatch between its statements changes nothing;
    when the deadline of an earlier press is due, a dispatch after the write
    of [g_servo_at_target] makes [servo_play] return with the flag false
    and the servo commanded to rest, and a dispatch before that write with
    the flag true and the servo commanded to rest, in both cases with the
    new deadline armed; undisturbed, it returns with the flag true and the
    servo at the target. *)
Theorem legacy_play_preempted_by_expiry (s : Legacy.state) (now : Z) :
  Legacy.g_servo_timer s = true ->
  (esp_timer_due now (Legacy.board s) = false ->
   forall after_angle after_flag,
     Legacy.servo_play_preempted now after_angle after_flag s
     = Legacy.servo_play now s) /\
  Legacy.servo_play_preempted now false false s = Legacy.servo_play now s /\
  Legacy.g_servo_at_target (Legacy.servo_play now s) = true /\
  duty (Legacy.board (Legacy.servo_play now s)) = 933 /\
  alarms (Legacy.board (Legacy.servo_play now s)) = [now + 2000000] /\
  (esp_timer_due now (Legacy.board s) = true ->
   Legacy.g_servo_at_target (Legacy.servo_play_preempted now false true s)
   = false /\
   duty (Legacy.board (Legacy.servo_play_preempted now false true s)) = 296 /\
   alarms (Legacy.board (Legacy.servo_play_preempted now false true s))
   = [now + 2000000] /\
   Legacy.g_servo_at_target (Legacy.servo_play_preempted now true false s)
   = true /\
   duty (Legacy.board (Legacy.servo_play_preempted now true false s)) = 296 /\
   alarms (Legacy.board (Legacy.servo_play_preempted now true false s))
   = [now + 2000000]).
Proof.
  destruct s as [[d a l] c t tm led]. cbn [Legacy.g_servo_timer]. intros ->.
  unfold Legacy.servo_play_preempted, Legacy.servo_play, Legacy.timer_task,
    esp_timer_due.
  cbv zeta.
  destruct a as [|x a]; [|destruct (x <=? now) eqn:E]; cbn; rewrite ?E; cbn.
  - repeat split; try discriminate. intros _ [] []; reflexivity.
  - repeat split; try discriminate.
  - repeat split; try discriminate.
    intros _ [] []; cbn; rewrite ?E; reflexivity.
Qed.

Lemma legacy_play_preempted_by_expiry_witness :
  Legacy.g_servo_timer legacy_pressed = true /\
  esp_timer_due legacy_overdue_now (Legacy.board legacy_pressed) = true /\
  Legacy.g_servo_at_target
    (Legacy.servo_play_preempted legacy_overdue_now false true legacy_pressed)
  = false /\
  duty (Legacy.board
          (Legacy.servo_play_preempted legacy_overdue_now false true
             legacy_pressed)) = 296 /\
  alarms (Legacy.board
            (Legacy.servo_play_preempted legacy_overdue_now false true
               legacy_pressed)) = [legacy_overdue_now + 2000000].
Proof.
  split; [reflexivity | split; [reflexivity |]].
  pose proof (proj2 (proj2 (proj2 (proj2 (proj2
    (legacy_play_preempted_by_expiry legacy_pressed legacy_overdue_now
       eq_refl))))) eq_refl) as (F & D & A & _).
  split; [exact F | split; [exact D | exact A]].
Defined.

(** X12.  legacy_esp_idf, with the timer created: after [servo_play] at [t0]
    the esp_timer task does nothing before [t0 + 2 s]; dispatched at or
    after it, it commands the rest position once, clears the flag and leaves
    nothing armed, so that a later dispatch does nothing; and after
    [servo_rest] no dispatch at any time does anything. *)
Theorem legacy_auto_release (s : Legacy.state) (t0 now : Z) :
  Legacy.g_servo_timer s = true ->
  (now < t0 + 2000000 ->
   Legacy.timer_task now (Legacy.servo_play t0 s) = Legacy.servo_play t0 s) /\
  (t0 + 2000000 <= now ->
   Legacy.g_servo_at_target
     (Legacy.timer_task now (Legacy.servo_play t0 s)) = false /\
   duty (Legacy.board (Legacy.timer_task now (Legacy.servo_play t0 s))) = 296 /\
   alarms (Legacy.board (Legacy.timer_task now (Legacy.servo_play t0 s))) = [] /\
   new_effects (Legacy.board (Legacy.servo_play t0 s))
     (Legacy.board (Legacy.timer_task now (Legacy.servo_play t0 s)))
   = [LedcSetDuty 296] /\
   forall later,
     Legacy.timer_task later (Legacy.timer_task now (Legacy.servo_play t0 s))
     = Legacy.timer_task now (Legacy.servo_play t0 s)) /\
  (forall any,
     Legacy.timer_task any (Legacy.servo_rest (Legacy.servo_play t0 s))
     = Legacy.servo_rest (Legacy.servo_play t0 s)).
Proof.
  destruct s as [[d a l] c t tm led]. cbn. intros ->.
  unfold Legacy.timer_task, esp_timer_due. cbn.
  split; [|split].
  - intros L. replace (t0 + 2000000 <=? now) with false
      by (symmetry; apply Z.leb_gt; lia). reflexivity.
  - intros L. replace (t0 + 2000000 <=? now) with true
      by (symmetry; apply Z.leb_le; lia). cbn.
    repeat split.
    rewrite skipn_app, skipn_all, Nat.sub_diag. reflexivity.
  - reflexivity.
Qed.

Lemma legacy_auto_release_witness :
  Legacy.g_servo_timer legacy_boot = true /\
  Legacy.timer_task 1999999 (Legacy.servo_play 0 legacy_boot)
  = Legacy.servo_play 0 legacy_boot /\
  duty (Legacy.board (Legacy.timer_task 2000000 (Legacy.servo_play 0 legacy_boot)))
  = 296.
Proof.
  split; [reflexivity | split].
  - apply (proj1 (legacy_auto_release legacy_boot 0 1999999 eq_refl)). lia.
  - refine (proj1 (proj2
      (proj1 (proj2 (legacy_auto_release legacy_boot 0 2000000 eq_refl)) _))).
    lia.
Defined.

(** X13.  H2_Zigbee_Switch.ino, with the timer created: after [servoPlay]
    at [t0] the esp_timer task does nothing before [t0 + 2 s]; dispatched at
    or after it, [servoReturnCallback] commands the rest position once,
    clears the flag and leaves nothing armed, so that a later dispatch does
    nothing; and after [servoRest] no dispatch at any time does anything. *)
Theorem h2_auto_release (s : H2.state) (t0 now : Z) :
  H2.g_servoTimer s = true ->
  (now < t0 + 2000000 ->
   H2.timer_task now (H2.servoPlay t0 s) = H2.servoPlay t0 s) /\
  (t0 + 2000000 <= now ->
   H2.g_servoAtTarget (H2.timer_task now (H2.servoPlay t0 s)) = false /\
   duty (H2.board (H2.timer_task now (H2.servoPlay t0 s))) = 296 /\
   alarms (H2.board (H2.timer_task now (H2.servoPlay t0 s))) = [] /\
   new_effects (H2.board (H2.servoPlay t0 s))
     (H2.board (H2.timer_task now (H2.servoPlay t0 s)))
   = [LedcSetDuty 296] /\
   forall later,
     H2.timer_task later (H2.timer_task now (H2.servoPlay t0 s))
     = H2.timer_task now (H2.servoPlay t0 s)) /\
  (forall any,
     H2.timer_task any (H2.servoRest (H2.servoPlay t0 s))
     = H2.servoRest (H2.servoPlay t0 s)).
Proof.
  destruct s as [[d a l] c t tm]. cbn. intros ->.
  unfold H2.timer_task, esp_timer_due. cbn.
  split; [|split].
  - intros L. replace (t0 + 2000000 <=? now) with false
      by (symmetry; apply Z.leb_gt; lia). reflexivity.
  - intros L. replace (t0 + 2000000 <=? now) with true
      by (symmetry; apply Z.leb_le; lia). cbn.
    repeat split.
    rewrite skipn_app, skipn_all, Nat.sub_diag. reflexivity.
  - reflexivity.
Qed.

Lemma h2_auto_release_witness :
  H2.g_servoTimer h2_at_rest = true /\
  H2.timer_task 1999999 (H2.servoPlay 0 h2_at_rest) = H2.servoPlay 0 h2_at_rest /\
  duty (H2.board (H2.timer_task 2000000 (H2.servoPlay 0 h2_at_rest))) = 296.
Proof.
  split; [reflexivity | split].
  - apply (proj1 (h2_auto_release h2_at_rest 0 1999999 eq_refl)). lia.
  - refine (proj1 (proj2
      (proj1 (proj2 (h2_auto_release h2_at_rest 0 2000000 eq_refl)) _))).
    lia.
Defined.

(** ** legacy_esp_idf: one press of the button, from press to release *)

Lemma legacy_polls_delay n : forall s,
  Nat.iter n (Legacy.with_board (emit (Delay 20))) s
  = Legacy.with_board
      (fun h => mkHw (duty h) (alarms h) (log h ++ repeat (Delay 20) n)) s.
Proof.
  induction n as [|n IH]; intros [[d a l] c t tm led].
  - unfold Legacy.with_board. cbn. rewrite app_nil_r. reflexivity.
  - rewrite Nat.iter_succ_r, IH. unfold Legacy.with_board, emit. cbn.
    rewrite <- app_assoc. reflexivity.
Qed.

Lemma legacy_held_quiet p hs : forall s,
  Forall (fun i => Legacy.level i = Low /\
                   Z.quot (Legacy.now_us i) 1000 - p <= 3000) hs ->
  Legacy.button_task hs (Legacy.mkButton true p false) s
  = (Legacy.mkButton true p false,
     Nat.iter (length hs) (Legacy.with_board (emit (Delay 20))) s).
Proof.
  induction hs as [|i hs IH]; intros s F; [reflexivity|].
  inversion F as [|? ? [L B] F']; subst.
  cbn [Legacy.button_task length]. unfold Legacy.button_iteration.
  rewrite L. cbn.
  replace (Z.quot (Legacy.now_us i) 1000 - p >? Legacy.BUTTON_LONG_PRESS_MS)
    with false
    by (symmetry; rewrite Z.gtb_ltb; apply Z.ltb_ge;
        unfold Legacy.BUTTON_LONG_PRESS_MS; lia).
  rewrite IH by assumption. rewrite <- Nat.iter_succ_r. reflexivity.
Qed.

Lemma legacy_handled_quiet p hs : forall s,
  Forall (fun i => Legacy.level i = Low) hs ->
  Legacy.button_task hs (Legacy.mkButton true p true) s
  = (Legacy.mkButton true p true,
     Nat.iter (length hs) (Legacy.with_board (emit (Delay 20))) s).
Proof.
  induction hs as [|i hs IH]; intros s F; [reflexivity|].
  inversion F as [|? ? L F']; subst.
  cbn [Legacy.button_task length]. unfold Legacy.button_iteration.
  rewrite L. cbn.
  rewrite IH by assumption. rewrite <- Nat.iter_succ_r. reflexivity.
Qed.

Lemma legacy_button_task_app hs1 : forall hs2 b s,
  Legacy.button_task (hs1 ++ hs2) b s
  = Legacy.button_task hs2 (fst (Legacy.button_task hs1 b s))
                           (snd (Legacy.button_task hs1 b s)).
Proof.
  induction hs1 as [|i hs1 IH]; intros hs2 b s; [reflexivity|].
  cbn [app Legacy.button_task].
  destruct (Legacy.button_iteration i b s) as [b' s']. apply IH.
Qed.

Lemma actions_app l1 l2 : actions (l1 ++ l2) = actions l1 ++ actions l2.
Proof. apply filter_app. Qed.

Lemma actions_delays n ms : actions (repeat (Delay ms) n) = [].
Proof. induction n as [|n IH]; [reflexivity | exact IH]. Qed.

Ltac legacy_episode_delta :=
  repeat delta_rw;
  repeat (cbn [actions filter is_delay negb app];
          change (filter (fun e => negb (is_delay e))) with actions;
          rewrite ?actions_app, ?actions_delays);
  reflexivity.

(** X14.  legacy_esp_idf [button_task]: a press confirmed after the debounce
    delay, polled while held for at most 3000 ms and then released, acts as
    exactly one [servo_toggle] at the release, followed by one attribute
    report when joined and none otherwise; it makes no factory reset, leaves
    the indicator state alone, and the task is back in its initial state. *)
Theorem legacy_short_press
    (b : Legacy.button) (s : Legacy.state) (t0 tr : Z)
    (hs : list Legacy.sample) :
  Legacy.btn_pressed b = false ->
  Forall (fun i => Legacy.level i = Low /\
                   Z.quot (Legacy.now_us i) 1000 - Z.quot t0 1000 <= 3000) hs ->
  fst (Legacy.button_task
         (Legacy.mkSample Low Low t0 :: hs ++ [Legacy.mkSample High High tr])
         b s) = Legacy.button_init /\
  duty (Legacy.board (snd (Legacy.button_task
         (Legacy.mkSample Low Low t0 :: hs ++ [Legacy.mkSample High High tr])
         b s)))
  = duty (Legacy.board (Legacy.servo_toggle tr s)) /\
  alarms (Legacy.board (snd (Legacy.button_task
         (Legacy.mkSample Low Low t0 :: hs ++ [Legacy.mkSample High High tr])
         b s)))
  = alarms (Legacy.board (Legacy.servo_toggle tr s)) /\
  Legacy.g_servo_at_target (snd (Legacy.button_task
         (Legacy.mkSample Low Low t0 :: hs ++ [Legacy.mkSample High High tr])
         b s))
  = negb (Legacy.g_servo_at_target s) /\
  Legacy.g_led_state (snd (Legacy.button_task
         (Legacy.mkSample Low Low t0 :: hs ++ [Legacy.mkSample High High tr])
         b s))
  = Legacy.g_led_state s /\
  actions (new_effects (Legacy.board s) (Legacy.board (snd (Legacy.button_task
         (Legacy.mkSample Low Low t0 :: hs ++ [Legacy.mkSample High High tr])
         b s))))
  = actions (new_effects (Legacy.board s)
               (Legacy.board (Legacy.servo_toggle tr s)))
    ++ (if Legacy.g_zigbee_connected s
        then [ZbReportAttrCmdReq ClusterOnOff] else []).
Proof.
  destruct s as [[d a l] c t tm led], b as [bp ps lh].
  cbn [Legacy.btn_pressed Legacy.g_servo_at_target Legacy.g_led_state
       Legacy.g_zigbee_connected]. intros -> F.
  cbn [Legacy.button_task].
  unfold Legacy.button_iteration at 1 2 3 4 5 6.
  cbn [Legacy.level Legacy.level_debounced Legacy.btn_pressed Legacy.now_us].
  rewrite legacy_button_task_app, legacy_held_quiet by assumption.
  cbn [fst snd]. rewrite legacy_polls_delay.
  unfold Legacy.servo_toggle.
  destruct t, tm, c; (split; [reflexivity|]);
    repeat (split; [reflexivity|]); legacy_episode_delta.
Qed.

Lemma legacy_short_press_witness :
  Legacy.btn_pressed Legacy.button_init = false /\
  actions (new_effects (Legacy.board legacy_boot)
             (Legacy.board (snd (Legacy.button_task
                (Legacy.mkSample Low Low 5000000
                 :: [Legacy.mkSample Low Low 5100000]
                 ++ [Legacy.mkSample High High 5200000])
                Legacy.button_init legacy_boot))))
  = actions (new_effects (Legacy.board legacy_boot)
               (Legacy.board (Legacy.servo_toggle 5200000 legacy_boot)))
    ++ (if Legacy.g_zigbee_connected legacy_boot
        then [ZbReportAttrCmdReq ClusterOnOff] else []).
Proof.
  split; [reflexivity |].
  refine (proj2 (proj2 (proj2 (proj2 (proj2
    (legacy_short_press Legacy.button_init legacy_boot 5000000 5200000
       [Legacy.mkSample Low Low 5100000] eq_refl _)))))).
  repeat constructor. vm_compute. discriminate.
Defined.

(** X15.  legacy_esp_idf [button_task]: when a poll of the held button
    finds more than 3000 ms since the press, the indicator goes to
    LED_RESET_WARN, and the release, whenever it comes, makes exactly one
    factory reset and nothing else: the servo is not commanded, its flag
    and deadline are untouched and nothing is reported. *)
Theorem legacy_long_press
    (b : Legacy.button) (s : Legacy.state) (t0 tr : Z)
    (hs1 hs2 : list Legacy.sample) (h : Legacy.sample) :
  Legacy.btn_pressed b = false ->
  Forall (fun i => Legacy.level i = Low /\
                   Z.quot (Legacy.now_us i) 1000 - Z.quot t0 1000 <= 3000) hs1 ->
  Legacy.level h = Low ->
  Z.quot (Legacy.now_us h) 1000 - Z.quot t0 1000 > 3000 ->
  Forall (fun i => Legacy.level i = Low) hs2 ->
  fst (Legacy.button_task
         (Legacy.mkSample Low Low t0
          :: hs1 ++ h :: hs2 ++ [Legacy.mkSample High High tr]) b s)
  = Legacy.button_init /\
  Legacy.g_led_state (snd (Legacy.button_task
         (Legacy.mkSample Low Low t0
          :: hs1 ++ h :: hs2 ++ [Legacy.mkSample High High tr]) b s))
  = Legacy.LED_RESET_WARN /\
  duty (Legacy.board (snd (Legacy.button_task
         (Legacy.mkSample Low Low t0
          :: hs1 ++ h :: hs2 ++ [Legacy.mkSample High High tr]) b s)))
  = duty (Legacy.board s) /\
  alarms (Legacy.board (snd (Legacy.button_task
         (Legacy.mkSample Low Low t0
          :: hs1 ++ h :: hs2 ++ [Legacy.mkSample High High tr]) b s)))
  = alarms (Legacy.board s) /\
  Legacy.g_servo_at_target (snd (Legacy.button_task
         (Legacy.mkSample Low Low t0
          :: hs1 ++ h :: hs2 ++ [Legacy.mkSample High High tr]) b s))
  = Legacy.g_servo_at_target s /\
  actions (new_effects (Legacy.board s) (Legacy.board (snd (Legacy.button_task
         (Legacy.mkSample Low Low t0
          :: hs1 ++ h :: hs2 ++ [Legacy.mkSample High High tr]) b s))))
  = [ZbFactoryReset].
Proof.
  destruct s as [[d a l] c t tm led], b as [bp ps lh].
  cbn [Legacy.btn_pressed Legacy.g_servo_at_target Legacy.g_led_state
       Legacy.board duty alarms].
  intros -> F1 L H F2.
  cbn [Legacy.button_task].
  unfold Legacy.button_iteration at 1 2 3 4 5 6.
  cbn [Legacy.level Legacy.level_debounced Legacy.btn_pressed Legacy.now_us].
  rewrite legacy_button_task_app, legacy_held_quiet by assumption.
  cbn [fst snd]. rewrite legacy_polls_delay.
  cbn [Legacy.button_task].
  unfold Legacy.button_iteration at 1 2 3 4 5 6.
  rewrite L.
  cbn [Legacy.btn_pressed Legacy.long_press_handled Legacy.press_start_ms
       negb].
  replace (Z.quot (Legacy.now_us h) 1000 - Z.quot t0 1000
           >? Legacy.BUTTON_LONG_PRESS_MS) with true
    by (symmetry; rewrite Z.gtb_ltb; apply Z.ltb_lt;
        unfold Legacy.BUTTON_LONG_PRESS_MS; lia).
  rewrite legacy_button_task_app, legacy_handled_quiet by assumption.
  cbn [fst snd]. rewrite legacy_polls_delay.
  (split; [reflexivity|]); repeat (split; [reflexivity|]).
  legacy_episode_delta.
Qed.

Lemma legacy_long_press_witness :
  Legacy.btn_pressed Legacy.button_init = false /\
  Legacy.level (Legacy.mkSample Low Low 8100000) = Low /\
  Z.quot (Legacy.now_us (Legacy.mkSample Low Low 8100000)) 1000
    - Z.quot 5000000 1000 > 3000 /\
  actions (new_effects (Legacy.board legacy_boot)
             (Legacy.board (snd (Legacy.button_task
                (Legacy.mkSample Low Low 5000000
                 :: [Legacy.mkSample Low Low 6000000]
                 ++ Legacy.mkSample Low Low 8100000
                 :: [Legacy.mkSample Low Low 8150000]
                 ++ [Legacy.mkSample High High 8200000])
                Legacy.button_init legacy_boot))))
  = [ZbFactoryReset].
Proof.
  split; [reflexivity | split; [reflexivity | split; [reflexivity |]]].
  refine (proj2 (proj2 (proj2 (proj2 (proj2
    (legacy_long_press Legacy.button_init legacy_boot 5000000 8200000
       [Legacy.mkSample Low Low 6000000] [Legacy.mkSample Low Low 8150000]
       (Legacy.mkSample Low Low 8100000) eq_refl _ eq_refl eq_refl _)))))).
  - repeat constructor. vm_compute. discriminate.
  - repeat constructor.
Defined.

(** ** The indicator tasks *)

Lemma c_rem_2_even t : 0 <= t -> (c_rem t 2 =? 0) = Z.even t.
Proof.
  intros H. unfold c_rem. rewrite Z.rem_mod_nonneg by lia.
  destruct (Z.even t) eqn:E.
  - apply Z.even_spec in E. destruct E as [k ->].
    rewrite Z.mul_comm, Z_mod_mult. reflexivity.
  - rewrite <- Z.negb_odd in E. apply negb_false_iff, Z.odd_spec in E.
    destruct E as [k ->].
    rewrite Z.add_comm, Z.mul_comm, Z_mod_plus_full. reflexivity.
Qed.

Lemma c_rem_5_mod t : 0 <= t -> c_rem t 5 = t mod 5.
Proof. intros H. unfold c_rem. apply Z.rem_mod_nonneg; lia. Qed.

Lemma flat_map_seq_shift {A} (f : Z -> list A) tick n :
  flat_map (fun k => f (tick + Z.of_nat k)) (seq 1 n)
  = flat_map (fun k => f (tick + 1 + Z.of_nat k)) (seq 0 n).
Proof.
  rewrite <- seq_shift, !flat_map_concat_map, map_map. f_equal.
  apply map_ext. intros k. f_equal. lia.
Qed.

Lemma legacy_led_pairing n : forall tick s,
  Legacy.g_led_state s = Legacy.LED_PAIRING ->
  0 <= tick -> tick + Z.of_nat n < 2 ^ 31 ->
  fst (Legacy.led_task n true tick s) = tick + Z.of_nat n /\
  log (Legacy.board (snd (Legacy.led_task n true tick s)))
  = log (Legacy.board s)
      ++ flat_map
           (fun k => [LedWrite 0 0 (if Z.even (tick + Z.of_nat k)
                                    then 50 else 0);
                      Delay 100])
           (seq 0 n).
Proof.
  induction n as [|n IH]; intros tick s P L U.
  - cbn. rewrite app_nil_r, Z.add_0_r. split; reflexivity.
  - cbn [Legacy.led_task]. unfold Legacy.led_iteration. rewrite P.
    rewrite wrap_int_small, c_rem_2_even by lia.
    destruct (IH (tick + 1)
                (Legacy.with_board (emit (Delay 100))
                   (if Z.even tick
                    then Legacy.set_led true 0 0 50 s
                    else Legacy.set_led true 0 0 0 s))) as [T G];
      [destruct (Z.even tick); exact P | lia | lia |].
    rewrite T, G. split; [lia|].
    cbn [seq flat_map].
    rewrite (flat_map_seq_shift
               (fun z => [LedWrite 0 0 (if Z.even z then 50 else 0);
                          Delay 100])).
    cbn [Z.of_nat]. rewrite Z.add_0_r.
    destruct (Z.even tick); cbn; rewrite <- ?app_assoc; reflexivity.
Qed.

Lemma legacy_led_error n : forall tick s,
  Legacy.g_led_state s = Legacy.LED_ERROR ->
  0 <= tick -> tick + Z.of_nat n < 2 ^ 31 ->
  fst (Legacy.led_task n true tick s) = tick + Z.of_nat n /\
  log (Legacy.board (snd (Legacy.led_task n true tick s)))
  = log (Legacy.board s)
      ++ flat_map
           (fun k => [LedWrite (if (tick + Z.of_nat k) mod 5 =? 0
                                then 20 else 0) 0 0;
                      Delay 100])
           (seq 0 n).
Proof.
  induction n as [|n IH]; intros tick s P L U.
  - cbn. rewrite app_nil_r, Z.add_0_r. split; reflexivity.
  - cbn [Legacy.led_task]. unfold Legacy.led_iteration. rewrite P.
    rewrite wrap_int_small, c_rem_5_mod by lia.
    destruct (IH (tick + 1)
                (Legacy.with_board (emit (Delay 100))
                   (if tick mod 5 =? 0
                    then Legacy.set_led true 20 0 0 s
                    else Legacy.set_led true 0 0 0 s))) as [T G];
      [destruct (tick mod 5 =? 0); exact P | lia | lia |].
    rewrite T, G. split; [lia|].
    cbn [seq flat_map].
    rewrite (flat_map_seq_shift
               (fun z => [LedWrite (if z mod 5 =? 0 then 20 else 0) 0 0;
                          Delay 100])).
    cbn [Z.of_nat]. rewrite Z.add_0_r.
    destruct (tick mod 5 =? 0); cbn; rewrite <- ?app_assoc; reflexivity.
Qed.

(** X16.  legacy_esp_idf [led_task], with the strip present and the counter
    not overflowing: while the state is LED_PAIRING the iterations write
    blue and off in turn, blue when the counter is even; while it is
    LED_ERROR they write red when the counter is a multiple of five and off
    otherwise; each iteration waits 100 ms and advances the counter by
    one. *)
Theorem legacy_led_task_blinks (n : nat) (tick : Z) (s : Legacy.state) :
  0 <= tick -> tick + Z.of_nat n < 2 ^ 31 ->
  (Legacy.g_led_state s = Legacy.LED_PAIRING ->
   fst (Legacy.led_task n true tick s) = tick + Z.of_nat n /\
   new_effects (Legacy.board s)
     (Legacy.board (snd (Legacy.led_task n true tick s)))
   = flat_map
       (fun k => [LedWrite 0 0 (if Z.even (tick + Z.of_nat k) then 50 else 0);
                  Delay 100])
       (seq 0 n)) /\
  (Legacy.g_led_state s = Legacy.LED_ERROR ->
   fst (Legacy.led_task n true tick s) = tick + Z.of_nat n /\
   new_effects (Legacy.board s)
     (Legacy.board (snd (Legacy.led_task n true tick s)))
   = flat_map
       (fun k => [LedWrite (if (tick + Z.of_nat k) mod 5 =? 0 then 20 else 0)
                           0 0;
                  Delay 100])
       (seq 0 n)).
Proof.
  intros L U. split; intros P.
  - destruct (legacy_led_pairing n tick s P L U) as [T G].
    split; [exact T | apply new_effects_app, G].
  - destruct (legacy_led_error n tick s P L U) as [T G].
    split; [exact T | apply new_effects_app, G].
Qed.

Lemma legacy_led_task_blinks_witness :
  0 <= 0 /\ 0 + Z.of_nat 6 < 2 ^ 31 /\
  new_effects (Legacy.board legacy_unjoined)
    (Legacy.board (snd (Legacy.led_task 6 true 0 legacy_unjoined)))
  = flat_map
      (fun k => [LedWrite 0 0 (if Z.even (0 + Z.of_nat k) then 50 else 0);
                 Delay 100])
      (seq 0 6).
Proof.
  split; [lia | split; [reflexivity |]].
  refine (proj2 (proj1 (legacy_led_task_blinks 6 0 legacy_unjoined _ _) _));
    [lia | reflexivity | reflexivity].
Defined.

Lemma h2_led_task n led : forall tick s,
  0 <= tick -> tick + Z.of_nat n < 2 ^ 31 ->
  fst (H2.ledTask n led tick s) = tick + Z.of_nat n /\
  log (H2.board (snd (H2.ledTask n led tick s)))
  = log (H2.board s)
      ++ flat_map
           (fun k =>
              [match led with
               | H2.LED_OFF => LedWrite 0 0 0
               | H2.LED_PAIRING =>
                   LedWrite 0 0 (if Z.even (tick + Z.of_nat k) then 0 else 50)
               | H2.LED_CONNECTED => LedWrite 0 20 0
               | H2.LED_ERROR =>
                   LedWrite (if Z.even (tick + Z.of_nat k) then 0 else 50) 0 0
               end;
               Delay 200])
           (seq 0 n).
Proof.
  induction n as [|n IH]; intros tick s L U.
  - cbn. rewrite app_nil_r, Z.add_0_r. split; reflexivity.
  - cbn [H2.ledTask]. unfold H2.ledTask_iteration.
    rewrite wrap_int_small, c_rem_2_even by lia.
    match goal with
    | |- context [H2.ledTask n led (tick + 1) ?s1] =>
        destruct (IH (tick + 1) s1) as [T G]; [lia | lia |]
    end.
    rewrite T, G. split; [lia|].
    cbn [seq flat_map].
    rewrite (flat_map_seq_shift
               (fun z =>
                  [match led with
                   | H2.LED_OFF => LedWrite 0 0 0
                   | H2.LED_PAIRING =>
                       LedWrite 0 0 (if Z.even z then 0 else 50)
                   | H2.LED_CONNECTED => LedWrite 0 20 0
                   | H2.LED_ERROR =>
                       LedWrite (if Z.even z then 0 else 50) 0 0
                   end;
                   Delay 200])).
    cbn [Z.of_nat]. rewrite Z.add_0_r.
    destruct led; cbn; rewrite <- ?app_assoc; reflexivity.
Qed.

(** X17.  H2_Zigbee_Switch.ino [ledTask], the counter not overflowing: in
    LED_PAIRING the iterations write off and blue in turn, and in LED_ERROR
    off and red in turn, off when the counter is even; in LED_OFF they
    write off and in LED_CONNECTED green; every iteration, in every state,
    waits 200 ms and advances the counter by one. *)
Theorem h2_led_task_blinks
    (n : nat) (led : H2.LedState_t) (tick : Z) (s : H2.state) :
  0 <= tick -> tick + Z.of_nat n < 2 ^ 31 ->
  fst (H2.ledTask n led tick s) = tick + Z.of_nat n /\
  (led = H2.LED_PAIRING ->
   new_effects (H2.board s) (H2.board (snd (H2.ledTask n led tick s)))
   = flat_map
       (fun k => [LedWrite 0 0 (if Z.even (tick + Z.of_nat k) then 0 else 50);
                  Delay 200])
       (seq 0 n)) /\
  (led = H2.LED_ERROR ->
   new_effects (H2.board s) (H2.board (snd (H2.ledTask n led tick s)))
   = flat_map
       (fun k => [LedWrite (if Z.even (tick + Z.of_nat k) then 0 else 50) 0 0;
                  Delay 200])
       (seq 0 n)) /\
  (led = H2.LED_OFF ->
   new_effects (H2.board s) (H2.board (snd (H2.ledTask n led tick s)))
   = flat_map (fun _ => [LedWrite 0 0 0; Delay 200]) (seq 0 n)) /\
  (led = H2.LED_CONNECTED ->
   new_effects (H2.board s) (H2.board (snd (H2.ledTask n led tick s)))
   = flat_map (fun _ => [LedWrite 0 20 0; Delay 200]) (seq 0 n)).
Proof.
  intros L U. destruct (h2_led_task n led tick s L U) as [T G].
  split; [exact T|].
  repeat split; intros ->; apply new_effects_app, G.
Qed.

Lemma h2_led_task_blinks_witness :
  0 <= 0 /\ 0 + Z.of_nat 4 < 2 ^ 31 /\
  new_effects (H2.board h2_at_rest)
    (H2.board (snd (H2.ledTask 4 H2.LED_PAIRING 0 h2_at_rest)))
  = flat_map
      (fun k => [LedWrite 0 0 (if Z.even (0 + Z.of_nat k) then 0 else 50);
                 Delay 200])
      (seq 0 4).
Proof.
  split; [lia | split; [reflexivity |]].
  refine (proj1 (proj2 (h2_led_task_blinks 4 H2.LED_PAIRING 0 h2_at_rest _ _))
            eq_refl); [lia | reflexivity].
Defined.

(** ** Signals from the Zigbee stack *)

Lemma legacy_signal_step sig ok s :
  exists d,
    log (Legacy.board (Legacy.esp_zb_app_signal_handler sig ok s))
    = log (Legacy.board s) ++ d /\
    filter is_retry d
    = (match sig with
       | Legacy.SIGNAL_STEERING =>
           if ok then [] else [ZbSchedulerAlarm 1000]
       | _ => []
       end) /\
    Legacy.g_zigbee_connected (Legacy.esp_zb_app_signal_handler sig ok s)
    = Legacy.g_zigbee_connected s
      || match sig with Legacy.SIGNAL_STEERING => ok | _ => false end /\
    duty (Legacy.board (Legacy.esp_zb_app_signal_handler sig ok s))
    = duty (Legacy.board s) /\
    alarms (Legacy.board (Legacy.esp_zb_app_signal_handler sig ok s))
    = alarms (Legacy.board s) /\
    Legacy.g_servo_at_target (Legacy.esp_zb_app_signal_handler sig ok s)
    = Legacy.g_servo_at_target s.
Proof.
  destruct s as [[d a l] c t tm led].
  destruct sig, ok; cbn;
    first [ exists []; rewrite app_nil_r, ?orb_false_r, ?orb_true_r;
            repeat split; reflexivity
          | eexists; rewrite ?orb_false_r, ?orb_true_r;
            repeat split; reflexivity ].
Qed.

(** X18.  legacy_esp_idf [esp_zb_app_signal_handler], over any sequence of
    signals: a retry of the network steering is scheduled, 1000 ms ahead,
    once for each failed steering signal and for nothing else; the device
    counts as joined from the first successful steering signal on and is
    never marked as not joined again; and no signal touches the servo. *)
Theorem legacy_signals_retry_each_failure
    (l : list (Legacy.signal * bool)) (s : Legacy.state) :
  filter is_retry
    (new_effects (Legacy.board s) (Legacy.board (Legacy.signals l s)))
  = map (fun _ => ZbSchedulerAlarm 1000)
      (filter (fun x => match fst x with
                        | Legacy.SIGNAL_STEERING => negb (snd x)
                        | _ => false
                        end) l) /\
  Legacy.g_zigbee_connected (Legacy.signals l s)
  = Legacy.g_zigbee_connected s
    || existsb (fun x => match fst x with
                         | Legacy.SIGNAL_STEERING => snd x
                         | _ => false
                         end) l /\
  duty (Legacy.board (Legacy.signals l s)) = duty (Legacy.board s) /\
  alarms (Legacy.board (Legacy.signals l s)) = alarms (Legacy.board s) /\
  Legacy.g_servo_at_target (Legacy.signals l s) = Legacy.g_servo_at_target s.
Proof.
  enough (G : exists d,
             log (Legacy.board (Legacy.signals l s))
             = log (Legacy.board s) ++ d /\
             filter is_retry d
             = map (fun _ => ZbSchedulerAlarm 1000)
                 (filter (fun x => match fst x with
                                   | Legacy.SIGNAL_STEERING => negb (snd x)
                                   | _ => false
                                   end) l) /\
             Legacy.g_zigbee_connected (Legacy.signals l s)
             = Legacy.g_zigbee_connected s
               || existsb (fun x => match fst x with
                                    | Legacy.SIGNAL_STEERING => snd x
                                    | _ => false
                                    end) l /\
             duty (Legacy.board (Legacy.signals l s)) = duty (Legacy.board s) /\
             alarms (Legacy.board (Legacy.signals l s))
             = alarms (Legacy.board s) /\
             Legacy.g_servo_at_target (Legacy.signals l s)
             = Legacy.g_servo_at_target s).
  { destruct G as (d & E & R & rest).
    rewrite (new_effects_app _ _ d E). split; assumption. }
  revert s. induction l as [|[sig ok] l IH]; intros s.
  - exists []. cbn. rewrite app_nil_r, orb_false_r. repeat split.
  - unfold Legacy.signals in *. cbn [fold_left fst snd].
    destruct (legacy_signal_step sig ok s) as (d1 & E1 & R1 & C1 & D1 & A1 & T1).
    destruct (IH (Legacy.esp_zb_app_signal_handler sig ok s))
      as (d2 & E2 & R2 & C2 & D2 & A2 & T2).
    exists (d1 ++ d2).
    rewrite E2, E1, C2, C1, D2, D1, A2, A1, T2, T1, app_assoc, filter_app,
      R1, R2.
    cbn [filter existsb fst snd map].
    repeat split;
      destruct (Legacy.g_zigbee_connected s), sig, ok; reflexivity.
Qed.

Lemma idfmain_signal_step sig ok fn s :
  exists d,
    log (IdfMain.board (IdfMain.esp_zb_app_signal_handler sig ok fn s))
    = log (IdfMain.board s) ++ d /\
    filter is_retry d
    = (match sig with
       | IdfMain.SIGNAL_STEERING =>
           if ok then [] else [ZbSchedulerAlarm 1000]
       | _ => []
       end) /\
    duty (IdfMain.board (IdfMain.esp_zb_app_signal_handler sig ok fn s))
    = duty (IdfMain.board s) /\
    IdfMain.g_servo_state (IdfMain.esp_zb_app_signal_handler sig ok fn s)
    = IdfMain.g_servo_state s.
Proof.
  destruct s as [[d a l] c t led].
  destruct sig, ok, fn; cbn;
    first [ exists []; rewrite app_nil_r; repeat split; reflexivity
          | eexists; repeat split; reflexivity ].
Qed.

Lemma idfmain_signals_app l1 l2 s :
  IdfMain.signals (l1 ++ l2) s = IdfMain.signals l2 (IdfMain.signals l1 s).
Proof. apply fold_left_app. Qed.

(** X19.  main/main.c [esp_zb_app_signal_handler], over any sequence of
    signals: a retry of the network steering is scheduled, 1000 ms ahead,
    once for each failed steering signal and for nothing else, and no signal
    touches the servo; whatever came before, a leave signal ends not joined
    with the indicator off, and a successful steering signal ends joined
    with the indicator at LED_CONNECTED. *)
Theorem idfmain_signals_retry_each_failure
    (l : list (IdfMain.signal * bool * bool)) (s : IdfMain.state) :
  filter is_retry
    (new_effects (IdfMain.board s) (IdfMain.board (IdfMain.signals l s)))
  = map (fun _ => ZbSchedulerAlarm 1000)
      (filter (fun x => match fst (fst x) with
                        | IdfMain.SIGNAL_STEERING => negb (snd (fst x))
                        | _ => false
                        end) l) /\
  duty (IdfMain.board (IdfMain.signals l s)) = duty (IdfMain.board s) /\
  IdfMain.g_servo_state (IdfMain.signals l s) = IdfMain.g_servo_state s /\
  (forall ok fn,
     IdfMain.g_zigbee_connected
       (IdfMain.signals (l ++ [(IdfMain.SIGNAL_LEAVE, ok, fn)]) s) = false /\
     IdfMain.g_led_state
       (IdfMain.signals (l ++ [(IdfMain.SIGNAL_LEAVE, ok, fn)]) s)
     = IdfMain.LED_OFF) /\
  (forall fn,
     IdfMain.g_zigbee_connected
       (IdfMain.signals (l ++ [(IdfMain.SIGNAL_STEERING, true, fn)]) s) = true /\
     IdfMain.g_led_state
       (IdfMain.signals (l ++ [(IdfMain.SIGNAL_STEERING, true, fn)]) s)
     = IdfMain.LED_CONNECTED).
Proof.
  assert (G : exists d,
             log (IdfMain.board (IdfMain.signals l s))
             = log (IdfMain.board s) ++ d /\
             filter is_retry d
             = map (fun _ => ZbSchedulerAlarm 1000)
                 (filter (fun x => match fst (fst x) with
                                   | IdfMain.SIGNAL_STEERING =>
                                       negb (snd (fst x))
                                   | _ => false
                                   end) l) /\
             duty (IdfMain.board (IdfMain.signals l s))
             = duty (IdfMain.board s) /\
             IdfMain.g_servo_state (IdfMain.signals l s)
             = IdfMain.g_servo_state s).
  { revert s. induction l as [|[[sig ok] fn] l IH]; intros s.
    - exists []. cbn. rewrite app_nil_r. repeat split.
    - unfold IdfMain.signals in *. cbn [fold_left fst snd].
      destruct (idfmain_signal_step sig ok fn s) as (d1 & E1 & R1 & D1 & T1).
      destruct (IH (IdfMain.esp_zb_app_signal_handler sig ok fn s))
        as (d2 & E2 & R2 & D2 & T2).
      exists (d1 ++ d2).
      rewrite E2, E1, D2, D1, T2, T1, app_assoc, filter_app, R1, R2.
      cbn [filter fst snd map].
      repeat split; destruct sig, ok; reflexivity. }
  destruct G as (d & E & R & D & T).
  rewrite (new_effects_app _ _ d E).
  split; [exact R | split; [exact D | split; [exact T | split]]].
  - intros ok fn. rewrite idfmain_signals_app. split; reflexivity.
  - intros fn. rewrite idfmain_signals_app. split; reflexivity.
Qed.

(** ** Attribute writes from the network *)

Lemma legacy_write_step now m s :
  exists d,
    log (Legacy.board
           (snd (Legacy.zb_action_handler ESP_ZB_CORE_SET_ATTR_VALUE_CB_ID
                   now m s)))
    = log (Legacy.board s) ++ d /\
    servo_cmds d
    = (if on_off_write Legacy.HA_HUE_ENDPOINT m
       then [LedcSetDuty (if attr_value m then 933 else 296)] else []) /\
    Legacy.g_servo_at_target
      (snd (Legacy.zb_action_handler ESP_ZB_CORE_SET_ATTR_VALUE_CB_ID now m s))
    = (if on_off_write Legacy.HA_HUE_ENDPOINT m
       then attr_value m else Legacy.g_servo_at_target s).
Proof.
  destruct s as [[d a l] c t tm led]. unfold on_off_write. cbn.
  destruct (dst_endpoint m =? Legacy.HA_HUE_ENDPOINT),
           (msg_cluster m =? ESP_ZB_ZCL_CLUSTER_ID_ON_OFF),
           (attr_id m =? ESP_ZB_ZCL_ATTR_ON_OFF_ON_OFF_ID); cbn;
    try (exists []; rewrite app_nil_r; repeat split; reflexivity).
  destruct (attr_value m), tm; cbn; eexists;
    (split; [rewrite <- ?app_assoc; reflexivity | split; reflexivity]).
Qed.

(** X20.  legacy_esp_idf [zb_action_handler]: over any sequence of attribute
    writes, the servo is commanded once for each write of the On/Off
    attribute of the On/Off cluster on endpoint 10, to the target for on and
    to rest for off, and for no other write; afterwards the at-target flag
    is the value of the last such write, or what it was when there was
    none. *)
Theorem legacy_writes_follow_on_off
    (msgs : list (Z * attr_message)) (s : Legacy.state) :
  servo_cmds
    (new_effects (Legacy.board s) (Legacy.board (legacy_writes msgs s)))
  = map (fun x => LedcSetDuty (if attr_value (snd x) then 933 else 296))
      (filter (fun x => on_off_write 10 (snd x)) msgs) /\
  Legacy.g_servo_at_target (legacy_writes msgs s)
  = last (map (fun x => attr_value (snd x))
            (filter (fun x => on_off_write 10 (snd x)) msgs))
      (Legacy.g_servo_at_target s).
Proof.
  enough (G : exists d,
             log (Legacy.board (legacy_writes msgs s))
             = log (Legacy.board s) ++ d /\
             servo_cmds d
             = map (fun x => LedcSetDuty
                               (if attr_value (snd x) then 933 else 296))
                 (filter (fun x => on_off_write 10 (snd x)) msgs) /\
             Legacy.g_servo_at_target (legacy_writes msgs s)
             = last (map (fun x => attr_value (snd x))
                       (filter (fun x => on_off_write 10 (snd x)) msgs))
                 (Legacy.g_servo_at_target s)).
  { destruct G as (d & E & R & T).
    rewrite (new_effects_app _ _ d E). split; assumption. }
  revert s. induction msgs as [|[now m] msgs IH]; intros s.
  - exists []. cbn. rewrite app_nil_r. repeat split.
  - unfold legacy_writes in *. cbn [fold_left fst snd].
    destruct (legacy_write_step now m s) as (d1 & E1 & R1 & T1).
    destruct (IH (snd (Legacy.zb_action_handler
                         ESP_ZB_CORE_SET_ATTR_VALUE_CB_ID now m s)))
      as (d2 & E2 & R2 & T2).
    exists (d1 ++ d2). unfold servo_cmds in *.
    rewrite E2, E1, T2, T1, app_assoc, filter_app, R1, R2.
    cbn [filter fst snd]. change Legacy.HA_HUE_ENDPOINT with 10.
    destruct (on_off_write 10 m); cbn [map app];
      rewrite ?last_cons_default; repeat split.
Qed.

Lemma h2_write_step now m s :
  exists d,
    log (H2.board
           (snd (H2.zb_action_handler ESP_ZB_CORE_SET_ATTR_VALUE_CB_ID
                   now m s)))
    = log (H2.board s) ++ d /\
    servo_cmds d
    = (if on_off_write H2.ENDPOINT_ID m
       then [LedcSetDuty (if attr_value m then 933 else 296)] else []) /\
    H2.g_servoAtTarget
      (snd (H2.zb_action_handler ESP_ZB_CORE_SET_ATTR_VALUE_CB_ID now m s))
    = (if on_off_write H2.ENDPOINT_ID m
       then attr_value m else H2.g_servoAtTarget s).
Proof.
  destruct s as [[d a l] c t tm]. unfold on_off_write.
  cbn [H2.zb_action_handler]. unfold H2.zb_attribute_handler.
  destruct (dst_endpoint m =? H2.ENDPOINT_ID),
           (msg_cluster m =? ESP_ZB_ZCL_CLUSTER_ID_ON_OFF),
           (attr_id m =? ESP_ZB_ZCL_ATTR_ON_OFF_ON_OFF_ID); cbn;
    try (exists []; rewrite app_nil_r; repeat split; reflexivity).
  destruct (attr_value m), tm; cbn; eexists;
    (split; [rewrite <- ?app_assoc; reflexivity | split; reflexivity]).
Qed.

(** X21.  H2_Zigbee_Switch.ino [zb_action_handler]: over any sequence of
    attribute writes, the servo is commanded once for each write of the
    On/Off attribute of the On/Off cluster on endpoint 1, to the target for
    on and to rest for off, and for no other write; afterwards the at-target
    flag is the value of the last such write, or what it was when there was
    none. *)
Theorem h2_writes_follow_on_off
    (msgs : list (Z * attr_message)) (s : H2.state) :
  servo_cmds (new_effects (H2.board s) (H2.board (h2_writes msgs s)))
  = map (fun x => LedcSetDuty (if attr_value (snd x) then 933 else 296))
      (filter (fun x => on_off_write 1 (snd x)) msgs) /\
  H2.g_servoAtTarget (h2_writes msgs s)
  = last (map (fun x => attr_value (snd x))
            (filter (fun x => on_off_write 1 (snd x)) msgs))
      (H2.g_servoAtTarget s).
Proof.
  enough (G : exists d,
             log (H2.board (h2_writes msgs s)) = log (H2.board s) ++ d /\
             servo_cmds d
             = map (fun x => LedcSetDuty
                               (if attr_value (snd x) then 933 else 296))
                 (filter (fun x => on_off_write 1 (snd x)) msgs) /\
             H2.g_servoAtTarget (h2_writes msgs s)
             = last (map (fun x => attr_value (snd x))
                       (filter (fun x => on_off_write 1 (snd x)) msgs))
                 (H2.g_servoAtTarget s)).
  { destruct G as (d & E & R & T).
    rewrite (new_effects_app _ _ d E). split; assumption. }
  revert s. induction msgs as [|[now m] msgs IH]; intros s.
  - exists []. cbn. rewrite app_nil_r. repeat split.
  - unfold h2_writes in *. cbn [fold_left fst snd].
    destruct (h2_write_step now m s) as (d1 & E1 & R1 & T1).
    destruct (IH (snd (H2.zb_action_handler
                         ESP_ZB_CORE_SET_ATTR_VALUE_CB_ID now m s)))
      as (d2 & E2 & R2 & T2).
    exists (d1 ++ d2). unfold servo_cmds in *.
    rewrite E2, E1, T2, T1, app_assoc, filter_app, R1, R2.
    cbn [filter fst snd]. change H2.ENDPOINT_ID with 1.
    destruct (on_off_write 1 m); cbn [map app];
      rewrite ?last_cons_default; repeat split.
Qed.

Lemma idfmain_write_step m s :
  exists d,
    log (IdfMain.board
           (snd (IdfMain.zb_action_handler ESP_ZB_CORE_SET_ATTR_VALUE_CB_ID
                   m s)))
    = log (IdfMain.board s) ++ d /\
    servo_cmds d
    = (if on_off_write IdfMain.HA_HUE_ENDPOINT m
          && (attr_type m =? ESP_ZB_ZCL_ATTR_TYPE_BOOL)
       then [LedcSetDuty (if attr_value m then 1024 else 296)] else []) /\
    IdfMain.g_servo_state
      (snd (IdfMain.zb_action_handler ESP_ZB_CORE_SET_ATTR_VALUE_CB_ID m s))
    = (if on_off_write IdfMain.HA_HUE_ENDPOINT m
          && (attr_type m =? ESP_ZB_ZCL_ATTR_TYPE_BOOL)
       then attr_value m else IdfMain.g_servo_state s).
Proof.
  destruct s as [[d a l] c t led]. unfold on_off_write. cbn.
  destruct (dst_endpoint m =? IdfMain.HA_HUE_ENDPOINT),
           (msg_cluster m =? ESP_ZB_ZCL_CLUSTER_ID_ON_OFF),
           (attr_id m =? ESP_ZB_ZCL_ATTR_ON_OFF_ON_OFF_ID),
           (attr_type m =? ESP_ZB_ZCL_ATTR_TYPE_BOOL); cbn;
    try (exists []; rewrite app_nil_r; repeat split; reflexivity).
  destruct (attr_value m); cbn; eexists; repeat split.
Qed.

(** X22.  main/main.c [zb_action_handler]: over any sequence of attribute
    writes, the servo is commanded once for each write of the On/Off
    attribute of the On/Off cluster on endpoint 11 whose type is boolean,
    to 180 degrees for on and to rest for off, and for no other write, a
    write of another type included; afterwards [g_servo_state] is the value
    of the last such write, or what it was when there was none. *)
Theorem idfmain_writes_follow_on_off
    (msgs : list attr_message) (s : IdfMain.state) :
  servo_cmds
    (new_effects (IdfMain.board s) (IdfMain.board (idfmain_writes msgs s)))
  = map (fun m => LedcSetDuty (if attr_value m then 1024 else 296))
      (filter (fun m => on_off_write 11 m && (attr_type m =? 16)) msgs) /\
  IdfMain.g_servo_state (idfmain_writes msgs s)
  = last (map attr_value
            (filter (fun m => on_off_write 11 m && (attr_type m =? 16)) msgs))
      (IdfMain.g_servo_state s).
Proof.
  enough (G : exists d,
             log (IdfMain.board (idfmain_writes msgs s))
             = log (IdfMain.board s) ++ d /\
             servo_cmds d
             = map (fun m => LedcSetDuty (if attr_value m then 1024 else 296))
                 (filter (fun m => on_off_write 11 m && (attr_type m =? 16))
                    msgs) /\
             IdfMain.g_servo_state (idfmain_writes msgs s)
             = last (map attr_value
                       (filter (fun m => on_off_write 11 m
                                         && (attr_type m =? 16)) msgs))
                 (IdfMain.g_servo_state s)).
  { destruct G as (d & E & R & T).
    rewrite (new_effects_app _ _ d E). split; assumption. }
  revert s. induction msgs as [|m msgs IH]; intros s.
  - exists []. cbn. rewrite app_nil_r. repeat split.
  - unfold idfmain_writes in *. cbn [fold_left].
    destruct (idfmain_write_step m s) as (d1 & E1 & R1 & T1).
    destruct (IH (snd (IdfMain.zb_action_handler
                         ESP_ZB_CORE_SET_ATTR_VALUE_CB_ID m s)))
      as (d2 & E2 & R2 & T2).
    exists (d1 ++ d2). unfold servo_cmds in *.
    rewrite E2, E1, T2, T1, app_assoc, filter_app, R1, R2.
    cbn [filter]. change IdfMain.HA_HUE_ENDPOINT with 11.
    change ESP_ZB_ZCL_ATTR_TYPE_BOOL with 16.
    destruct (on_off_write 11 m && (attr_type m =? 16)); cbn [map app];
      rewrite ?last_cons_default; repeat split.
Qed.

(** ** Identify *)

Lemma map_seq_S {A} (f : nat -> A) n :
  map f (seq 1 n) = map (fun k => f (S k)) (seq 0 n).
Proof. rewrite <- seq_shift, map_map. reflexivity. Qed.

Lemma onIdentify_calls_log calls : forall b w,
  exists d,
    log (Arduino.board (snd (Arduino.onIdentify_calls calls b w)))
    = log (Arduino.board w) ++ d /\
    Arduino.servoTimer (snd (Arduino.onIdentify_calls calls b w))
    = Arduino.servoTimer w /\
    fst (Arduino.onIdentify_calls calls b w)
    = (if Nat.even (length (filter (fun c => negb (fst c =? 0)) calls))
       then b else negb b) /\
    servo_cmds d
    = flat_map
        (fun c => if fst c =? 0
                  then servo_cmds (callback_calls (snd c) (Arduino.servoTimer w))
                  else [])
        calls /\
    (Forall (fun c => fst c <> 0) calls ->
     d = map (fun k => if eqb b (Nat.odd k)
                       then LedWrite 255 255 255 else LedWrite 0 0 0)
           (seq 0 (length calls))).
Proof.
  induction calls as [|[t e] calls IH]; intros b w.
  - exists []. cbn. rewrite app_nil_r. repeat split.
  - cbn [Arduino.onIdentify_calls filter flat_map fst snd].
    unfold Arduino.onIdentify.
    destruct (t =? 0) eqn:Z; cbn [negb].
    + rewrite lightChanged_spec.
      match goal with
      | |- context [Arduino.onIdentify_calls calls b ?w1] =>
          destruct (IH b w1) as (d & E & T & F & S & N)
      end.
      exists (ZbRestoreLight :: callback_calls e (Arduino.servoTimer w) ++ d).
      rewrite E, T, F. cbn [Arduino.with_board Arduino.board Arduino.servoTimer
                              log emit].
      split; [rewrite <- !app_assoc; reflexivity|].
      split; [reflexivity|]. split; [reflexivity|].
      split.
      * unfold servo_cmds in *. cbn [filter is_servo_cmd].
        rewrite filter_app, S. reflexivity.
      * intros A. inversion A as [|? ? Ht ?]; subst.
        apply Z.eqb_eq in Z. cbn in Ht. contradiction.
    + destruct (IH (negb b)
                  (if negb b then Arduino.ledWhite w else Arduino.ledOff w))
        as (d & E & T & F & S & N).
      exists ((if negb b then LedWrite 255 255 255 else LedWrite 0 0 0) :: d).
      rewrite E, T, F. cbn [length seq map].
      split; [destruct b; cbn; rewrite <- app_assoc; reflexivity|].
      split; [destruct b; reflexivity|].
      split; [|split].
      * rewrite Nat.even_succ, <- Nat.negb_even.
        destruct (Nat.even _), b; reflexivity.
      * unfold servo_cmds in *.
        replace (Arduino.servoTimer
                   (if negb b then Arduino.ledWhite w else Arduino.ledOff w))
          with (Arduino.servoTimer w) in S by (destruct b; reflexivity).
        destruct b; cbn [negb filter is_servo_cmd app]; exact S.
      * intros A. inversion A as [|? ? _ A']; subst.
        rewrite (N A'), map_seq_S.
        f_equal; try (destruct b; reflexivity).
        apply map_ext. intros k. rewrite Nat.odd_succ, <- Nat.negb_odd.
        destruct b, (Nat.odd k); reflexivity.
Qed.

(** X23.  zigbee_switch.ino [onIdentify], over any sequence of calls.  Each
    call with a time that is not zero flips the phase and a call with time
    zero keeps it.  [onIdentify] itself never commands the servo: the servo
    commands made are those of the change callback that the library runs
    for [restoreLight], at the calls with time zero.  When no call has time
    zero, all that is done is to write the LED, white and off in turn,
    white when the phase left by the call before was off. *)
Theorem onIdentify_alternates
    (calls : list (Z * Arduino.env)) (blinkState : bool) (w : Arduino.world) :
  fst (Arduino.onIdentify_calls calls blinkState w)
  = (if Nat.even (length (filter (fun c => negb (fst c =? 0)) calls))
     then blinkState else negb blinkState) /\
  servo_cmds
    (new_effects (Arduino.board w)
       (Arduino.board (snd (Arduino.onIdentify_calls calls blinkState w))))
  = flat_map
      (fun c => if fst c =? 0
                then servo_cmds (callback_calls (snd c) (Arduino.servoTimer w))
                else [])
      calls /\
  (Forall (fun c => fst c <> 0) calls ->
   new_effects (Arduino.board w)
     (Arduino.board (snd (Arduino.onIdentify_calls calls blinkState w)))
   = map (fun k => if eqb blinkState (Nat.odd k)
                   then LedWrite 255 255 255 else LedWrite 0 0 0)
       (seq 0 (length calls))).
Proof.
  destruct (onIdentify_calls_log calls blinkState w)
    as (d & E & T & F & S & N).
  rewrite (new_effects_app _ _ d E).
  split; [exact F | split; [exact S | exact N]].
Qed.

(** ** The pairing indicator *)

Lemma tick_in_progress_blinks e w :
  Arduino.pairing (Arduino.state w) = Arduino.PAIRING_IN_PROGRESS ->
  Arduino.running w = true ->
  Arduino.connected e = false ->
  timed_out w e = false ->
  Arduino.pairing (Arduino.state (pairing_tick e w))
  = Arduino.PAIRING_IN_PROGRESS /\
  Arduino.running (pairing_tick e w) = true /\
  Arduino.pairingStartTime (Arduino.state (pairing_tick e w))
  = Arduino.pairingStartTime (Arduino.state w) /\
  duty (Arduino.board (pairing_tick e w)) = duty (Arduino.board w) /\
  alarms (Arduino.board (pairing_tick e w)) = alarms (Arduino.board w) /\
  ((wrap_u32 (Arduino.now_ms e - Arduino.lastLedToggle (Arduino.state w))
    >=? Arduino.LED_SLOW_BLINK_MS) = true ->
   log (Arduino.board (pairing_tick e w))
   = log (Arduino.board w)
       ++ [if negb (Arduino.ledBlinkOn (Arduino.state w))
           then LedWrite 0 0 255 else LedWrite 0 0 0] /\
   Arduino.ledBlinkOn (Arduino.state (pairing_tick e w))
   = negb (Arduino.ledBlinkOn (Arduino.state w))) /\
  ((wrap_u32 (Arduino.now_ms e - Arduino.lastLedToggle (Arduino.state w))
    >=? Arduino.LED_SLOW_BLINK_MS) = false ->
   log (Arduino.board (pairing_tick e w)) = log (Arduino.board w) /\
   Arduino.ledBlinkOn (Arduino.state (pairing_tick e w))
   = Arduino.ledBlinkOn (Arduino.state w)).
Proof.
  intros P R C T. unfold pairing_tick. rewrite R.
  unfold Arduino.updatePairingState. rewrite P, C.
  unfold timed_out in T. rewrite T.
  unfold Arduino.ledBlink. cbv zeta.
  destruct (_ >=? Arduino.LED_SLOW_BLINK_MS).
  - destruct (negb (Arduino.ledBlinkOn (Arduino.state w))) eqn:N;
      cbn; destruct (_ >? 1000); cbn; rewrite ?N;
      repeat (first [split | intros ?]); congruence.
  - destruct (_ >? 1000); cbn; repeat (first [split | intros ?]); congruence.
Qed.

Lemma pairing_run_blinks es : forall w,
  Arduino.pairing (Arduino.state w) = Arduino.PAIRING_IN_PROGRESS ->
  Arduino.running w = true ->
  Forall (fun e => Arduino.connected e = false /\
                   (wrap_u32 (Arduino.now_ms e
                              - Arduino.pairingStartTime (Arduino.state w))
                    >? Arduino.PAIRING_TIMEOUT_MS) = false) es ->
  exists n,
    (n <= length es)%nat /\
    log (Arduino.board (pairing_run es w))
    = log (Arduino.board w)
        ++ blink_seq (negb (Arduino.ledBlinkOn (Arduino.state w))) n /\
    Arduino.ledBlinkOn (Arduino.state (pairing_run es w))
    = (if Nat.even n then Arduino.ledBlinkOn (Arduino.state w)
       else negb (Arduino.ledBlinkOn (Arduino.state w))) /\
    Arduino.pairing (Arduino.state (pairing_run es w))
    = Arduino.PAIRING_IN_PROGRESS /\
    Arduino.running (pairing_run es w) = true /\
    duty (Arduino.board (pairing_run es w)) = duty (Arduino.board w) /\
    alarms (Arduino.board (pairing_run es w)) = alarms (Arduino.board w).
Proof.
  induction es as [|e es IH]; intros w P R F.
  - exists 0%nat. cbn. rewrite app_nil_r. repeat split; auto.
  - inversion F as [|? ? [C T] F']; subst.
    destruct (tick_in_progress_blinks e w P R C T)
      as (P1 & R1 & S1 & D1 & A1 & On & Off).
    unfold pairing_run in *. cbn [fold_left length].
    destruct (IH (pairing_tick e w) P1 R1) as (n & Le & L & B & P2 & R2 & D2 & A2).
    { rewrite S1. exact F'. }
    rewrite L, B, P2, R2, D2, D1, A2, A1.
    destruct (wrap_u32 (Arduino.now_ms e
                        - Arduino.lastLedToggle (Arduino.state w))
              >=? Arduino.LED_SLOW_BLINK_MS).
    + destruct (On eq_refl) as [L1 B1]. exists (S n).
      rewrite L1, B1, <- app_assoc, Nat.even_succ, <- Nat.negb_even.
      cbn [blink_seq app]. rewrite negb_involutive.
      repeat split; [lia | destruct (Nat.even n); reflexivity].
    + destruct (Off eq_refl) as [L1 B1]. exists n.
      rewrite L1, B1. repeat split. lia.
Qed.

(** X24.  zigbee_switch.ino, pairing in progress: over any number of turns
    that find the node not joined and measure no timeout, the calls made
    are writes of the LED and nothing else, blue and off in turn, at most
    one a turn, the first one blue when the blink phase was off; the machine
    stays in PAIRING_IN_PROGRESS and the servo is left alone. *)
Theorem pairing_indicator_alternates
    (es : list Arduino.env) (w : Arduino.world) :
  Arduino.pairing (Arduino.state w) = Arduino.PAIRING_IN_PROGRESS ->
  Arduino.running w = true ->
  Forall (fun e => Arduino.connected e = false /\ timed_out w e = false) es ->
  exists n,
    (n <= length es)%nat /\
    new_effects (Arduino.board w) (Arduino.board (pairing_run es w))
    = blink_seq (negb (Arduino.ledBlinkOn (Arduino.state w))) n /\
    Arduino.ledBlinkOn (Arduino.state (pairing_run es w))
    = (if Nat.even n then Arduino.ledBlinkOn (Arduino.state w)
       else negb (Arduino.ledBlinkOn (Arduino.state w))) /\
    Arduino.pairing (Arduino.state (pairing_run es w))
    = Arduino.PAIRING_IN_PROGRESS /\
    duty (Arduino.board (pairing_run es w)) = duty (Arduino.board w) /\
    alarms (Arduino.board (pairing_run es w)) = alarms (Arduino.board w).
Proof.
  intros P R F.
  destruct (pairing_run_blinks es w P R F)
    as (n & Le & L & B & P2 & R2 & D2 & A2).
  exists n. rewrite (new_effects_app _ _ _ L). repeat split; assumption.
Qed.

Lemma pairing_indicator_alternates_witness :
  Arduino.pairing (Arduino.state arduino_seeking)
  = Arduino.PAIRING_IN_PROGRESS /\
  Arduino.running arduino_seeking = true /\
  Forall (fun e => Arduino.connected e = false /\
                   timed_out arduino_seeking e = false)
    arduino_waiting_turns /\
  exists n,
    (n <= length arduino_waiting_turns)%nat /\
    new_effects (Arduino.board arduino_seeking)
      (Arduino.board (pairing_run arduino_waiting_turns arduino_seeking))
    = blink_seq
        (negb (Arduino.ledBlinkOn (Arduino.state arduino_seeking))) n.
Proof.
  assert (F : Forall (fun e => Arduino.connected e = false /\
                               timed_out arduino_seeking e = false)
                arduino_waiting_turns)
    by (repeat constructor).
  split; [reflexivity | split; [reflexivity | split; [exact F |]]].
  destruct (pairing_indicator_alternates arduino_waiting_turns arduino_seeking
              eq_refl eq_refl F) as (n & Le & L & _).
  exists n. split; assumption.
Defined.

(** ** The episodes of [checkButton] and the wake-up loop, on concrete
    readings *)

Lemma checkButton_short_episode_witness :
  Arduino.wasPressed (Arduino.mkButtonStatics false 0 false) = false /\
  Arduino.pressed (poll true 1000) = true /\
  Arduino.pressed (poll false 1200) = false /\
  fst (Arduino.checkButton_polls tap_polls
         (Arduino.mkButtonStatics false 0 false))
  = [Arduino.BUTTON_NONE; Arduino.BUTTON_NONE; Arduino.BUTTON_NONE;
     Arduino.BUTTON_SHORT_PRESS].
Proof.
  split; [reflexivity | split; [reflexivity | split; [reflexivity |]]].
  refine (proj1 (checkButton_short_episode
                   (Arduino.mkButtonStatics false 0 false)
                   (poll true 1000) [poll true 1010; poll true 1190]
                   (poll false 1200) eq_refl eq_refl eq_refl _)).
  repeat constructor; vm_compute; discriminate.
Defined.

Lemma checkButton_long_episode_witness :
  Arduino.wasPressed (Arduino.mkButtonStatics false 0 false) = false /\
  Arduino.pressed (poll true 4010) = true /\
  measured (Arduino.now_ms (poll true 1000)) (poll true 4010)
  > Arduino.LONG_PRESS_MS /\
  fst (Arduino.checkButton_polls hold_polls
         (Arduino.mkButtonStatics false 0 false))
  = [Arduino.BUTTON_NONE; Arduino.BUTTON_NONE; Arduino.BUTTON_NONE;
     Arduino.BUTTON_LONG_PRESS; Arduino.BUTTON_NONE; Arduino.BUTTON_NONE].
Proof.
  split; [reflexivity | split; [reflexivity | split; [reflexivity |]]].
  refine (proj1 (checkButton_long_episode
                   (Arduino.mkButtonStatics false 0 false)
                   (poll true 1000) [poll true 3990; poll true 4000]
                   (poll true 4010) [poll true 4020] (poll false 4030)
                   eq_refl eq_refl eq_refl _ eq_refl eq_refl _)).
  - repeat constructor; vm_compute; discriminate.
  - repeat constructor.
Defined.

Lemma handleWakeup_returns_witness :
  0 <= Arduino.millis_at held_wake_boot 0 /\
  (forall j, Arduino.millis_at held_wake_boot j + 50
             <= Arduino.millis_at held_wake_boot (S j)) /\
  Arduino.millis_at held_wake_boot 61 < 2 ^ 32 /\
  exists r,
    Arduino.handleWakeup 61 held_wake_boot (Arduino.boot_world default_light)
    = Some r.
Proof.
  assert (H0 : 0 <= Arduino.millis_at held_wake_boot 0) by (cbn; lia).
  assert (Hs : forall j, Arduino.millis_at held_wake_boot j + 50
                         <= Arduino.millis_at held_wake_boot (S j))
    by (intros j; cbn [Arduino.millis_at held_wake_boot]; lia).
  assert (Hm : Arduino.millis_at held_wake_boot 61 < 2 ^ 32) by reflexivity.
  split; [exact H0 | split; [exact Hs | split; [exact Hm |]]].
  exact (handleWakeup_returns held_wake_boot
           (Arduino.boot_world default_light) H0 Hs Hm).
Defined.

(** ** main/main.c: one press of the button, from press to release *)

Lemma idfmain_polls_delay n : forall s,
  Nat.iter n (IdfMain.with_board (emit (Delay 50))) s
  = IdfMain.with_board
      (fun h => mkHw (duty h) (alarms h) (log h ++ repeat (Delay 50) n)) s.
Proof.
  induction n as [|n IH]; intros [[d a l] c t led].
  - unfold IdfMain.with_board. cbn. rewrite app_nil_r. reflexivity.
  - rewrite Nat.iter_succ_r, IH. unfold IdfMain.with_board, emit. cbn.
    rewrite <- app_assoc. reflexivity.
Qed.

Lemma idfmain_held_quiet p hs : forall s,
  Forall (fun i => IdfMain.level i = Low /\
                   Z.quot (IdfMain.now_us i) 1000 - p <= 3000) hs ->
  IdfMain.button_task hs (IdfMain.mkButton Low p false) s
  = (IdfMain.mkButton Low p false,
     Nat.iter (length hs) (IdfMain.with_board (emit (Delay 50))) s).
Proof.
  induction hs as [|i hs IH]; intros s F; [reflexivity|].
  inversion F as [|? ? [L B] F']; subst.
  cbn [IdfMain.button_task length]. unfold IdfMain.button_iteration.
  rewrite L. cbn.
  replace (Z.quot (IdfMain.now_us i) 1000 - p >? IdfMain.BUTTON_LONG_PRESS_MS)
    with false
    by (symmetry; rewrite Z.gtb_ltb; apply Z.ltb_ge;
        unfold IdfMain.BUTTON_LONG_PRESS_MS; lia).
  cbn. rewrite IH by assumption. rewrite <- Nat.iter_succ_r. reflexivity.
Qed.

Lemma idfmain_handled_quiet p hs : forall s,
  Forall (fun i => IdfMain.level i = Low) hs ->
  IdfMain.button_task hs (IdfMain.mkButton Low p true) s
  = (IdfMain.mkButton Low p true,
     Nat.iter (length hs) (IdfMain.with_board (emit (Delay 50))) s).
Proof.
  induction hs as [|i hs IH]; intros s F; [reflexivity|].
  inversion F as [|? ? L F']; subst.
  cbn [IdfMain.button_task length]. unfold IdfMain.button_iteration.
  rewrite L. cbn.
  rewrite IH by assumption. rewrite <- Nat.iter_succ_r. reflexivity.
Qed.

Lemma idfmain_button_task_app hs1 : forall hs2 b s,
  IdfMain.button_task (hs1 ++ hs2) b s
  = IdfMain.button_task hs2 (fst (IdfMain.button_task hs1 b s))
                            (snd (IdfMain.button_task hs1 b s)).
Proof.
  induction hs1 as [|i hs1 IH]; intros hs2 b s; [reflexivity|].
  cbn [app IdfMain.button_task].
  destruct (IdfMain.button_iteration i b s) as [b' s']. apply IH.
Qed.

Lemma idfmain_press_iteration b s t0 :
  IdfMain.last_level b = High ->
  IdfMain.button_iteration (IdfMain.mkSample Low Low t0) b s
  = (IdfMain.mkButton Low (Z.quot t0 1000) false,
     IdfMain.with_board (emit (Delay 50))
       (IdfMain.with_board (emit (Delay 50)) s)).
Proof.
  destruct b as [ll ps hd]. cbn. intros ->.
  unfold IdfMain.button_iteration. cbn.
  rewrite Z.sub_diag. reflexivity.
Qed.

(** X25.  main/main.c [button_task]: a press confirmed after the debounce
    delay, later than the first millisecond after boot, polled while held
    for at most 3000 ms and then released, inverts [g_servo_state] with one
    servo command and makes one attribute report, joined or not; it makes no
    factory reset and leaves the indicator state alone. *)
Theorem idfmain_short_press
    (b : IdfMain.button) (s : IdfMain.state) (t0 tr : Z) (dl : gpio_level)
    (hs : list IdfMain.sample) :
  IdfMain.last_level b = High ->
  0 < Z.quot t0 1000 ->
  Forall (fun i => IdfMain.level i = Low /\
                   Z.quot (IdfMain.now_us i) 1000 - Z.quot t0 1000 <= 3000)
         hs ->
  fst (IdfMain.button_task
         (IdfMain.mkSample Low Low t0 :: hs ++ [IdfMain.mkSample High dl tr])
         b s) = IdfMain.button_init /\
  IdfMain.g_servo_state (snd (IdfMain.button_task
         (IdfMain.mkSample Low Low t0 :: hs ++ [IdfMain.mkSample High dl tr])
         b s))
  = negb (IdfMain.g_servo_state s) /\
  duty (IdfMain.board (snd (IdfMain.button_task
         (IdfMain.mkSample Low Low t0 :: hs ++ [IdfMain.mkSample High dl tr])
         b s)))
  = (if IdfMain.g_servo_state s then 296 else 1024) /\
  IdfMain.g_led_state (snd (IdfMain.button_task
         (IdfMain.mkSample Low Low t0 :: hs ++ [IdfMain.mkSample High dl tr])
         b s))
  = IdfMain.g_led_state s /\
  actions (new_effects (IdfMain.board s) (IdfMain.board (snd
         (IdfMain.button_task
            (IdfMain.mkSample Low Low t0 :: hs ++ [IdfMain.mkSample High dl tr])
            b s))))
  = [LedcSetDuty (if IdfMain.g_servo_state s then 296 else 1024);
     ZbReportAttrCmdReq ClusterOnOff].
Proof.
  intros LL P F.
  cbn [IdfMain.button_task]. rewrite (idfmain_press_iteration b s t0 LL).
  rewrite idfmain_button_task_app, idfmain_held_quiet by assumption.
  cbn [fst snd]. rewrite idfmain_polls_delay.
  cbn [IdfMain.button_task]. unfold IdfMain.button_iteration.
  cbn [IdfMain.level IdfMain.last_level IdfMain.handled IdfMain.press_start
       IdfMain.is_high IdfMain.is_low negb andb].
  replace (Z.quot t0 1000 >? 0) with true
    by (symmetry; rewrite Z.gtb_ltb; apply Z.ltb_lt; lia).
  destruct s as [[d a l] c t led].
  destruct t; (split; [reflexivity|]); repeat (split; [reflexivity|]);
    legacy_episode_delta.
Qed.

Lemma idfmain_short_press_witness :
  IdfMain.last_level IdfMain.button_init = High /\
  0 < Z.quot 5000000 1000 /\
  actions (new_effects (IdfMain.board idfmain_unjoined) (IdfMain.board (snd
         (IdfMain.button_task
            (IdfMain.mkSample Low Low 5000000
             :: [IdfMain.mkSample Low Low 5050000]
             ++ [IdfMain.mkSample High High 5100000])
            IdfMain.button_init idfmain_unjoined))))
  = [LedcSetDuty (if IdfMain.g_servo_state idfmain_unjoined
                  then 296 else 1024);
     ZbReportAttrCmdReq ClusterOnOff].
Proof.
  split; [reflexivity | split; [reflexivity |]].
  refine (proj2 (proj2 (proj2 (proj2
    (idfmain_short_press IdfMain.button_init idfmain_unjoined 5000000 5100000
       High [IdfMain.mkSample Low Low 5050000] eq_refl eq_refl _))))).
  repeat constructor. vm_compute. discriminate.
Defined.

(** X26.  main/main.c [button_task]: when a poll of the held button finds
    more than 3000 ms since the press, the indicator goes to LED_RESET_WARN,
    and the release makes exactly one factory reset and nothing else: no
    servo command and no report.  The task keeps its long-press mark after
    the release. *)
Theorem idfmain_long_press
    (b : IdfMain.button) (s : IdfMain.state) (t0 tr : Z) (dl : gpio_level)
    (hs1 hs2 : list IdfMain.sample) (h : IdfMain.sample) :
  IdfMain.last_level b = High ->
  Forall (fun i => IdfMain.level i = Low /\
                   Z.quot (IdfMain.now_us i) 1000 - Z.quot t0 1000 <= 3000)
         hs1 ->
  IdfMain.level h = Low ->
  Z.quot (IdfMain.now_us h) 1000 - Z.quot t0 1000 > 3000 ->
  Forall (fun i => IdfMain.level i = Low) hs2 ->
  fst (IdfMain.button_task
         (IdfMain.mkSample Low Low t0
          :: hs1 ++ h :: hs2 ++ [IdfMain.mkSample High dl tr]) b s)
  = IdfMain.mkButton High 0 true /\
  IdfMain.g_led_state (snd (IdfMain.button_task
         (IdfMain.mkSample Low Low t0
          :: hs1 ++ h :: hs2 ++ [IdfMain.mkSample High dl tr]) b s))
  = IdfMain.LED_RESET_WARN /\
  IdfMain.g_servo_state (snd (IdfMain.button_task
         (IdfMain.mkSample Low Low t0
          :: hs1 ++ h :: hs2 ++ [IdfMain.mkSample High dl tr]) b s))
  = IdfMain.g_servo_state s /\
  duty (IdfMain.board (snd (IdfMain.button_task
         (IdfMain.mkSample Low Low t0
          :: hs1 ++ h :: hs2 ++ [IdfMain.mkSample High dl tr]) b s)))
  = duty (IdfMain.board s) /\
  actions (new_effects (IdfMain.board s) (IdfMain.board (snd
         (IdfMain.button_task
            (IdfMain.mkSample Low Low t0
             :: hs1 ++ h :: hs2 ++ [IdfMain.mkSample High dl tr]) b s))))
  = [ZbFactoryReset].
Proof.
  intros LL F1 L H F2.
  cbn [IdfMain.button_task]. rewrite (idfmain_press_iteration b s t0 LL).
  rewrite idfmain_button_task_app, idfmain_held_quiet by assumption.
  cbn [fst snd]. rewrite idfmain_polls_delay.
  cbn [IdfMain.button_task]. unfold IdfMain.button_iteration at 1 2 3 4 5.
  rewrite L.
  cbn [IdfMain.level IdfMain.last_level IdfMain.handled IdfMain.press_start
       IdfMain.is_high IdfMain.is_low negb andb].
  replace (Z.quot (IdfMain.now_us h) 1000 - Z.quot t0 1000
           >? IdfMain.BUTTON_LONG_PRESS_MS) with true
    by (symmetry; rewrite Z.gtb_ltb; apply Z.ltb_lt;
        unfold IdfMain.BUTTON_LONG_PRESS_MS; lia).
  cbn [IdfMain.level IdfMain.last_level IdfMain.handled IdfMain.press_start
       IdfMain.is_high IdfMain.is_low negb andb].
  rewrite idfmain_button_task_app, idfmain_handled_quiet by assumption.
  cbn [fst snd]. rewrite idfmain_polls_delay.
  destruct s as [[d a l] c t led].
  (split; [reflexivity|]); repeat (split; [reflexivity|]).
  legacy_episode_delta.
Qed.

Lemma idfmain_long_press_witness :
  IdfMain.last_level IdfMain.button_init = High /\
  IdfMain.level (IdfMain.mkSample Low Low 8100000) = Low /\
  Z.quot (IdfMain.now_us (IdfMain.mkSample Low Low 8100000)) 1000
    - Z.quot 5000000 1000 > 3000 /\
  actions (new_effects (IdfMain.board idfmain_joined) (IdfMain.board (snd
         (IdfMain.button_task
            (IdfMain.mkSample Low Low 5000000
             :: [IdfMain.mkSample Low Low 6000000]
             ++ IdfMain.mkSample Low Low 8100000
             :: [IdfMain.mkSample Low Low 8150000]
             ++ [IdfMain.mkSample High High 8200000])
            IdfMain.button_init idfmain_joined))))
  = [ZbFactoryReset].
Proof.
  split; [reflexivity | split; [reflexivity | split; [reflexivity |]]].
  refine (proj2 (proj2 (proj2 (proj2
    (idfmain_long_press IdfMain.button_init idfmain_joined 5000000 8200000
       High [IdfMain.mkSample Low Low 6000000]
       [IdfMain.mkSample Low Low 8150000]
       (IdfMain.mkSample Low Low 8100000) eq_refl _ eq_refl eq_refl _))))).
  - repeat constructor. vm_compute. discriminate.
  - repeat constructor.
Defined.

(** ** [millis()] rolling over during a press *)

Lemma wrap_u32_elapsed t0 d :
  0 <= d < 2 ^ 32 -> wrap_u32 (wrap_u32 (t0 + d) - t0) = d.
Proof.
  intros H. unfold wrap_u32.
  rewrite Zminus_mod_idemp_l.
  replace (t0 + d - t0) with d by lia.
  apply Z.mod_small. exact H.
Qed.

(** X30.  zigbee_switch.ino [checkButton] measures a press in unsigned
    32-bit arithmetic, so a roll-over of [millis()] during the press does
    not disturb it: with the press remembered at [pressStartTime] and the
    poll made [d] ms later on the wrapped clock, a held button answers the
    long press exactly when [d] is more than 3000, and a released one the
    short press exactly when [d] is more than 100. *)
Theorem checkButton_survives_rollover
    (e : Arduino.env) (b : Arduino.ButtonStatics) (d : Z) :
  Arduino.wasPressed b = true ->
  Arduino.longPressHandled b = false ->
  0 <= d < 2 ^ 32 ->
  Arduino.now_ms e = wrap_u32 (Arduino.pressStartTime b + d) ->
  fst (Arduino.checkButton e b)
  = (if Arduino.pressed e
     then if d >? 3000 then Arduino.BUTTON_LONG_PRESS else Arduino.BUTTON_NONE
     else if d >? 100 then Arduino.BUTTON_SHORT_PRESS else Arduino.BUTTON_NONE).
Proof.
  intros W H D N. unfold Arduino.checkButton. cbv zeta.
  rewrite W, H, N, wrap_u32_elapsed by exact D.
  unfold Arduino.LONG_PRESS_MS, Arduino.DEBOUNCE_MS.
  destruct (Arduino.pressed e); cbn [andb negb].
  - destruct (d >? 3000); reflexivity.
  - destruct (d >? 100); reflexivity.
Qed.

Lemma checkButton_survives_rollover_witness :
  Arduino.wasPressed pressed_before_rollover = true /\
  Arduino.longPressHandled pressed_before_rollover = false /\
  0 <= 3500 < 2 ^ 32 /\
  Arduino.now_ms poll_after_rollover
  = wrap_u32 (Arduino.pressStartTime pressed_before_rollover + 3500) /\
  fst (Arduino.checkButton poll_after_rollover pressed_before_rollover)
  = Arduino.BUTTON_LONG_PRESS.
Proof.
  split; [reflexivity | split; [reflexivity | split; [lia | split;
    [reflexivity |]]]].
  refine (checkButton_survives_rollover poll_after_rollover
            pressed_before_rollover 3500 eq_refl eq_refl _ eq_refl). lia.
Defined.

(** ** Runs on concrete inputs *)

Example tap_polls_short_press :
  fst (Arduino.checkButton_polls tap_polls (Arduino.mkButtonStatics false 0 false))
  = [Arduino.BUTTON_NONE; Arduino.BUTTON_NONE; Arduino.BUTTON_NONE;
     Arduino.BUTTON_SHORT_PRESS].
Proof. reflexivity. Qed.

Example hold_polls_long_press_once :
  fst (Arduino.checkButton_polls hold_polls (Arduino.mkButtonStatics false 0 false))
  = [Arduino.BUTTON_NONE; Arduino.BUTTON_NONE; Arduino.BUTTON_NONE;
     Arduino.BUTTON_LONG_PRESS; Arduino.BUTTON_NONE; Arduino.BUTTON_NONE].
Proof. reflexivity. Qed.

Example legacy_tap_unjoined_no_report :
  new_effects (Legacy.board legacy_unjoined)
    (Legacy.board
       (snd (Legacy.button_task legacy_tap Legacy.button_init legacy_unjoined)))
  = [Delay 50; Delay 20; Delay 50; LedcSetDuty 933; TimerStop;
     TimerStartOnce 2000000; Delay 20].
Proof. reflexivity. Qed.

Example long_wake_boot_starts_pairing :
  option_map (fun w => (Arduino.running w, Arduino.pairing (Arduino.state w)))
    (Arduino.setup 5 long_wake_boot true true arduino_unjoined_env
       (Arduino.boot_world default_light))
  = Some (true, Arduino.PAIRING_IN_PROGRESS).
Proof. reflexivity. Qed.

Example short_wake_boot_log :
  option_map (fun w => log (Arduino.board w))
    (Arduino.setup 5 short_wake_boot true true arduino_unjoined_env
       (Arduino.boot_world default_light))
  = Some [LedWrite 0 0 0; LedcSetDuty 296; Delay 50; Delay 50;
          LedWrite 0 0 0; TimerStop; LedcSetDuty 296; Delay 100;
          DeepSleepStart].
Proof. reflexivity. Qed.

Example timeout_then_sleep :
  pairing_states arduino_unjoined_turns arduino_seeking
  = [Arduino.PAIRING_IN_PROGRESS; Arduino.PAIRING_FAILED;
     Arduino.PAIRING_FAILED].
Proof. reflexivity. Qed.
